(** * openroute_directions.py: a shallow embedding and its properties

    The program is an interactive client: it geocodes two addresses, asks a
    routing service for a driving route and prints duration, distance, an
    optional fuel estimate and the steps.

    The development follows the source file top-down:
    - [PyStr], [PyNum]: the parts of Python's [str], [int] and [float] the
      program relies on (strip, lower, slicing, [float()], [round()],
      format specifications [02d], [.2f], [.1f]);
    - [PyVal]: JSON values as Python objects, with [dict.get], truthiness,
      subscripting, iteration and [str()];
    - [Effects]: a state-and-exception monad over the process environment
      (standard input, environment variable, network replies, output);
    - [Route]: the functions of the program, one definition per [def];
    - the vocabulary of the statements, then the examples, lemmas and
      theorems, component by component.

    Python [float] is IEEE-754 binary64 and is modelled by Rocq's primitive
    floats, which are the same format.  Python [str] is modelled by
    [String.string], one [ascii] per character; white space, digits and
    case mapping are the ASCII ones, so the model is exact on ASCII text
    (the one literal of the program that is not ASCII, in the farewell, is
    written as its UTF-8 bytes). *)

From Stdlib Require Import ZArith List String Ascii Bool Lia.
From Stdlib Require Import Floats.PrimFloat Floats.SpecFloat Floats.FloatOps.
Import ListNotations.

Set Warnings "-inexact-float,-register-all".

Local Open Scope string_scope.
Local Open Scope Z_scope.

(** ** Strings *)

Module PyStr.

  (** [str.isspace] on an ASCII character: TAB..CR, FS..US and the blank. *)
Definition is_space (c : ascii) : bool :=
    let n := Z.of_nat (nat_of_ascii c) in
    ((9 <=? n) && (n <=? 13)) || ((28 <=? n) && (n <=? 32)).

Fixpoint lstrip (s : string) : string :=
    match s with
    | String c s' => if is_space c then lstrip s' else s
    | EmptyString => EmptyString
    end.

  (** [rstrip] keeps a character when something that is not white space
      follows it, or when it is itself not white space. *)
Fixpoint rstrip (s : string) : string :=
    match s with
    | String c s' =>
        match rstrip s' with
        | EmptyString => if is_space c then EmptyString else String c EmptyString
        | t => String c t
        end
    | EmptyString => EmptyString
    end.

  (** [s.strip()] *)
Definition strip (s : string) : string := rstrip (lstrip s).

Definition lower_char (c : ascii) : ascii :=
    let n := nat_of_ascii c in
    if (65 <=? n)%nat && (n <=? 90)%nat then ascii_of_nat (n + 32) else c.

  (** [s.lower()] *)
Fixpoint lower (s : string) : string :=
    match s with
    | String c s' => String (lower_char c) (lower s')
    | EmptyString => EmptyString
    end.

  (** [s[:n]] for a non-negative [n]. *)
Fixpoint take (n : nat) (s : string) : string :=
    match n, s with
    | S n', String c s' => String c (take n' s')
    | _, _ => EmptyString
    end.

  (** [s[n:]] for a non-negative [n]. *)
Fixpoint drop (n : nat) (s : string) : string :=
    match n, s with
    | S n', String c s' => drop n' s'
    | _, _ => s
    end.

Definition len (s : string) : Z := Z.of_nat (String.length s).

  (** [sep.join(l)] *)
Fixpoint join (sep : string) (l : list string) : string :=
    match l with
    | [] => ""
    | [x] => x
    | x :: rest => x ++ sep ++ join sep rest
    end.

  (** The characters of a string, as one-character strings (what iterating
      over a [str] yields). *)
Fixpoint chars (s : string) : list string :=
    match s with
    | String c s' => String c EmptyString :: chars s'
    | EmptyString => []
    end.

Fixpoint repeat_char (c : ascii) (n : nat) : string :=
    match n with
    | O => EmptyString
    | S n' => String c (repeat_char c n')
    end.

Definition digit_char (d : Z) : ascii := ascii_of_nat (48 + Z.to_nat d).

  (** Decimal digits of a positive number, most significant first; [fuel]
      bounds the number of digits. *)
Fixpoint digits_aux (fuel : nat) (n : Z) (acc : string) : string :=
    match fuel with
    | O => acc
    | S fuel' =>
        let acc' := String (digit_char (n mod 10)) acc in
        if n <? 10 then acc' else digits_aux fuel' (n / 10) acc'
    end.

Definition digits (n : Z) : string :=
    digits_aux (S (Z.to_nat (Z.log2 n))) n "".

  (** [str(n)] for an [int]. *)
Definition of_int (n : Z) : string :=
    if n <? 0 then String "-" (digits (- n)) else digits n.

  (** [format(n, "02d")]: sign-aware zero padding to width 2. *)
Definition fmt_02d (n : Z) : string :=
    let s := of_int n in
    if (String.length s <? 2)%nat then String "0" s else s.

  (** The digits of [n], zero-padded on the left to [w] characters. *)
Definition digits_pad (w : nat) (n : Z) : string :=
    let s := digits n in
    repeat_char "0" (w - String.length s) ++ s.

End PyStr.

(** ** Exceptions

    The exceptions the program can meet.  [SystemExit] is what [sys.exit]
    raises; it is not an [Exception], so [except Exception] lets it pass. *)

Inductive exn : Type :=
| TypeError | ValueError | AttributeError | KeyError | IndexError
| OverflowError | JSONDecodeError | EOFError
| SystemExit (code : Z).

Inductive outcome (A : Type) : Type :=
| Ok (a : A)
| Raise (e : exn).
Arguments Ok {A} a.
Arguments Raise {A} e.

Definition obind {A B} (o : outcome A) (k : A -> outcome B) : outcome B :=
  match o with
  | Ok a => k a
  | Raise e => Raise e
  end.

(** ** Numbers *)

Module PyNum.

  (** *** Integers to floats: [float(n)] rounds to nearest, ties to even,
      and raises [OverflowError] beyond the range of a double. *)
Definition float_of_int (z : Z) : outcome float :=
    match binary_normalize prec emax z 0 false with
    | S754_infinity _ => Raise OverflowError
    | sf => Ok (SF2Prim sf)
    end.

  (** *** Rounding a fraction [num / den] ([0 < den]) to the nearest
      integer, ties to even. *)
Definition round_half_even (num den : Z) : Z :=
    let q := num / den in
    let r := num mod den in
    match 2 * r ?= den with
    | Lt => q
    | Gt => q + 1
    | Eq => if Z.even q then q else q + 1
    end.

  (** The exact value of a finite float, as numerator and positive
      denominator. *)
Definition fraction_of_finite (s : bool) (m : positive) (e : Z) : Z * Z :=
    let n := if s then Zneg m else Zpos m in
    if 0 <=? e then (n * 2 ^ e, 1) else (n, 2 ^ (- e)).

  (** *** [round(x)] for a float [x]: an [int]; [OverflowError] on an
      infinity, [ValueError] on a NaN. *)
Definition round (x : float) : outcome Z :=
    match Prim2SF x with
    | S754_zero _ => Ok 0
    | S754_finite s m e =>
        let '(n, d) := fraction_of_finite s m e in Ok (round_half_even n d)
    | S754_infinity _ => Raise OverflowError
    | S754_nan => Raise ValueError
    end.

  (** *** [format(x, ".pf")]: the exact value rounded to [p] decimals,
      ties to even; the sign is that of [x], also when the digits are all
      zero. *)
Definition sign_str (s : bool) : string := if s then "-" else "".

Definition fmt_fixed (p : nat) (x : float) : string :=
    match Prim2SF x with
    | S754_nan => "nan"
    | S754_infinity s => sign_str s ++ "inf"
    | S754_zero s => sign_str s ++ "0." ++ PyStr.repeat_char "0" p
    | S754_finite s m e =>
        let '(n, d) := fraction_of_finite false m e in
        let scale := 10 ^ Z.of_nat p in
        let r := round_half_even (n * scale) d in
        sign_str s ++ PyStr.digits (r / scale) ++ "." ++ PyStr.digits_pad p (r mod scale)
    end.

  (** *** Decimal to binary: the double nearest to [m * 10^e10]
      ([0 <= m]), ties to even.  For a negative exponent the quotient is
      computed with 64 extra bits and a sticky bit, which is enough for the
      final rounding to be the rounding of the exact value. *)
Definition float_of_decimal (neg : bool) (m e10 : Z) : float :=
    let sgn (z : Z) := if neg then - z else z in
    if m =? 0 then (if neg then neg_zero else zero)
    else if 0 <=? e10 then
      SF2Prim (binary_normalize prec emax (sgn (m * 10 ^ e10)) 0 false)
    else
      let d := 10 ^ (- e10) in
      let s := 64 + Z.log2_up d in
      let q := (m * 2 ^ s) / d in
      let r := (m * 2 ^ s) mod d in
      let q' := 2 * q + (if r =? 0 then 0 else 1) in
      SF2Prim (binary_normalize prec emax (sgn q') (- (s + 1)) false).

  (** *** [float(s)] for a string: white space around is skipped; then a sign,
      and [inf], [infinity], [nan] in any case, or a decimal number with an
      optional fraction and exponent; single underscores may separate
      digits.  Anything else is a [ValueError]. *)
Definition is_digit (c : ascii) : bool :=
    let n := nat_of_ascii c in (48 <=? n)%nat && (n <=? 57)%nat.

Definition digit_val (c : ascii) : Z := Z.of_nat (nat_of_ascii c) - 48.

  (** Reads digits (with inner underscores) into the accumulator; [n]
      counts the digits read. *)
Fixpoint digitpart (s : string) (acc : Z) (n : nat) : Z * nat * string :=
    match s with
    | String c s' =>
        if is_digit c then digitpart s' (acc * 10 + digit_val c) (S n)
        else if Ascii.eqb c "_" && (0 <? n)%nat then
          match s' with
          | String d s'' =>
              if is_digit d then digitpart s'' (acc * 10 + digit_val d) (S n)
              else (acc, n, s)
          | EmptyString => (acc, n, s)
          end
        else (acc, n, s)
    | EmptyString => (acc, n, s)
    end.

Definition parse_sign (s : string) : bool * string :=
    match s with
    | String "-" s' => (true, s')
    | String "+" s' => (false, s')
    | _ => (false, s)
    end.

(** The white space [float()] skips around the number: TAB..CR and the
      blank.  This is less than [str.strip] removes: FS..US are white space
      for [str.strip] and not for [float()]. *)
Definition is_float_space (c : ascii) : bool :=
    let n := Z.of_nat (nat_of_ascii c) in
    ((9 <=? n) && (n <=? 13)) || (n =? 32).

Fixpoint lskip (s : string) : string :=
    match s with
    | String c s' => if is_float_space c then lskip s' else s
    | EmptyString => EmptyString
    end.

Fixpoint rskip (s : string) : string :=
    match s with
    | String c s' =>
        match rskip s' with
        | EmptyString => if is_float_space c then EmptyString else String c EmptyString
        | t => String c t
        end
    | EmptyString => EmptyString
    end.

Definition float_of_string (s : string) : outcome float :=
    let '(neg, body) := parse_sign (rskip (lskip s)) in
    let lo := PyStr.lower body in
    if (lo =? "inf")%string || (lo =? "infinity")%string then
      Ok (if neg then neg_infinity else infinity)
    else if (lo =? "nan")%string then Ok nan
    else
      let '(ip, ni, r1) := digitpart body 0 0 in
      let '(m, nf, r2) :=
        match r1 with
        | String "." r => digitpart r ip 0
        | _ => (ip, O, r1)
        end in
      if (ni + nf =? 0)%nat then Raise ValueError
      else
        match r2 with
        | EmptyString => Ok (float_of_decimal neg m (- Z.of_nat nf))
        | String c r3 =>
            if Ascii.eqb c "e" || Ascii.eqb c "E" then
              let '(eneg, r4) := parse_sign r3 in
              let '(ev, ne, r5) := digitpart r4 0 0 in
              if (ne =? 0)%nat || negb (r5 =? "")%string then Raise ValueError
              else Ok (float_of_decimal neg m ((if eneg then - ev else ev) - Z.of_nat nf))
            else Raise ValueError
        end.

  (** *** [repr(x)] for a float: the shortest decimal that reads back as
      [x], the nearest to [x] when there are several; exponent notation
      when the decimal point would fall outside [-4 < decpt <= 16]. *)
Definition scale10 (n d k : Z) : Z * Z :=
    if 0 <=? k then (n * 10 ^ k, d) else (n, d * 10 ^ (- k)).

  (** The least [k] with [n / d < 10^k], searched upwards from [k]. *)
Fixpoint decpt_from (fuel : nat) (n d k : Z) : Z :=
    match fuel with
    | O => k
    | S fuel' =>
        let '(n', d') := scale10 n d (- k) in
        if n' <? d' then k else decpt_from fuel' n d (k + 1)
    end.

Definition decpt (n d : Z) : Z :=
    decpt_from 8 n d (((Z.log2 n - Z.log2 d - 1) * 30103) / 100000 - 1).

  (** Searches the number of digits [nd] upwards; returns the digits as a
      number together with the number of digits asked for. *)
Fixpoint shortest_from (fuel : nat) (x : float) (n d k nd : Z) : Z * Z :=
    let sc := nd - k in
    let '(n', d') := scale10 n d sc in
    let lo := n' / d' in
    let hi := lo + 1 in
    let back (c : Z) := PrimFloat.eqb (float_of_decimal false c (- sc)) x in
    let nearest :=
      match 2 * (n' mod d') ?= d' with
      | Lt => lo
      | Gt => hi
      | Eq => if Z.even lo then lo else hi
      end in
    match fuel with
    | O => (nearest, nd)
    | S fuel' =>
        if back lo && back hi then (nearest, nd)
        else if back lo then (lo, nd)
        else if back hi then (hi, nd)
        else shortest_from fuel' x n d k (nd + 1)
    end.

Fixpoint strip_zeros (s : string) : string :=
    match s with
    | String c s' =>
        match strip_zeros s' with
        | EmptyString => if Ascii.eqb c "0" then EmptyString else String c EmptyString
        | t => String c t
        end
    | EmptyString => EmptyString
    end.

Definition repr_finite (x : float) (m : positive) (e : Z) : string :=
    let '(n, d) := fraction_of_finite false m e in
    let k := decpt n d in
    let '(c, nd) := shortest_from 16 x n d k 1 in
    let all := PyStr.digits c in
    let dp := k + (PyStr.len all - nd) in
    let ds := strip_zeros all in
    let len := PyStr.len ds in
    if (dp <=? -4) || (16 <? dp) then
      let ex := dp - 1 in
      let mant :=
        match ds with
        | String c0 EmptyString => ds
        | String c0 rest => String c0 (String "." rest)
        | EmptyString => ds
        end in
      mant ++ "e" ++ (if ex <? 0 then "-" else "+") ++ PyStr.digits_pad 2 (Z.abs ex)
    else if dp <=? 0 then
      "0." ++ PyStr.repeat_char "0" (Z.to_nat (- dp)) ++ ds
    else if len <=? dp then
      ds ++ PyStr.repeat_char "0" (Z.to_nat (dp - len)) ++ ".0"
    else
      PyStr.take (Z.to_nat dp) ds ++ "." ++ PyStr.drop (Z.to_nat dp) ds.

Definition repr (x : float) : string :=
    match Prim2SF x with
    | S754_nan => "nan"
    | S754_infinity s => sign_str s ++ "inf"
    | S754_zero s => sign_str s ++ "0.0"
    | S754_finite s m e => sign_str s ++ repr_finite (abs x) m e
    end.

End PyNum.

(** ** JSON values as Python objects *)

Inductive pyval : Type :=
| VNone
| VBool (b : bool)
| VInt (z : Z)
| VFloat (f : float)
| VStr (s : string)
| VList (l : list pyval)
| VDict (d : list (string * pyval)).

Module PyVal.

  (** Truth value of an object ([if x], [not x]). *)
Definition truthy (v : pyval) : bool :=
    match v with
    | VNone => false
    | VBool b => b
    | VInt z => negb (z =? 0)%Z
    | VFloat f => negb (f =? 0)%float
    | VStr s => negb (s =? "")%string
    | VList l => match l with [] => false | _ => true end
    | VDict d => match d with [] => false | _ => true end
    end.

Fixpoint lookup (k : string) (d : list (string * pyval)) : option pyval :=
    match d with
    | [] => None
    | (k', v) :: d' => if (k =? k')%string then Some v else lookup k d'
    end.

  (** [obj.get(k, default)]: only a [dict] has the method. *)
Definition get (obj : pyval) (k : string) (default : pyval) : outcome pyval :=
    match obj with
    | VDict d => Ok match lookup k d with Some v => v | None => default end
    | _ => Raise AttributeError
    end.

  (** [obj[0]] *)
Definition first (obj : pyval) : outcome pyval :=
    match obj with
    | VList (x :: _) => Ok x
    | VList [] => Raise IndexError
    | VStr (String c _) => Ok (VStr (String c EmptyString))
    | VStr EmptyString => Raise IndexError
    | VDict _ => Raise KeyError
    | _ => Raise TypeError
    end.

  (** [len(obj)] *)
Definition len (obj : pyval) : outcome Z :=
    match obj with
    | VList l => Ok (Z.of_nat (List.length l))
    | VStr s => Ok (PyStr.len s)
    | VDict d => Ok (Z.of_nat (List.length d))
    | _ => Raise TypeError
    end.

  (** What iterating over [obj] yields. *)
Definition iter (obj : pyval) : outcome (list pyval) :=
    match obj with
    | VList l => Ok l
    | VStr s => Ok (map VStr (PyStr.chars s))
    | VDict d => Ok (map (fun kv => VStr (fst kv)) d)
    | _ => Raise TypeError
    end.

  (** [a, b = obj] *)
Definition unpack2 (obj : pyval) : outcome (pyval * pyval) :=
    obind (iter obj) (fun l =>
      match l with
      | [a; b] => Ok (a, b)
      | _ => Raise ValueError
      end).

  (** [float(obj)] *)
Definition to_float (obj : pyval) : outcome float :=
    match obj with
    | VBool b => Ok (if b then 1 else 0)%float
    | VInt z => PyNum.float_of_int z
    | VFloat f => Ok f
    | VStr s => PyNum.float_of_string s
    | VNone | VList _ | VDict _ => Raise TypeError
    end.

  (** Comparison of an [int] with a float, on exact values: [Some c] when
      the float is a number. *)
Definition cmp_int_float (a : Z) (f : float) : option comparison :=
    match Prim2SF f with
    | S754_nan => None
    | S754_infinity s => Some (if s then Gt else Lt)
    | S754_zero _ => Some (a ?= 0)%Z
    | S754_finite s m e =>
        let '(n, d) := PyNum.fraction_of_finite s m e in Some (a * d ?= n)%Z
    end.

  (** [a <= obj] for an [int] [a] *)
Definition int_le (a : Z) (obj : pyval) : outcome bool :=
    match obj with
    | VBool b => Ok (a <=? (if b then 1 else 0))%Z
    | VInt z => Ok (a <=? z)%Z
    | VFloat f =>
        Ok match cmp_int_float a f with
           | Some Gt | None => false
           | Some _ => true
           end
    | _ => Raise TypeError
    end.

  (** [obj <= a] for an [int] [a] *)
Definition le_int (obj : pyval) (a : Z) : outcome bool :=
    match obj with
    | VBool b => Ok ((if b then 1 else 0) <=? a)%Z
    | VInt z => Ok (z <=? a)%Z
    | VFloat f =>
        Ok match cmp_int_float a f with
           | Some Lt | None => false
           | Some _ => true
           end
    | _ => Raise TypeError
    end.

  (** [repr(s)] for a string: single quotes unless the string has a single
      quote and no double quote; backslash, the quote and control
      characters are escaped. *)
Definition hex_digit (n : nat) : ascii :=
    ascii_of_nat (if (n <? 10)%nat then 48 + n else 87 + n).

Fixpoint has_char (c : ascii) (s : string) : bool :=
    match s with
    | String c' s' => Ascii.eqb c c' || has_char c s'
    | EmptyString => false
    end.

Definition escape_char (quote : ascii) (c : ascii) : string :=
    let n := nat_of_ascii c in
    if Ascii.eqb c "\" then "\\"
    else if Ascii.eqb c quote then String "\" (String c EmptyString)
    else if (n =? 9)%nat then "\t"
    else if (n =? 10)%nat then "\n"
    else if (n =? 13)%nat then "\r"
    else if (n <? 32)%nat || (n =? 127)%nat then
      String "\" (String "x" (String (hex_digit (n / 16)) (String (hex_digit (n mod 16)) EmptyString)))
    else String c EmptyString.

Fixpoint escape (quote : ascii) (s : string) : string :=
    match s with
    | String c s' => escape_char quote c ++ escape quote s'
    | EmptyString => EmptyString
    end.

(** The double quote, by its code. *)
Definition dquote : ascii := "034"%char.

Definition repr_str (s : string) : string :=
    let quote : ascii :=
      if has_char "'" s && negb (has_char dquote s) then dquote else "'"%char in
    String quote (escape quote s ++ String quote EmptyString).

  (** [repr(obj)] *)
Fixpoint repr (obj : pyval) : string :=
    match obj with
    | VNone => "None"
    | VBool b => if b then "True" else "False"
    | VInt z => PyStr.of_int z
    | VFloat f => PyNum.repr f
    | VStr s => repr_str s
    | VList l => "[" ++ PyStr.join ", " (map repr l) ++ "]"
    | VDict d =>
        "{" ++ PyStr.join ", "
                 (map (fun kv => let '(k, v) := kv in repr_str k ++ ": " ++ repr v) d)
            ++ "}"
    end.

  (** [str(obj)], which is also what an f-string field without a format
      specification shows. *)
Definition str (obj : pyval) : string :=
    match obj with
    | VStr s => s
    | _ => repr obj
    end.

(** [json.dumps(obj)], the JSON text of a value. *)
Definition json_escape_char (c : ascii) : string :=
    let n := nat_of_ascii c in
    if Ascii.eqb c "\" then "\\"
    else if Ascii.eqb c dquote then String "\" (String dquote EmptyString)
    else if (n =? 9)%nat then "\t"
    else if (n =? 10)%nat then "\n"
    else if (n =? 13)%nat then "\r"
    else if (n <? 32)%nat then
      "\u00" ++ String (hex_digit (n / 16)) (String (hex_digit (n mod 16)) EmptyString)
    else String c EmptyString.

Fixpoint json_escape (s : string) : string :=
    match s with
    | String c s' => json_escape_char c ++ json_escape s'
    | EmptyString => EmptyString
    end.

Definition dumps_str (s : string) : string :=
    String dquote (json_escape s ++ String dquote EmptyString).

Fixpoint dumps (obj : pyval) : string :=
    match obj with
    | VNone => "null"
    | VBool b => if b then "true" else "false"
    | VInt z => PyStr.of_int z
    | VFloat f =>
        match Prim2SF f with
        | S754_nan => "NaN"
        | S754_infinity s => if s then "-Infinity" else "Infinity"
        | _ => PyNum.repr f
        end
    | VStr s => dumps_str s
    | VList l => "[" ++ PyStr.join ", " (map dumps l) ++ "]"
    | VDict d =>
        "{" ++ PyStr.join ", "
                 (map (fun kv => let '(k, v) := kv in dumps_str k ++ ": " ++ dumps v) d)
            ++ "}"
    end.

Definition is_dict (obj : pyval) : bool :=
    match obj with VDict _ => true | _ => false end.

Definition is_none (obj : pyval) : bool :=
    match obj with VNone => true | _ => false end.

End PyVal.

(** ** The process and its environment

    What the program does to the outside is recorded as a list of events, in
    the order they happen; what the outside does to the program is read from
    the [world]: the lines on standard input, the environment variables and
    the replies of the network, one per call. *)

Record response : Type := {
  status_code : Z;                        (* [r.status_code] *)
  text : string;                          (* [r.text] *)
  json_body : option pyval;               (* [r.json()]: [None] when the body is not JSON *)
  headers : list (string * string)        (* [r.headers] *)
}.

Inductive reply : Type :=
| ConnectionFailed (e : string)           (* a [RequestException], with its text *)
| Answer (r : response).

Inductive event : Type :=
| Print (line : string)                   (* [print(line)] *)
| Prompt (p : string)                     (* the prompt of [input] or [getpass] *)
| Get (url : string) (params : list (string * pyval)) (timeout : Z)
| Post (url : string) (hdrs : list (string * string)) (body : pyval) (timeout : Z).

Record world : Type := {
  stdin : list string;                    (* the lines still to be read *)
  environ : string -> option string;      (* [os.getenv] *)
  net : nat -> reply;                     (* the reply to the n-th network call *)
  calls : nat;                            (* network calls made so far *)
  stdout : list event                     (* events so far, oldest first *)
}.

Inductive result (A : Type) : Type :=
| Return (a : A)
| Throw (e : exn)
| OutOfFuel.
Arguments Return {A} a.
Arguments Throw {A} e.
Arguments OutOfFuel {A}.

Module Effects.

Definition M (A : Type) : Type := world -> result A * world.

Definition ret {A} (a : A) : M A := fun w => (Return a, w).

Definition bind {A B} (m : M A) (k : A -> M B) : M B :=
    fun w =>
      match m w with
      | (Return a, w') => k a w'
      | (Throw e, w') => (Throw e, w')
      | (OutOfFuel, w') => (OutOfFuel, w')
      end.

Definition throw {A} (e : exn) : M A := fun w => (Throw e, w).

Definition out_of_fuel {A} : M A := fun w => (OutOfFuel, w).

  (** A pure computation that may raise. *)
Definition lift {A} (o : outcome A) : M A :=
    match o with
    | Ok a => ret a
    | Raise e => throw e
    end.

Definition emit (e : event) : M unit :=
    fun w => (Return tt,
              {| stdin := stdin w; environ := environ w; net := net w;
                 calls := calls w; stdout := stdout w ++ [e] |}).

Definition print (line : string) : M unit := emit (Print line).

  (** [input(prompt)] and [getpass(prompt)]: the prompt is written, a line
      is read; [EOFError] at the end of the input. *)
Definition input (prompt : string) : M string :=
    fun w =>
      let w' := {| stdin := List.tl (stdin w); environ := environ w; net := net w;
                   calls := calls w; stdout := stdout w ++ [Prompt prompt] |} in
      match stdin w with
      | line :: _ => (Return line, w')
      | [] => (Throw EOFError, w')
      end.

Definition getpass (prompt : string) : M string := input prompt.

Definition getenv (name : string) : M (option string) :=
    fun w => (Return (environ w name), w).

  (** One network call: the request is recorded and the next reply is
      taken. *)
Definition request (e : event) : M reply :=
    fun w => (Return (net w (calls w)),
              {| stdin := stdin w; environ := environ w; net := net w;
                 calls := S (calls w); stdout := stdout w ++ [e] |}).

  (** Runs a loop with as much fuel as there are input lines left, plus
      one: every turn of the program's loops reads a line. *)
Definition with_fuel {A} (loop : nat -> M A) : M A :=
    fun w => loop (S (List.length (stdin w))) w.

End Effects.

Declare Scope py_scope.
Delimit Scope py_scope with py.
Notation "x <- m ;; k" := (Effects.bind m (fun x => k))
  (at level 61, m at next level, right associativity) : py_scope.
Notation "' p <- m ;; k" := (Effects.bind m (fun x => let 'p := x in k))
  (at level 61, p pattern, m at next level, right associativity) : py_scope.
Notation "m ;; k" := (Effects.bind m (fun _ => k))
  (at level 61, right associativity) : py_scope.

(** ** The program *)

Module Route.
Import Effects.
Local Open Scope py_scope.

  (** The newline character, for the literals that contain one. *)
Definition nl : string := String "010" EmptyString.

Definition DIRECTIONS_API : string :=
    "https://api.openrouteservice.org/v2/directions/driving-car".
Definition GEOCODE_API : string :=
    "https://api.openrouteservice.org/geocode/search".

  (** [meters_to_km(m)]: [None] is Python's [None].  The handler catches
      whatever [float(m)] raises. *)
Definition meters_to_km (m : pyval) : option float :=
    match PyVal.to_float m with
    | Ok f => Some (f / 1000)%float
    | Raise _ => None
    end.

Definition meters_to_miles (m : pyval) : option float :=
    match PyVal.to_float m with
    | Ok f => Some (f / 1609.344)%float
    | Raise _ => None
    end.

Definition seconds_to_hms (s : pyval) : string :=
    match obind (PyVal.to_float s) PyNum.round with
    | Raise _ => "N/A"
    | Ok s =>
        let h := s / 3600 in
        let m := (s mod 3600) / 60 in
        let sec := s mod 60 in
        PyStr.fmt_02d h ++ ":" ++ PyStr.fmt_02d m ++ ":" ++ PyStr.fmt_02d sec
    end.

  (** [if key:] holds for a string that is not empty; [None] and the
      empty string both lead to the prompt. *)
Definition read_api_key : M string :=
    key <- getenv "ORS_API_KEY" ;;
    match key with
    | Some (String _ _ as key) => ret (PyStr.strip key)
    | _ =>
        print "No ORS_API_KEY in environment." ;;
        key <- getpass "Paste your OpenRouteService API key (input hidden): " ;;
        let key := PyStr.strip key in
        if (key =? "")%string then
          print "Error: API key is required." ;;
          throw (SystemExit 1)
        else ret key
    end.

  (** The [while True] of [ask_float]; a turn reads one line. *)
Fixpoint ask_float_loop (fuel : nat) (prompt : string) (default : option float)
           (allow_blank : bool) : M (option float) :=
    match fuel with
    | O => out_of_fuel
    | S fuel' =>
        val <- input prompt ;;
        let val := PyStr.strip val in
        if allow_blank && (val =? "")%string then ret default
        else
          match PyNum.float_of_string val with
          | Ok f => ret (Some f)
          | Raise ValueError =>
              print "Please enter a number (e.g., 8.5)." ;;
              ask_float_loop fuel' prompt default allow_blank
          | Raise e => throw e
          end
    end.

Definition ask_float (prompt : string) (default : option float)
             (allow_blank : bool) : M (option float) :=
    with_fuel (fun fuel => ask_float_loop fuel prompt default allow_blank).

  (** [a and b], where [b] is evaluated only when [a] holds. *)
Definition and_then (a b : outcome bool) : outcome bool :=
    obind a (fun x => if x then b else Ok false).

Definition geocode_address (address key : string) : M pyval :=
    let params := [("api_key", VStr key); ("text", VStr address); ("size", VInt 1)] in
    r <- request (Get GEOCODE_API params 20) ;;
    match r with
    | ConnectionFailed e =>
        print ("Network error while geocoding '" ++ address ++ "': " ++ e) ;;
        ret VNone
    | Answer r =>
        if negb (status_code r =? 200) then
          print ("Error " ++ PyStr.of_int (status_code r) ++ " geocoding '" ++ address
                   ++ "': " ++ PyStr.take 200 (text r)) ;;
          ret VNone
        else
          data <- lift (match json_body r with
                        | Some v => Ok v
                        | None => Raise JSONDecodeError
                        end) ;;
          feats <- lift (PyVal.get data "features" (VList [])) ;;
          if negb (PyVal.truthy feats) then
            print ("Error: No results found for address '" ++ address ++ "'.") ;;
            ret VNone
          else
            feat <- lift (PyVal.first feats) ;;
            geometry <- lift (PyVal.get feat "geometry" (VDict [])) ;;
            coords <- lift (PyVal.get geometry "coordinates" VNone) ;;
            invalid <- lift (if negb (PyVal.truthy coords) then Ok true
                             else obind (PyVal.len coords) (fun n => Ok (negb (n =? 2)))) ;;
            if (invalid : bool) then
              print ("Error: Invalid coordinates for '" ++ address ++ "'.") ;;
              ret VNone
            else
              '(lon, lat) <- lift (PyVal.unpack2 coords) ;;
              inside <- lift (and_then (PyVal.int_le (-180) lon)
                               (and_then (PyVal.le_int lon 180)
                                 (and_then (PyVal.int_le (-90) lat)
                                           (PyVal.le_int lat 90)))) ;;
              if negb inside then
                print ("Error: Out-of-range coordinates for '" ++ address ++ "'.") ;;
                ret VNone
              else ret (VList [lon; lat])
    end.

  (** [r.headers.get(name, default)] *)
Fixpoint header_get (h : list (string * string)) (name default : string) : string :=
    match h with
    | [] => default
    | (k, v) :: h' =>
        if (PyStr.lower k =? PyStr.lower name)%string then v else header_get h' name default
    end.

Definition fetch_route (orig_coords dest_coords : pyval) (key : string)
    : M (pyval * pyval) :=
    let hdrs := [("Authorization", key); ("Content-Type", "application/json")] in
    let body := VDict [("coordinates", VList [orig_coords; dest_coords])] in
    r <- request (Post DIRECTIONS_API hdrs body 30) ;;
    match r with
    | ConnectionFailed e =>
        print ("Network error calling directions API: " ++ e) ;;
        ret (VNone, VNone)
    | Answer r =>
        let content_type := header_get (headers r) "Content-Type" "" in
        let data :=
          match json_body r with
          | Some v => v
          | None => VDict [("raw", VStr (text r))]
          end in
        if status_code r =? 200 then ret (data, VNone)
        else
          let err := if PyVal.is_dict data then data
                     else VDict [("error", VStr (PyVal.str data))] in
          ret (VNone, VDict [("status", VInt (status_code r)); ("message", err)])
    end.

Definition separator : string := "=============================================".

  (** The body of the [for] loop of [print_route], for the step numbered
      [idx]. *)
Definition print_step (unit_system : string) (idx : Z) (step : pyval) : M unit :=
    instruction <- lift (PyVal.get step "instruction" (VStr "N/A")) ;;
    step_m <- lift (PyVal.get step "distance" (VInt 0)) ;;
    let '(step_dist, step_label) :=
      if (unit_system =? "imperial")%string then (meters_to_miles step_m, "mi")
      else (meters_to_km step_m, "km") in
    match step_dist with
    | None => print (PyStr.of_int idx ++ ". " ++ PyVal.str instruction)
    | Some d =>
        print (PyStr.of_int idx ++ ". " ++ PyVal.str instruction
                 ++ " (" ++ PyNum.fmt_fixed 2 d ++ " " ++ step_label ++ ")")
    end.

  (** [for idx, step in enumerate(steps, start=idx)] *)
Fixpoint print_steps (unit_system : string) (idx : Z) (steps : list pyval) : M unit :=
    match steps with
    | [] => ret tt
    | step :: rest =>
        print_step unit_system idx step ;;
        print_steps unit_system (idx + 1) rest
    end.

Definition print_route (orig dest : string) (data : pyval) (unit_system : string)
             (l_per_100km : option float) : M unit :=
    routes <- lift (PyVal.get data "routes" (VList [])) ;;
    if negb (PyVal.truthy routes) then
      print "Error: No routes found in the response."
    else
      route <- lift (PyVal.first routes) ;;
      segments <- lift (PyVal.get route "segments" (VList [])) ;;
      if negb (PyVal.truthy segments) then
        print "Error: No segments found in the route."
      else
        segment <- lift (PyVal.first segments) ;;
        duration_s <- lift (PyVal.get segment "duration" VNone) ;;
        distance_m <- lift (PyVal.get segment "distance" VNone) ;;
        print (nl ++ "API Status: Successful route call." ++ nl) ;;
        print separator ;;
        print ("Directions from " ++ orig ++ " to " ++ dest) ;;
        let dur_str :=
          if negb (PyVal.is_none duration_s) then seconds_to_hms duration_s else "N/A" in
        let '(dist_val, dist_label) :=
          if (unit_system =? "imperial")%string then (meters_to_miles distance_m, "miles")
          else (meters_to_km distance_m, "km") in
        let dist_str :=
          match dist_val with
          | None => "N/A"
          | Some d => PyNum.fmt_fixed 2 d ++ " " ++ dist_label
          end in
        print ("Trip Duration: " ++ dur_str) ;;
        print ("Distance: " ++ dist_str) ;;
        match l_per_100km, dist_val with
        | Some rate, Some d =>
            if (unit_system =? "metric")%string then
              let fuel_used_l := (d * (rate / 100))%float in
              print ("Estimated Fuel Used: " ++ PyNum.fmt_fixed 2 fuel_used_l
                       ++ " L (at " ++ PyNum.fmt_fixed 1 rate ++ " L/100km)")
            else ret tt
        | _, _ => ret tt
        end ;;
        print separator ;;
        steps <- lift (PyVal.get segment "steps" (VList [])) ;;
        (if PyVal.truthy steps then
           items <- lift (PyVal.iter steps) ;;
           print_steps unit_system 1 items
         else print "No step-by-step directions available.") ;;
        print (separator ++ nl).

  (** [s.lower() in ("quit", "q")] *)
Definition is_quit (s : string) : bool :=
    let l := PyStr.lower s in (l =? "quit")%string || (l =? "q")%string.

  (** [status == n] for an [int] literal [n]. *)
Definition eq_int (v : pyval) (n : Z) : bool :=
    match v with
    | VInt z => z =? n
    | VBool b => (if b then 1 else 0) =? n
    | VFloat f =>
        match PyVal.cmp_int_float n f with Some Eq => true | _ => false end
    | _ => false
    end.

  (** The [while True] of [main]; a turn reads at least one line. *)
Fixpoint main_loop (fuel : nat) (key unit_system : string)
           (l_per_100km : option float) : M unit :=
    match fuel with
    | O => out_of_fuel
    | S fuel' =>
        orig <- input (nl ++ "Starting Location: ") ;;
        let orig := PyStr.strip orig in
        if is_quit orig then ret tt
        else
          dest <- input "Destination: " ;;
          let dest := PyStr.strip dest in
          if is_quit dest then ret tt
          else
            orig_coords <- geocode_address orig key ;;
            dest_coords <- geocode_address dest key ;;
            if negb (PyVal.truthy orig_coords) || negb (PyVal.truthy dest_coords) then
              print ("Unable to geocode one or both addresses. Please try again." ++ nl) ;;
              main_loop fuel' key unit_system l_per_100km
            else
              '(data, error) <- fetch_route orig_coords dest_coords key ;;
              if PyVal.truthy error then
                status <- lift (PyVal.get error "status" VNone) ;;
                message <- lift (PyVal.get error "message" VNone) ;;
                (if eq_int status 401 then
                   print "Error 401: Unauthorized. Check your API key (ORS_API_KEY)."
                 else if eq_int status 403 then
                   print "Error 403: Forbidden. Your API key may not have access to this endpoint."
                 else if eq_int status 429 then
                   print "Error 429: Rate limit exceeded. Please wait and try again later."
                 else if eq_int status 400 then
                   print "Error 400: Bad request. Check coordinates or request body."
                 else
                   print ("Error " ++ PyVal.str status ++ ": " ++ PyVal.str message)) ;;
                main_loop fuel' key unit_system l_per_100km
              else
                print_route orig dest data unit_system l_per_100km ;;
                main_loop fuel' key unit_system l_per_100km
    end.

Definition main : M unit :=
    print "=== OpenRouteService Directions (JSON Parsing) ===" ;;
    print ("Type 'quit' or 'q' at any prompt to exit." ++ nl) ;;
    key <- read_api_key ;;
    unit_choice <- input "Units? [1] Metric (km)  [2] Imperial (miles) [default: 1]: " ;;
    let unit_choice := PyStr.strip unit_choice in
    let unit_system := if (unit_choice =? "2")%string then "imperial" else "metric" in
    l_per_100km <-
      (if (unit_system =? "metric")%string then
         ask_float "Optional: Enter fuel consumption in L/100km (blank to skip): " None true
       else ret None) ;;
    with_fuel (fun fuel => main_loop fuel key unit_system l_per_100km) ;;
    print (nl ++ "Bye! 👋").

End Route.

(** * Vocabulary of the properties

    The definitions the statements below are written with: worlds after
    some events, the parts of a response the functions look at, and the
    lines the presenter prints, written after the specification. *)

(** The exact value of a float that is a number, as a fraction with a
    positive denominator. *)
Definition exact_value (x : float) : option (Z * Z) :=
  match Prim2SF x with
  | S754_zero _ => Some (0, 1)
  | S754_finite s m e => Some (PyNum.fraction_of_finite s m e)
  | S754_infinity _ | S754_nan => None
  end.

(** The world after the events [evs], none of which reads or calls. *)
Definition printed (w : world) (evs : list event) : world :=
  {| stdin := stdin w; environ := environ w; net := net w;
     calls := calls w; stdout := stdout w ++ evs |}.

(** The world after one network call and the events [evs], the request
    among them. *)
Definition called (w : world) (evs : list event) : world :=
  {| stdin := stdin w; environ := environ w; net := net w;
     calls := S (calls w); stdout := stdout w ++ evs |}.

(** The world after [n] lines were read and the events [evs] happened. *)
Definition consumed (n : nat) (w : world) (evs : list event) : world :=
  {| stdin := List.skipn n (stdin w); environ := environ w; net := net w;
     calls := calls w; stdout := stdout w ++ evs |}.

(** The response body as the directions client uses it: parsed when it is
    JSON, otherwise the raw text wrapped in a one-field mapping. *)
Definition parsed_or_wrapped (r : response) : pyval :=
  match json_body r with
  | Some v => v
  | None => VDict [("raw", VStr (text r))]
  end.

(** The request [fetch_route] sends. *)
Definition directions_request (orig dest : pyval) (key : string) : event :=
  Post Route.DIRECTIONS_API
       [("Authorization", key); ("Content-Type", "application/json")]
       (VDict [("coordinates", VList [orig; dest])]) 30.

(** A world with the given input lines, no environment variable, a network
    that refuses every connection, and nothing printed yet. *)
Definition offline (lines : list string) : world :=
  {| stdin := lines; environ := fun _ => None;
     net := fun _ => ConnectionFailed "unreachable"; calls := 0; stdout := [] |}.

(** A world whose only content is the value of [ORS_API_KEY] and the lines
    on standard input. *)
Definition with_key (value : option string) (lines : list string) : world :=
  {| stdin := lines;
     environ := fun name => if (name =? "ORS_API_KEY")%string then value else None;
     net := fun _ => ConnectionFailed "unreachable"; calls := 0; stdout := [] |}.

(** The coordinates of the first feature, as [geocode_address] reaches
    them: [data["features"][0]["geometry"]["coordinates"]], with the
    defaults of the three [get]. *)
Definition top_coordinates (data : pyval) : outcome pyval :=
  obind (PyVal.get data "features" (VList [])) (fun feats =>
  obind (PyVal.first feats) (fun feat =>
  obind (PyVal.get feat "geometry" (VDict [])) (fun geometry =>
  PyVal.get geometry "coordinates" VNone))).

Definition is_number (v : pyval) : bool :=
  match v with
  | VBool _ | VInt _ | VFloat _ => true
  | _ => false
  end.

(** [lo <= v <= hi] on the exact value of a number [v]; a NaN and the
    infinities are in no interval. *)
Definition between (lo hi : Z) (v : pyval) : Prop :=
  match v with
  | VBool b => lo <= (if b then 1 else 0) <= hi
  | VInt z => lo <= z <= hi
  | VFloat f =>
      match exact_value f with
      | Some (n, d) => lo * d <= n <= hi * d
      | None => False
      end
  | _ => False
  end.

(** The request [geocode_address] sends. *)
Definition geocode_request (address key : string) : event :=
  Get Route.GEOCODE_API
      [("api_key", VStr key); ("text", VStr address); ("size", VInt 1)] 20.

(** A world in which the network gives the listed replies, in order, and
    refuses the connection afterwards. *)
Definition answering (lines : list string) (replies : list reply) : world :=
  {| stdin := lines; environ := fun _ => None;
     net := fun n => nth n replies (ConnectionFailed "unreachable");
     calls := 0; stdout := [] |}.

(** A status 200 answer with the given JSON value as body. *)
Definition ok_json (v : pyval) : response :=
  {| status_code := 200; text := PyVal.dumps v; json_body := Some v; headers := [] |}.

(** A feature collection whose first feature has the given coordinates. *)
Definition features_at (coords : pyval) : pyval :=
  VDict [("features",
          VList [VDict [("geometry", VDict [("coordinates", coords)])]])].

(** The value of a field of a mapping, or a default. *)
Definition field (d : list (string * pyval)) (k : string) (default : pyval) : pyval :=
  match PyVal.lookup k d with
  | Some v => v
  | None => default
  end.

(** The segment [print_route] renders: [data["routes"][0]["segments"][0]],
    with the defaults of the two [get]. *)
Definition first_segment (data : pyval) : outcome pyval :=
  obind (PyVal.get data "routes" (VList [])) (fun routes =>
  obind (PyVal.first routes) (fun route =>
  obind (PyVal.get route "segments" (VList [])) PyVal.first)).

(** The text of the instruction of a step: the field, or "N/A" when the
    step has none. *)
Definition step_instruction (step : list (string * pyval)) : string :=
  match PyVal.lookup "instruction" step with
  | Some v => PyVal.str v
  | None => "N/A"
  end.

(** The distance in parentheses of a step: "(0.00 km)" ("(0.00 mi)" in
    imperial units) for a step without a distance, the converted distance
    with two decimals for a distance that is a number, and nothing for a
    distance that is present and is not a number. *)
Definition step_distance (unit_system : string) (step : list (string * pyval)) : string :=
  let imperial := (unit_system =? "imperial")%string in
  let label := if imperial then "mi" else "km" in
  match PyVal.lookup "distance" step with
  | None => " (0.00 " ++ label ++ ")"
  | Some v =>
      match PyVal.to_float v with
      | Ok f =>
          " (" ++ PyNum.fmt_fixed 2 (if imperial then f / 1609.344 else f / 1000)%float
               ++ " " ++ label ++ ")"
      | Raise _ => ""
      end
  end.

Definition step_line (unit_system : string) (idx : Z) (step : list (string * pyval))
  : string :=
  PyStr.of_int idx ++ ". " ++ step_instruction step ++ step_distance unit_system step.

Fixpoint step_lines (unit_system : string) (idx : Z) (steps : list (list (string * pyval)))
  : list event :=
  match steps with
  | [] => []
  | step :: rest =>
      Print (step_line unit_system idx step) :: step_lines unit_system (idx + 1) rest
  end.

(** The duration text of the summary. *)
Definition duration_text (segment : list (string * pyval)) : string :=
  match field segment "duration" VNone with
  | VNone => "N/A"
  | duration_s => Route.seconds_to_hms duration_s
  end.

(** The distance of the summary, converted to the unit system. *)
Definition summary_distance (unit_system : string) (segment : list (string * pyval))
  : option float :=
  if (unit_system =? "imperial")%string
  then Route.meters_to_miles (field segment "distance" VNone)
  else Route.meters_to_km (field segment "distance" VNone).

Definition distance_text (unit_system : string) (segment : list (string * pyval))
  : string :=
  match summary_distance unit_system segment with
  | None => "N/A"
  | Some d =>
      PyNum.fmt_fixed 2 d ++ " "
        ++ (if (unit_system =? "imperial")%string then "miles" else "km")
  end.

(** The fuel line: present when a rate was supplied, the distance is a
    number and the unit system is metric; the estimate is the distance in
    kilometres times the rate over 100. *)
Definition fuel_lines (unit_system : string) (l_per_100km : option float)
           (segment : list (string * pyval)) : list event :=
  match l_per_100km, Route.meters_to_km (field segment "distance" VNone) with
  | Some rate, Some km =>
      if (unit_system =? "metric")%string then
        [Print ("Estimated Fuel Used: " ++ PyNum.fmt_fixed 2 (km * (rate / 100))%float
                  ++ " L (at " ++ PyNum.fmt_fixed 1 rate ++ " L/100km)")]
      else []
  | _, _ => []
  end.

Definition summary (orig dest unit_system : string) (l_per_100km : option float)
           (segment : list (string * pyval)) : list event :=
  [Print (Route.nl ++ "API Status: Successful route call." ++ Route.nl);
   Print Route.separator;
   Print ("Directions from " ++ orig ++ " to " ++ dest);
   Print ("Trip Duration: " ++ duration_text segment);
   Print ("Distance: " ++ distance_text unit_system segment)]
  ++ fuel_lines unit_system l_per_100km segment
  ++ [Print Route.separator].

(** What [print_route] does after the summary. *)
Definition steps_and_footer (unit_system : string) (segment : list (string * pyval))
  : Effects.M unit :=
  Effects.bind
    (if PyVal.truthy (field segment "steps" (VList []))
     then Effects.bind (Effects.lift (PyVal.iter (field segment "steps" (VList []))))
                       (Route.print_steps unit_system 1)
     else Effects.print "No step-by-step directions available.")
    (fun _ => Effects.print (Route.separator ++ Route.nl)).

(** [s.startswith(p)] *)
Fixpoint startswith (p s : string) : bool :=
  match p, s with
  | EmptyString, _ => true
  | String a p', String b s' => Ascii.eqb a b && startswith p' s'
  | String _ _, EmptyString => false
  end.

Definition is_fuel_line (e : event) : bool :=
  match e with
  | Print line => startswith "Estimated Fuel Used: " line
  | _ => false
  end.

(** A computation is [quiet] when it only adds events, none of them a fuel
    line. *)
Definition quiet {A : Type} (m : Effects.M A) : Prop :=
  forall w, exists out,
    stdout (snd (m w)) = (stdout w ++ out)%list /\ existsb is_fuel_line out = false.

(** A payload with one route of one segment. *)
Definition one_segment (segment : list (string * pyval)) : pyval :=
  VDict [("routes", VList [VDict [("segments", VList [VDict segment])]])].

(** The segment of the example of the specification. *)
Definition sample_segment : list (string * pyval) :=
  [("distance", VInt 10000); ("duration", VInt 1800)].

(** The line the loop prints for a structured error: a message of its own
    for 401, 403, 429 and 400, and the status with the message for every
    other status. *)
Definition error_line (code : Z) (message : pyval) : string :=
  if code =? 401 then "Error 401: Unauthorized. Check your API key (ORS_API_KEY)."
  else if code =? 403 then
    "Error 403: Forbidden. Your API key may not have access to this endpoint."
  else if code =? 429 then
    "Error 429: Rate limit exceeded. Please wait and try again later."
  else if code =? 400 then
    "Error 400: Bad request. Check coordinates or request body."
  else "Error " ++ PyStr.of_int code ++ ": " ++ PyVal.str message.

(** The two prompts of a turn. *)
Definition turn_prompts : list event :=
  [Prompt (Route.nl ++ "Starting Location: "); Prompt "Destination: "].

(** A session: two addresses that geocode, a directions call answered with
    status 401, then "quit". *)
Definition unauthorized_session : world :=
  answering ["Paris"; "Lyon"; "quit"]
    [Answer (ok_json (features_at (VList [VInt 2; VInt 48])));
     Answer (ok_json (features_at (VList [VInt 4; VInt 45])));
     Answer {| status_code := 401; text := "unauthorized";
               json_body := None; headers := [] |}].

(** [m] never runs out of fuel. *)
Definition total {A : Type} (m : Effects.M A) : Prop :=
  forall w, fst (m w) <> OutOfFuel.

(** [m] never runs out of fuel and reads no input. *)
Definition steady {A : Type} (m : Effects.M A) : Prop :=
  forall w, stdin (snd (m w)) = stdin w /\ fst (m w) <> OutOfFuel.

(** ** Vocabulary of the further properties *)

(** A call to the network, as opposed to a line or a prompt. *)
Definition is_network_event (e : event) : bool :=
  match e with
  | Get _ _ _ | Post _ _ _ _ => true
  | Print _ | Prompt _ => false
  end.

(** [m] reads nothing, calls nothing and prints at most one line. *)
Definition concise {A : Type} (m : Effects.M A) : Prop :=
  forall w, exists out,
    snd (m w) = printed w out /\ (out = [] \/ exists line, out = [Print line]).

(** A segment with two steps, the second without a distance. *)
Definition two_steps : list (list (string * pyval)) :=
  [[("instruction", VStr "Head north"); ("distance", VInt 250)];
   [("instruction", VStr "Arrive")]].

Definition stepped_segment : list (string * pyval) :=
  [("distance", VInt 250); ("duration", VInt 60);
   ("steps", VList (map VDict two_steps))].

(** The rest of a turn of the loop of [main] once both addresses went
    through the geocoder, with [fuel] left for the turns that follow. *)
Definition after_geocoding (fuel : nat) (key unit_system : string)
           (l_per_100km : option float) (orig dest : string)
           (orig_coords dest_coords : pyval) : Effects.M unit :=
  (if negb (PyVal.truthy orig_coords) || negb (PyVal.truthy dest_coords) then
     Effects.print ("Unable to geocode one or both addresses. Please try again."
                      ++ Route.nl) ;;
     Route.main_loop fuel key unit_system l_per_100km
   else
     '(data, error) <- Route.fetch_route orig_coords dest_coords key ;;
     if PyVal.truthy error then
       status <- Effects.lift (PyVal.get error "status" VNone) ;;
       message <- Effects.lift (PyVal.get error "message" VNone) ;;
       (if Route.eq_int status 401 then
          Effects.print "Error 401: Unauthorized. Check your API key (ORS_API_KEY)."
        else if Route.eq_int status 403 then
          Effects.print "Error 403: Forbidden. Your API key may not have access to this endpoint."
        else if Route.eq_int status 429 then
          Effects.print "Error 429: Rate limit exceeded. Please wait and try again later."
        else if Route.eq_int status 400 then
          Effects.print "Error 400: Bad request. Check coordinates or request body."
        else
          Effects.print ("Error " ++ PyVal.str status ++ ": " ++ PyVal.str message)) ;;
       Route.main_loop fuel key unit_system l_per_100km
     else
       Route.print_route orig dest data unit_system l_per_100km ;;
       Route.main_loop fuel key unit_system l_per_100km)%py.

(** The message of the structured error [fetch_route] builds from an
    answer: the body when it is a mapping, otherwise its text under the key
    "error". *)
Definition error_message (r : response) : pyval :=
  if PyVal.is_dict (parsed_or_wrapped r) then parsed_or_wrapped r
  else VDict [("error", VStr (PyVal.str (parsed_or_wrapped r)))].

(** A session of one turn: two addresses that geocode, the given reply to
    the directions call, then "quit". *)
Definition turn_session (directions : reply) : world :=
  answering ["Paris"; "Lyon"; "quit"]
    [Answer (ok_json (features_at (VList [VInt 2; VInt 48])));
     Answer (ok_json (features_at (VList [VInt 4; VInt 45])));
     directions].

(** The world of [turn_session] when the directions call is about to be
    made. *)
Definition turn_geocoded (directions : reply) : world :=
  called (called (consumed 2 (turn_session directions) turn_prompts)
                 [geocode_request "Paris" "key"])
         [geocode_request "Lyon" "key"].

(** The events of [n] rejected entries at a prompt of [ask_float]: each
    time the prompt, then the request for a number. *)
Fixpoint retries (prompt : string) (n : nat) : list event :=
  match n with
  | O => []
  | S n' =>
      Prompt prompt :: Print "Please enter a number (e.g., 8.5)." :: retries prompt n'
  end.

(** An entry [ask_float] rejects: not a blank that is allowed, and not in
    float syntax. *)
Definition rejected (allow_blank : bool) (line : string) : Prop :=
  allow_blank && (PyStr.strip line =? "")%string = false
  /\ PyNum.float_of_string (PyStr.strip line) = Raise ValueError.

(** What [ask_float] returns for an entry it accepts: the default for a
    blank that is allowed, otherwise the float the entry denotes. *)
Definition accepted (allow_blank : bool) (default : option float) (line : string)
  : option (option float) :=
  if allow_blank && (PyStr.strip line =? "")%string then Some default
  else
    match PyNum.float_of_string (PyStr.strip line) with
    | Ok f => Some (Some f)
    | Raise _ => None
    end.

(** The events of the interactive path of [read_api_key]. *)
Definition key_prompt : list event :=
  [Print "No ORS_API_KEY in environment.";
   Prompt "Paste your OpenRouteService API key (input hidden): "].

(** What [main] writes before it asks for the credential, and the prompt
    for the unit system. *)
Definition banner : list event :=
  [Print "=== OpenRouteService Directions (JSON Parsing) ===";
   Print ("Type 'quit' or 'q' at any prompt to exit." ++ Route.nl)].

Definition units_prompt : event :=
  Prompt "Units? [1] Metric (km)  [2] Imperial (miles) [default: 1]: ".

Definition fuel_prompt : string :=
  "Optional: Enter fuel consumption in L/100km (blank to skip): ".

(** The loop of [main] and the farewell. *)
Definition session (key unit_system : string) (l_per_100km : option float)
  : Effects.M unit :=
  (Effects.with_fuel (fun fuel => Route.main_loop fuel key unit_system l_per_100km) ;;
   Effects.print (Route.nl ++ "Bye! 👋"))%py.

(** A pair of coordinates as the geocoder returns it: longitude and
    latitude, numbers within range. *)
Definition valid_pair (v : pyval) : Prop :=
  exists lon lat,
    v = VList [lon; lat] /\ between (-180) 180 lon /\ between (-90) 90 lat.

(** What a request of a session with the credential [key] looks like: a
    GET to the geocoding endpoint with the credential, a text and one
    result asked for, or a POST to the directions endpoint with the
    credential and two valid pairs of coordinates. *)
Definition well_addressed (key : string) (e : event) : Prop :=
  match e with
  | Get url params timeout =>
      url = Route.GEOCODE_API /\ timeout = 20
      /\ exists address,
           params = [("api_key", VStr key); ("text", VStr address); ("size", VInt 1)]
  | Post url hdrs body timeout =>
      url = Route.DIRECTIONS_API /\ timeout = 30
      /\ hdrs = [("Authorization", key); ("Content-Type", "application/json")]
      /\ exists orig dest,
           body = VDict [("coordinates", VList [orig; dest])]
           /\ valid_pair orig /\ valid_pair dest
  | Print _ | Prompt _ => True
  end.

(** [m] only adds events that satisfy [P], and what it returns satisfies
    [Q]. *)
Definition delivers {A : Type} (P : event -> Prop) (Q : A -> Prop)
           (m : Effects.M A) : Prop :=
  forall w, exists out,
    stdout (snd (m w)) = (stdout w ++ out)%list
    /\ Forall P out
    /\ forall a, fst (m w) = Return a -> Q a.

(** The prompt that opens a turn of the loop. *)
Definition origin_prompt : event := Prompt (Route.nl ++ "Starting Location: ").

(** * Examples of the Python operations *)

Local Open Scope float_scope.

Example strip_ex : PyStr.strip "  Quit 	" = "Quit".
Proof. reflexivity. Qed.

Example of_int_ex : PyStr.of_int (-1203) = "-1203" /\ PyStr.of_int 0 = "0" /\ PyStr.of_int 999 = "999" /\ PyStr.of_int 1000 = "1000".
Proof. repeat split; reflexivity. Qed.

Example float_of_int_ex : PyNum.float_of_int 10000 = Ok 10000.
Proof. reflexivity. Qed.

Example float_of_int_big : PyNum.float_of_int (10 ^ 400) = Raise OverflowError.
Proof. vm_compute. reflexivity. Qed.

Example float_of_int_53 : PyNum.float_of_int (2 ^ 53 + 1) = Ok 9007199254740992.
Proof. vm_compute. reflexivity. Qed.

Example round_ex : PyNum.round 2.5 = Ok 2%Z /\ PyNum.round 3.5 = Ok 4%Z /\ PyNum.round (-0.5) = Ok 0%Z /\ PyNum.round (-1.5) = Ok (-2)%Z /\ PyNum.round 1e22 = Ok (10000000000000000000000)%Z.
Proof. vm_compute. repeat split; reflexivity. Qed.

Example fmt_ex : PyNum.fmt_fixed 2 10 = "10.00" /\ PyNum.fmt_fixed 2 0.125 = "0.12" /\ PyNum.fmt_fixed 2 0.375 = "0.38"
  /\ PyNum.fmt_fixed 2 (-0.001) = "-0.00" /\ PyNum.fmt_fixed 1 8 = "8.0" /\ PyNum.fmt_fixed 2 (10 * (8 / 100)) = "0.80"
  /\ PyNum.fmt_fixed 2 1e22 = "10000000000000000000000.00" /\ PyNum.fmt_fixed 2 0.005 = "0.01" /\ PyNum.fmt_fixed 2 1.005 = "1.00"
  /\ PyNum.fmt_fixed 2 (0/0) = "nan" /\ PyNum.fmt_fixed 2 (-1/0) = "-inf" /\ PyNum.fmt_fixed 2 (-0) = "-0.00" /\ PyNum.fmt_fixed 2 99.995 = "100.00"
  /\ PyNum.fmt_fixed 2 99.994999 = "99.99" /\ PyNum.fmt_fixed 1 0.25 = "0.2" /\ PyNum.fmt_fixed 1 0.35 = "0.3".
Proof. vm_compute. repeat split; reflexivity. Qed.

Example dec_ex : PyNum.float_of_decimal false 8 0 = 8 /\ PyNum.float_of_decimal false 85 (-1) = 8.5
  /\ PyNum.float_of_decimal true 1609344 (-3) = -1609.344 /\ PyNum.float_of_decimal false 1 400 = infinity
  /\ PyNum.float_of_decimal false 1 (-400) = 0 /\ PyNum.float_of_decimal false 5 (-324) = 0x1p-1074
  /\ PyNum.float_of_decimal false 17976931348623157 292 = 0x1.fffffffffffffp+1023
  /\ PyNum.float_of_decimal false 24703282292062327 (-340) = 0
  /\ PyNum.float_of_decimal false 24703282292062328 (-340) = 0x1p-1074
  /\ PyNum.float_of_decimal false 1 (-1) = 0x1.999999999999ap-4.
Proof. vm_compute. repeat split; reflexivity. Qed.

Example repr_ex :
  PyVal.repr (VDict [("error", VDict [("code", VInt 2010); ("message", VStr "no point found")]);
                     ("ok", VBool false); ("v", VList [VNone; VFloat 0.5%float; VStr "a\b"])])
  = "{'error': {'code': 2010, 'message': 'no point found'}, 'ok': False, 'v': [None, 0.5, 'a\\b']}".
Proof. vm_compute. reflexivity. Qed.

(** [float()] skips TAB..CR and blanks around the number, and nothing else:
    the separator FS (0x1C), which [str.strip] removes, makes it raise. *)
Example float_of_string_ex :
  PyNum.float_of_string (String "009" " 8.5" ++ String "010" (String "013" " ")) = Ok 8.5
  /\ PyNum.float_of_string (String "028" "2500") = Raise ValueError
  /\ PyNum.float_of_string (String "031" "2500") = Raise ValueError
  /\ PyNum.float_of_string ("2500" ++ String "028" "") = Raise ValueError
  /\ PyStr.strip (String "028" "2500") = "2500"%string
  /\ PyNum.float_of_string "1_000.5e-1" = Ok 100.05
  /\ PyNum.float_of_string "-Infinity" = Ok neg_infinity
  /\ PyNum.float_of_string "1 0" = Raise ValueError.
Proof. vm_compute. repeat split; reflexivity. Qed.

Local Close Scope float_scope.

(** * Properties *)

(** ** Rounding and formatting of integers *)

Section Rounding.

  (** [round_half_even n d] is an integer nearest to [n / d]. *)
Lemma round_half_even_nearest (n d : Z) :
    0 < d -> 2 * Z.abs (PyNum.round_half_even n d * d - n) <= d.
  Proof.
    intros Hd. unfold PyNum.round_half_even.
    pose proof (Z.div_mod n d ltac:(lia)) as Hdm.
    pose proof (Z.mod_pos_bound n d Hd) as Hr.
    destruct (2 * (n mod d) ?= d) eqn:Hc.
    - apply Z.compare_eq in Hc. destruct (Z.even (n / d)); nia.
    - rewrite Z.compare_lt_iff in Hc. nia.
    - rewrite Z.compare_gt_iff in Hc. nia.
  Qed.

  (** On a tie the even neighbour is taken. *)
Lemma round_half_even_tie (n d : Z) :
    0 < d -> 2 * (n mod d) = d -> Z.even (PyNum.round_half_even n d) = true.
  Proof.
    intros Hd Htie. unfold PyNum.round_half_even.
    rewrite Htie, Z.compare_refl.
    destruct (Z.even (n / d)) eqn:He; [exact He|].
    rewrite Z.even_add, He. reflexivity.
  Qed.

  (** The denominator of a finite float is positive. *)
Lemma fraction_of_finite_den (s : bool) (m : positive) (e n d : Z) :
    PyNum.fraction_of_finite s m e = (n, d) -> 0 < d.
  Proof.
    unfold PyNum.fraction_of_finite.
    destruct (0 <=? e) eqn:He; intros H; inversion H; subst; [lia|].
    apply Z.leb_gt in He. apply Z.pow_pos_nonneg; lia.
  Qed.

End Rounding.

Section Digits.

Lemma digits_aux_length (fuel : nat) :
    forall n acc, (String.length acc <= String.length (PyStr.digits_aux fuel n acc))%nat.
  Proof.
    induction fuel as [|fuel IH]; intros n acc; simpl; [lia|].
    destruct (n <? 10).
    - simpl. lia.
    - specialize (IH (n / 10) (String (PyStr.digit_char (n mod 10)) acc)).
      simpl in IH. lia.
  Qed.

Lemma digits_nonempty (n : Z) : (1 <= String.length (PyStr.digits n))%nat.
  Proof.
    unfold PyStr.digits. simpl.
    destruct (n <? 10); [simpl; lia|].
    pose proof (digits_aux_length (Z.to_nat (Z.log2 n)) (n / 10)
                  (String (PyStr.digit_char (n mod 10)) "")) as H.
    simpl in H. lia.
  Qed.

Lemma of_int_nonempty (n : Z) : (1 <= String.length (PyStr.of_int n))%nat.
  Proof.
    unfold PyStr.of_int. destruct (n <? 0); simpl.
    - lia.
    - apply digits_nonempty.
  Qed.

  (** A field formatted with [02d] has at least two characters. *)
Lemma fmt_02d_width (n : Z) : (2 <= String.length (PyStr.fmt_02d n))%nat.
  Proof.
    unfold PyStr.fmt_02d.
    pose proof (of_int_nonempty n).
    destruct (String.length (PyStr.of_int n) <? 2)%nat eqn:Hl; simpl.
    - lia.
    - apply Nat.ltb_ge in Hl. exact Hl.
  Qed.

  (** From 0 to 99 it is exactly the two decimal digits. *)
Lemma fmt_02d_two_digits (n : Z) :
    0 <= n < 100 ->
    PyStr.fmt_02d n =
      String (PyStr.digit_char (n / 10)) (String (PyStr.digit_char (n mod 10)) "").
  Proof.
    intros Hn.
    assert (Hcases : exists k : nat, (k < 100)%nat /\ n = Z.of_nat k).
    { exists (Z.to_nat n). split; lia. }
    destruct Hcases as [k [Hk ->]].
    do 100 (destruct k as [|k]; [reflexivity|]).
    lia.
  Qed.

End Digits.

(** ** Unit and format helpers *)

Lemma round_exact (x : float) (n : Z) :
  PyNum.round x = Ok n ->
  exists num den, exact_value x = Some (num, den) /\ 0 < den
                  /\ n = PyNum.round_half_even num den.
Proof.
  unfold PyNum.round, exact_value.
  destruct (Prim2SF x) as [s| s | |s m e]; try discriminate.
  - intros H. inversion H. exists 0, 1. repeat split.
  - destruct (PyNum.fraction_of_finite s m e) as [num den] eqn:Hf.
    intros H. inversion H. exists num, den. repeat split.
    eapply fraction_of_finite_den; eassumption.
Qed.

Lemma hms_decomposition (n : Z) :
  n = (n / 3600) * 3600 + ((n mod 3600) / 60) * 60 + n mod 60
  /\ 0 <= (n mod 3600) / 60 <= 59 /\ 0 <= n mod 60 <= 59.
Proof. Z.to_euclidean_division_equations. lia. Qed.

(** C6, as amended.  [meters_to_km] and [meters_to_miles] divide the float
    value of their argument by 1000 and by 1609.344 whenever [float()]
    accepts the argument: a float, a bool, an int within the range of a
    double, text in float syntax.  For every other argument they return
    [None]: a missing value ([None]), lists, mappings, text that is not in
    float syntax, and also an int beyond the range of a double, although
    it is a number.  No argument makes them raise. *)
Theorem meters_conversion :
  (forall m f, PyVal.to_float m = Ok f ->
     Route.meters_to_km m = Some (f / 1000)%float
     /\ Route.meters_to_miles m = Some (f / 1609.344)%float)
  /\ (forall m e, PyVal.to_float m = Raise e ->
        Route.meters_to_km m = None /\ Route.meters_to_miles m = None)
  /\ (forall f, Route.meters_to_km (VFloat f) = Some (f / 1000)%float
                /\ Route.meters_to_miles (VFloat f) = Some (f / 1609.344)%float)
  /\ (forall z f, PyNum.float_of_int z = Ok f ->
        Route.meters_to_km (VInt z) = Some (f / 1000)%float
        /\ Route.meters_to_miles (VInt z) = Some (f / 1609.344)%float)
  /\ (forall z e, PyNum.float_of_int z = Raise e ->
        Route.meters_to_km (VInt z) = None /\ Route.meters_to_miles (VInt z) = None)
  /\ (forall m, match m with VNone | VList _ | VDict _ => True | _ => False end ->
        Route.meters_to_km m = None /\ Route.meters_to_miles m = None)
  /\ Route.meters_to_km (VInt 10000) = Some 10%float
  /\ Route.meters_to_miles (VFloat 1609.344) = Some 1%float
  /\ Route.meters_to_km (VStr "far") = None
  /\ Route.meters_to_miles (VStr "far") = None
  /\ Route.meters_to_km (VInt (10 ^ 400)) = None
  /\ Route.meters_to_miles (VInt (10 ^ 400)) = None.
Proof.
  split; [|split; [|split; [|split; [|split; [|split]]]]].
  - intros m f H. unfold Route.meters_to_km, Route.meters_to_miles.
    rewrite H. split; reflexivity.
  - intros m e H. unfold Route.meters_to_km, Route.meters_to_miles.
    rewrite H. split; reflexivity.
  - intros f. split; reflexivity.
  - intros z f H. unfold Route.meters_to_km, Route.meters_to_miles.
    cbn [PyVal.to_float]. rewrite H. split; reflexivity.
  - intros z e H. unfold Route.meters_to_km, Route.meters_to_miles.
    cbn [PyVal.to_float]. rewrite H. split; reflexivity.
  - intros m Hm. destruct m; try contradiction; split; reflexivity.
  - vm_compute. repeat split; reflexivity.
Qed.

Lemma meters_conversion_witness :
  Route.meters_to_km (VStr " 2500 ") = Some 2.5%float
  /\ Route.meters_to_miles (VStr " 2500 ") = Some (2500 / 1609.344)%float.
Proof.
  destruct meters_conversion as [H _].
  apply (H (VStr " 2500 ") 2500%float).
  vm_compute. reflexivity.
Defined.

(** C6 as stated fails on a number: the int 10^400 is beyond the range of
    a double, [float()] raises [OverflowError] on it, and both conversions
    return [None] instead of the quotient. *)
Lemma meters_conversion_counterexample :
  is_number (VInt (10 ^ 400)) = true
  /\ Route.meters_to_km (VInt (10 ^ 400)) = None
  /\ Route.meters_to_miles (VInt (10 ^ 400)) = None.
Proof. vm_compute. repeat split; reflexivity. Qed.

Lemma round_finite (x : float) (num den : Z) :
  exact_value x = Some (num, den) ->
  PyNum.round x = Ok (PyNum.round_half_even num den).
Proof.
  unfold exact_value, PyNum.round.
  destruct (Prim2SF x) as [s | s | | s m e]; try discriminate.
  - intros H. inversion H. reflexivity.
  - intros H. inversion H as [H1]. rewrite H1. reflexivity.
Qed.

Lemma round_not_finite (x : float) :
  exact_value x = None -> exists e, PyNum.round x = Raise e.
Proof.
  unfold exact_value, PyNum.round.
  destruct (Prim2SF x) as [s | s | | s m e]; try discriminate;
    intros _; eexists; reflexivity.
Qed.

Lemma append_length (a b : string) :
  String.length (a ++ b) = (String.length a + String.length b)%nat.
Proof. induction a as [|c a IH]; simpl; [|rewrite IH]; reflexivity. Qed.

Lemma hms_text_length (h m sec : Z) :
  (8 <= String.length
          (PyStr.fmt_02d h ++ ":" ++ PyStr.fmt_02d m ++ ":" ++ PyStr.fmt_02d sec))%nat.
Proof.
  rewrite !append_length. simpl.
  pose proof (fmt_02d_width h). pose proof (fmt_02d_width m).
  pose proof (fmt_02d_width sec). lia.
Qed.

(** C5, as amended.  When [float()] accepts the argument and the value is
    finite, [seconds_to_hms] rounds it to the nearest integer [n] (ties to
    even) and renders [n] as hours, minutes and seconds, each formatted
    with [02d]: minutes and seconds are between 0 and 59 and take exactly
    two digits; the hours are [n / 3600] without any cap, two digits when
    they are between 0 and 99, and negative for a negative [n] (the sign
    counts for the width, so -1 gives "-1:59:59").  Every other argument
    gives "N/A": one that [float()] rejects, and also an infinity or a
    NaN, although they are floats. *)
Theorem seconds_to_hms_format :
  (forall s x n, PyVal.to_float s = Ok x -> PyNum.round x = Ok n ->
     (exists num den, exact_value x = Some (num, den) /\ 0 < den
                      /\ 2 * Z.abs (n * den - num) <= den)
     /\ exists h m sec,
          Route.seconds_to_hms s
            = PyStr.fmt_02d h ++ ":" ++ PyStr.fmt_02d m ++ ":" ++ PyStr.fmt_02d sec
          /\ n = h * 3600 + m * 60 + sec
          /\ h = n / 3600
          /\ 0 <= m <= 59 /\ 0 <= sec <= 59
          /\ (2 <= String.length (PyStr.fmt_02d h))%nat
          /\ (0 <= h < 100 -> String.length (PyStr.fmt_02d h) = 2%nat)
          /\ String.length (PyStr.fmt_02d m) = 2%nat
          /\ String.length (PyStr.fmt_02d sec) = 2%nat)
  /\ (forall x num den, exact_value x = Some (num, den) ->
        PyNum.round x = Ok (PyNum.round_half_even num den))
  /\ (forall s e, obind (PyVal.to_float s) PyNum.round = Raise e ->
        Route.seconds_to_hms s = "N/A")
  /\ (forall s e, PyVal.to_float s = Raise e -> Route.seconds_to_hms s = "N/A")
  /\ (forall x, exact_value x = None -> Route.seconds_to_hms (VFloat x) = "N/A")
  /\ Route.seconds_to_hms VNone = "N/A"
  /\ Route.seconds_to_hms (VInt 3725) = "01:02:05"
  /\ Route.seconds_to_hms (VStr "bad") = "N/A"
  /\ Route.seconds_to_hms (VInt 90061) = "25:01:01"
  /\ Route.seconds_to_hms (VInt (-1)) = "-1:59:59"
  /\ Route.seconds_to_hms (VFloat infinity) = "N/A"
  /\ Route.seconds_to_hms (VFloat nan) = "N/A".
Proof.
  split; [|split; [|split; [|split; [|split]]]].
  - intros s x n Hf Hr. split.
    + destruct (round_exact x n Hr) as (num & den & Hx & Hden & Hn).
      exists num, den. repeat split; try assumption.
      subst n. apply round_half_even_nearest. exact Hden.
    + exists (n / 3600), ((n mod 3600) / 60), (n mod 60).
      destruct (hms_decomposition n) as (Hsum & Hm & Hs).
      repeat split; try lia.
      * unfold Route.seconds_to_hms. rewrite Hf. simpl. rewrite Hr. reflexivity.
      * apply fmt_02d_width.
      * intros Hh. rewrite fmt_02d_two_digits by lia. reflexivity.
      * rewrite fmt_02d_two_digits by lia. reflexivity.
      * rewrite fmt_02d_two_digits by lia. reflexivity.
  - exact round_finite.
  - intros s e H. unfold Route.seconds_to_hms. rewrite H. reflexivity.
  - intros s e H. unfold Route.seconds_to_hms. rewrite H. reflexivity.
  - intros x H. destruct (round_not_finite x H) as [e He].
    unfold Route.seconds_to_hms. cbn [PyVal.to_float obind]. rewrite He. reflexivity.
  - vm_compute. repeat split; reflexivity.
Qed.

Lemma seconds_to_hms_format_witness :
  exists h m sec,
    Route.seconds_to_hms (VFloat 59.5)
      = PyStr.fmt_02d h ++ ":" ++ PyStr.fmt_02d m ++ ":" ++ PyStr.fmt_02d sec
    /\ 60 = h * 3600 + m * 60 + sec
    /\ h = 60 / 3600
    /\ 0 <= m <= 59 /\ 0 <= sec <= 59
    /\ (2 <= String.length (PyStr.fmt_02d h))%nat
    /\ (0 <= h < 100 -> String.length (PyStr.fmt_02d h) = 2%nat)
    /\ String.length (PyStr.fmt_02d m) = 2%nat
    /\ String.length (PyStr.fmt_02d sec) = 2%nat.
Proof.
  destruct seconds_to_hms_format as [H _].
  refine (proj2 (H (VFloat 59.5) 59.5%float 60 _ _)).
  - reflexivity.
  - vm_compute. reflexivity.
Defined.

(** C5 as stated fails on a number: the float infinity cannot be rounded
    to an integer, so [seconds_to_hms] returns "N/A" for it, which is not
    of the form hours, minutes, seconds. *)
Lemma seconds_to_hms_counterexample :
  is_number (VFloat infinity) = true
  /\ Route.seconds_to_hms (VFloat infinity) = "N/A"
  /\ ~ (exists h m sec,
          Route.seconds_to_hms (VFloat infinity)
          = PyStr.fmt_02d h ++ ":" ++ PyStr.fmt_02d m ++ ":" ++ PyStr.fmt_02d sec).
Proof.
  split; [reflexivity|]. split; [reflexivity|].
  intros (h & m & sec & H).
  pose proof (hms_text_length h m sec) as Hlen.
  rewrite <- H in Hlen. vm_compute in Hlen. lia.
Qed.

(** ** Worlds after some events *)

Lemma printed_printed (w : world) (a b : list event) :
  printed (printed w a) b = printed w (a ++ b).
Proof. unfold printed; simpl. rewrite <- app_assoc. reflexivity. Qed.

Lemma called_printed (w : world) (a b : list event) :
  printed (called w a) b = called w (a ++ b).
Proof. unfold printed, called; simpl. rewrite <- app_assoc. reflexivity. Qed.

Lemma printed_nil (w : world) : printed w [] = w.
Proof. destruct w. unfold printed; simpl. rewrite app_nil_r. reflexivity. Qed.

Lemma print_run (line : string) (w : world) :
  Effects.print line w = (Return tt, printed w [Print line]).
Proof. reflexivity. Qed.

Lemma request_run (e : event) (w : world) :
  Effects.request e w = (Return (net w (calls w)), called w [e]).
Proof. reflexivity. Qed.

(** ** Directions client *)

(** C1. [fetch_route] makes one call and always returns a pair.  When the
    transport fails the pair is [(None, None)], after a diagnostic.  On
    status 200 it is the parsed-or-wrapped body and [None].  On any other
    status it is [None] and a mapping with the status code and, as message,
    the parsed-or-wrapped body (itself when it is a mapping, otherwise its
    text under the key "error").  The pair never holds both a payload and
    an error. *)
Theorem fetch_route_outcomes (orig dest : pyval) (key : string) (w : world) :
  let post := directions_request orig dest key in
  match net w (calls w) with
  | ConnectionFailed e =>
      Route.fetch_route orig dest key w
      = (Return (VNone, VNone),
         called w [post; Print ("Network error calling directions API: " ++ e)])
  | Answer r =>
      let data := parsed_or_wrapped r in
      if status_code r =? 200 then
        Route.fetch_route orig dest key w = (Return (data, VNone), called w [post])
      else
        Route.fetch_route orig dest key w
        = (Return (VNone,
                   VDict [("status", VInt (status_code r));
                          ("message",
                            if PyVal.is_dict data then data
                            else VDict [("error", VStr (PyVal.str data))])]),
           called w [post])
  end
  /\ exists payload error w',
       Route.fetch_route orig dest key w = (Return (payload, error), w')
       /\ (payload = VNone \/ error = VNone).
Proof.
  intros post. unfold Route.fetch_route, Effects.bind.
  fold (directions_request orig dest key). fold post.
  rewrite request_run.
  destruct (net w (calls w)) as [e | r].
  - rewrite print_run, called_printed. simpl. split; [reflexivity|].
    eexists _, _, _. split; [reflexivity|]. left; reflexivity.
  - fold (parsed_or_wrapped r).
    destruct (status_code r =? 200); simpl.
    + split; [reflexivity|]. eexists _, _, _. split; [reflexivity|]. right; reflexivity.
    + split; [reflexivity|]. eexists _, _, _. split; [reflexivity|]. left; reflexivity.
Qed.

(** ** Interactive loop *)

Lemma input_run (prompt line : string) (rest : list string) (w : world) :
  stdin w = line :: rest ->
  Effects.input prompt w = (Return line, consumed 1 w [Prompt prompt]).
Proof.
  intros H. unfold Effects.input, consumed. rewrite H. reflexivity.
Qed.

Lemma consumed_stdin (n : nat) (w : world) (evs : list event) :
  stdin (consumed n w evs) = List.skipn n (stdin w).
Proof. reflexivity. Qed.

Lemma consumed_consumed (n m : nat) (w : world) (a b : list event) :
  consumed m (consumed n w a) b = consumed (n + m) w (a ++ b).
Proof.
  unfold consumed; simpl. rewrite <- app_assoc.
  rewrite skipn_skipn, Nat.add_comm. reflexivity.
Qed.

Lemma is_quit_spec (s : string) :
  Route.is_quit s = true <-> PyStr.lower s = "quit" \/ PyStr.lower s = "q".
Proof.
  unfold Route.is_quit. rewrite orb_true_iff, !String.eqb_eq. reflexivity.
Qed.

(** C9. In any turn of the loop, an origin that is "quit" or "q" in any
    case, once stripped, ends the loop at once: only the origin prompt has
    been written and no network call has been made.  A destination of that
    kind ends it as well, after the two prompts and before any call. *)
Theorem quit_ends_loop (fuel : nat) (key unit_system : string)
        (l_per_100km : option float) (w : world) :
  (forall line rest,
     stdin w = line :: rest ->
     Route.is_quit (PyStr.strip line) = true ->
     Route.main_loop (S fuel) key unit_system l_per_100km w
     = (Return tt, consumed 1 w [Prompt (Route.nl ++ "Starting Location: ")]))
  /\ (forall orig dest rest,
        stdin w = orig :: dest :: rest ->
        Route.is_quit (PyStr.strip orig) = false ->
        Route.is_quit (PyStr.strip dest) = true ->
        Route.main_loop (S fuel) key unit_system l_per_100km w
        = (Return tt, consumed 2 w [Prompt (Route.nl ++ "Starting Location: ");
                                    Prompt "Destination: "]))
  /\ (forall s, Route.is_quit s = true <-> PyStr.lower s = "quit" \/ PyStr.lower s = "q")
  /\ Route.is_quit (PyStr.strip "quit") = true
  /\ Route.is_quit (PyStr.strip "  QUIT ") = true
  /\ Route.is_quit (PyStr.strip "Q") = true
  /\ Route.is_quit (PyStr.strip "quito") = false.
Proof.
  split; [|split; [|split]].
  - intros line rest Hin Hq.
    cbn [Route.main_loop]. unfold Effects.bind at 1.
    rewrite (input_run _ line rest w Hin), Hq. reflexivity.
  - intros orig dest rest Hin Ho Hd.
    cbn [Route.main_loop]. unfold Effects.bind at 1.
    rewrite (input_run _ orig (dest :: rest) w Hin), Ho.
    unfold Effects.bind at 1.
    rewrite (input_run _ dest rest); [|rewrite consumed_stdin, Hin; reflexivity].
    rewrite Hd, consumed_consumed. reflexivity.
  - exact is_quit_spec.
  - repeat split; reflexivity.
Qed.

Lemma quit_ends_loop_witness :
  Route.main_loop 1 "key" "metric" None (offline [" Quit "; "Paris"])
  = (Return tt,
     {| stdin := ["Paris"]; environ := fun _ => None;
        net := fun _ => ConnectionFailed "unreachable"; calls := 0;
        stdout := [Prompt (Route.nl ++ "Starting Location: ")] |})
  /\ Route.main_loop 1 "key" "metric" None (offline ["Paris"; "q"; "Rome"])
     = (Return tt,
        {| stdin := ["Rome"]; environ := fun _ => None;
           net := fun _ => ConnectionFailed "unreachable"; calls := 0;
           stdout := [Prompt (Route.nl ++ "Starting Location: ");
                      Prompt "Destination: "] |}).
Proof.
  destruct (quit_ends_loop 0 "key" "metric" None (offline [" Quit "; "Paris"]))
    as [H1 _].
  destruct (quit_ends_loop 0 "key" "metric" None (offline ["Paris"; "q"; "Rome"]))
    as [_ [H2 _]].
  split.
  - apply (H1 " Quit " ["Paris"]); reflexivity.
  - apply (H2 "Paris" "q" ["Rome"]); reflexivity.
Defined.

(** ** Credential acquisition *)

(** What [read_api_key] guarantees: a key that is not empty, or the exit
    with status 1 after the error message, or the end of the input; the one
    exception is a variable that holds white space only. *)
Lemma read_api_key_contract (w : world) :
  match fst (Route.read_api_key w) with
  | Return key =>
      key <> ""
      \/ exists v, environ w "ORS_API_KEY" = Some v /\ v <> "" /\ PyStr.strip v = ""
  | Throw e => e = SystemExit 1 \/ e = EOFError
  | OutOfFuel => False
  end.
Proof.
  unfold Route.read_api_key, Effects.bind, Effects.getenv, Effects.getpass.
  destruct (environ w "ORS_API_KEY") as [[|c k]|] eqn:Henv.
  - rewrite print_run. unfold Effects.input. cbn [printed stdin].
    destruct (stdin w) as [|line rest]; simpl; [right; reflexivity|].
    destruct (PyStr.strip line =? "")%string eqn:He; simpl.
    + left; reflexivity.
    + left. apply String.eqb_neq. exact He.
  - simpl. destruct (PyStr.strip (String c k)) eqn:Hs.
    + right. exists (String c k). repeat split; [discriminate | exact Hs].
    + left. discriminate.
  - rewrite print_run. unfold Effects.input. cbn [printed stdin].
    destruct (stdin w) as [|line rest]; simpl; [right; reflexivity|].
    destruct (PyStr.strip line =? "")%string eqn:He; simpl.
    + left; reflexivity.
    + left. apply String.eqb_neq. exact He.
Qed.

(** C7. [read_api_key] tests the variable before stripping it: a variable
    that is not empty but holds only white space is returned stripped, that
    is, as the empty string, without a prompt and without an exit. *)
Theorem read_api_key_blank_variable :
  (forall w v,
     environ w "ORS_API_KEY" = Some v -> v <> "" -> PyStr.strip v = "" ->
     Route.read_api_key w = (Return "", w))
  /\ Route.read_api_key (with_key (Some "   ") ["secret"])
     = (Return "", with_key (Some "   ") ["secret"])
  /\ fst (Route.read_api_key (with_key (Some "") ["  "])) = Throw (SystemExit 1)
  /\ fst (Route.read_api_key (with_key None [" secret "])) = Return "secret"
  /\ fst (Route.read_api_key (with_key (Some " abc ") [])) = Return "abc".
Proof.
  split; [|repeat split; reflexivity].
  intros w v Henv Hne Hs.
  unfold Route.read_api_key, Effects.bind, Effects.getenv. rewrite Henv.
  destruct v as [|c k]; [contradiction|].
  rewrite Hs. reflexivity.
Qed.

Lemma read_api_key_blank_variable_witness :
  Route.read_api_key (with_key (Some " ") []) = (Return "", with_key (Some " ") []).
Proof.
  destruct read_api_key_blank_variable as [H _].
  apply (H (with_key (Some " ") []) " "); [reflexivity | discriminate | reflexivity].
Defined.

(** ** Geocoder client *)

Lemma first_truthy (v x : pyval) : PyVal.first v = Ok x -> PyVal.truthy v = true.
Proof.
  destruct v as [| | | | s | l | d]; try discriminate.
  - destruct s; [discriminate | reflexivity].
  - destruct l; [discriminate | reflexivity].
Qed.

(** The two comparisons of a chained [lo <= v <= hi] succeed together
    exactly on the numbers of the interval. *)
Lemma chain_between (lo hi : Z) (v : pyval) :
  Route.and_then (PyVal.int_le lo v) (PyVal.le_int v hi) = Ok true
  <-> between lo hi v.
Proof.
  unfold Route.and_then, between.
  destruct v as [| b | z | f | s | l | d]; simpl;
    try (split; [discriminate | contradiction]).
  - destruct (lo <=? (if b then 1 else 0)) eqn:H1; simpl.
    + destruct ((if b then 1 else 0) <=? hi) eqn:H2; split; intros H;
        try discriminate; try reflexivity; lia.
    + split; [discriminate | lia].
  - destruct (lo <=? z) eqn:H1; simpl.
    + destruct (z <=? hi) eqn:H2; split; intros H;
        try discriminate; try reflexivity; lia.
    + split; [discriminate | lia].
  - unfold PyVal.cmp_int_float, exact_value.
    destruct (Prim2SF f) as [s | s | | s m e]; simpl.
    + destruct (lo ?= 0) eqn:H1; destruct (hi ?= 0) eqn:H2; simpl;
        try rewrite Z.compare_eq_iff in *;
        try rewrite Z.compare_lt_iff in *;
        try rewrite Z.compare_gt_iff in *;
        split; intros H; try discriminate; try reflexivity; lia.
    + destruct s; simpl; split; (discriminate || contradiction).
    + split; [discriminate | contradiction].
    + destruct (PyNum.fraction_of_finite s m e) as [n d] eqn:Hf.
      destruct (lo * d ?= n) eqn:H1; destruct (hi * d ?= n) eqn:H2; simpl;
        try rewrite Z.compare_eq_iff in *;
        try rewrite Z.compare_lt_iff in *;
        try rewrite Z.compare_gt_iff in *;
        split; intros H; try discriminate; try reflexivity; lia.
Qed.

(** The range test of [geocode_address] on two numbers. *)
Lemma range_test (lon lat : pyval) :
  Route.and_then (PyVal.int_le (-180) lon)
    (Route.and_then (PyVal.le_int lon 180)
       (Route.and_then (PyVal.int_le (-90) lat) (PyVal.le_int lat 90))) = Ok true
  <-> between (-180) 180 lon /\ between (-90) 90 lat.
Proof.
  rewrite <- !chain_between. unfold Route.and_then, obind.
  destruct (PyVal.int_le (-180) lon) as [[|]|]; try (split; [discriminate | intros [H _]; discriminate]).
  destruct (PyVal.le_int lon 180) as [[|]|]; try (split; [discriminate | intros [H _]; discriminate]).
  destruct (PyVal.int_le (-90) lat) as [[|]|]; try (split; [discriminate | intros [_ H]; discriminate]).
  destruct (PyVal.le_int lat 90) as [[|]|]; split; try discriminate; try (intros [_ H]; discriminate).
  - intros _. split; reflexivity.
  - reflexivity.
Qed.

(** On numbers the range test never raises. *)
Lemma range_test_total (lon lat : pyval) :
  is_number lon = true -> is_number lat = true ->
  exists b,
    Route.and_then (PyVal.int_le (-180) lon)
      (Route.and_then (PyVal.le_int lon 180)
         (Route.and_then (PyVal.int_le (-90) lat) (PyVal.le_int lat 90))) = Ok b.
Proof.
  intros Hlon Hlat. unfold Route.and_then, obind.
  destruct lon; try discriminate; destruct lat; try discriminate; simpl;
    repeat match goal with
           | |- context [if ?c then _ else _] => destruct c
           end; eexists; reflexivity.
Qed.

(** C2. After an answer of the geocoding service, [geocode_address]
    returns [None] when the status is not 200, when the feature list is
    empty, when the coordinates of the first feature are missing or not of
    length 2, and when two numeric coordinates are outside [-180, 180] and
    [-90, 90]; whatever else it returns is the pair [lon, lat] of these
    coordinates, in that order, with [lon] in [-180, 180] and [lat] in
    [-90, 90]; and when the coordinates of the first feature are such a
    pair it does return it, after the request alone. *)
Theorem geocode_address_contract (address key : string) (w : world) (r : response) :
  net w (calls w) = Answer r ->
  let res := fst (Route.geocode_address address key w) in
  (status_code r <> 200 -> res = Return VNone)
  /\ (forall data feats,
        status_code r = 200 -> json_body r = Some data ->
        PyVal.get data "features" (VList []) = Ok feats ->
        PyVal.truthy feats = false ->
        res = Return VNone)
  /\ (forall data coords,
        status_code r = 200 -> json_body r = Some data ->
        top_coordinates data = Ok coords ->
        (PyVal.truthy coords = false
         \/ exists n, PyVal.len coords = Ok n /\ n <> 2) ->
        res = Return VNone)
  /\ (forall data lon lat,
        status_code r = 200 -> json_body r = Some data ->
        top_coordinates data = Ok (VList [lon; lat]) ->
        is_number lon = true -> is_number lat = true ->
        ~ (between (-180) 180 lon /\ between (-90) 90 lat) ->
        res = Return VNone)
  /\ (forall v,
        res = Return v ->
        v = VNone
        \/ exists data coords lon lat,
             status_code r = 200 /\ json_body r = Some data
             /\ top_coordinates data = Ok coords
             /\ PyVal.unpack2 coords = Ok (lon, lat)
             /\ v = VList [lon; lat]
             /\ between (-180) 180 lon /\ between (-90) 90 lat)
  /\ (forall data lon lat,
        status_code r = 200 -> json_body r = Some data ->
        top_coordinates data = Ok (VList [lon; lat]) ->
        between (-180) 180 lon -> between (-90) 90 lat ->
        Route.geocode_address address key w
        = (Return (VList [lon; lat]), called w [geocode_request address key])).
Proof.
  intros Hnet res. subst res.
  unfold Route.geocode_address, Effects.bind.
  fold (geocode_request address key).
  rewrite request_run, Hnet.
  split; [|split; [|split; [|split; [|split]]]].
  - intros Hs. apply Z.eqb_neq in Hs. rewrite Hs. reflexivity.
  - intros data feats Hs Hj Hf Ht.
    rewrite Hs, Hj. cbn. rewrite Hf. cbn. rewrite Ht. reflexivity.
  - intros data coords Hs Hj Hc Hbad.
    rewrite Hs, Hj. cbn.
    unfold top_coordinates in Hc.
    destruct (PyVal.get data "features" (VList [])) as [feats|] eqn:Hf; [|discriminate].
    cbn in Hc |- *.
    destruct (PyVal.first feats) as [feat|] eqn:Hfeat; [|discriminate].
    rewrite (first_truthy _ _ Hfeat). cbn in Hc |- *.
    destruct (PyVal.get feat "geometry" (VDict [])) as [g|] eqn:Hg; [|discriminate].
    cbn in Hc |- *. rewrite Hc. cbn.
    destruct Hbad as [Ht | [n [Hl Hn]]].
    + rewrite Ht. reflexivity.
    + rewrite Hl. destruct (PyVal.truthy coords); cbn.
      * apply Z.eqb_neq in Hn. rewrite Hn. reflexivity.
      * reflexivity.
  - intros data lon lat Hs Hj Hc Hlon Hlat Hout.
    rewrite Hs, Hj. cbn.
    unfold top_coordinates in Hc.
    destruct (PyVal.get data "features" (VList [])) as [feats|] eqn:Hf; [|discriminate].
    cbn in Hc |- *.
    destruct (PyVal.first feats) as [feat|] eqn:Hfeat; [|discriminate].
    rewrite (first_truthy _ _ Hfeat). cbn in Hc |- *.
    destruct (PyVal.get feat "geometry" (VDict [])) as [g|] eqn:Hg; [|discriminate].
    cbn in Hc |- *. rewrite Hc. cbn.
    destruct (range_test_total lon lat Hlon Hlat) as [b Hb].
    rewrite Hb. cbn. destruct b; [|reflexivity].
    apply range_test in Hb. contradiction.
  - intros v Hv.
    destruct (status_code r =? 200) eqn:Hs; cbn in Hv;
      [|left; inversion Hv; reflexivity].
    apply Z.eqb_eq in Hs.
    destruct (json_body r) as [data|] eqn:Hj; cbn in Hv; [|discriminate].
    destruct (PyVal.get data "features" (VList [])) as [feats|] eqn:Hf;
      cbn in Hv; [|discriminate].
    destruct (PyVal.truthy feats) eqn:Ht; cbn in Hv;
      [|left; inversion Hv; reflexivity].
    destruct (PyVal.first feats) as [feat|] eqn:Hfeat; cbn in Hv; [|discriminate].
    destruct (PyVal.get feat "geometry" (VDict [])) as [g|] eqn:Hg;
      cbn in Hv; [|discriminate].
    destruct (PyVal.get g "coordinates" VNone) as [coords|] eqn:Hc;
      cbn in Hv; [|discriminate].
    destruct (PyVal.truthy coords) eqn:Htc; cbn in Hv;
      [|left; inversion Hv; reflexivity].
    destruct (PyVal.len coords) as [n|] eqn:Hl; cbn in Hv; [|discriminate].
    destruct (n =? 2) eqn:Hn; cbn in Hv; [|left; inversion Hv; reflexivity].
    destruct (PyVal.unpack2 coords) as [[lon lat]|] eqn:Hu; cbn in Hv; [|discriminate].
    match type of Hv with
    | context [Effects.lift ?o] => destruct o as [[|]|] eqn:Hr; cbn in Hv
    end; [|left; inversion Hv; reflexivity|discriminate].
    right. inversion Hv; subst v.
    exists data, coords, lon, lat.
    apply range_test in Hr. destruct Hr as [Hlon Hlat].
    repeat split; try assumption.
    unfold top_coordinates. rewrite Hf. cbn. rewrite Hfeat. cbn.
    rewrite Hg. cbn. exact Hc.
  - intros data lon lat Hs Hj Hc Hlon Hlat.
    rewrite Hs, Hj. cbn.
    unfold top_coordinates in Hc.
    destruct (PyVal.get data "features" (VList [])) as [feats|] eqn:Hf; [|discriminate].
    cbn in Hc |- *.
    destruct (PyVal.first feats) as [feat|] eqn:Hfeat; [|discriminate].
    rewrite (first_truthy _ _ Hfeat). cbn in Hc |- *.
    destruct (PyVal.get feat "geometry" (VDict [])) as [g|] eqn:Hg; [|discriminate].
    cbn in Hc |- *. rewrite Hc. cbn.
    rewrite (proj2 (range_test lon lat) (conj Hlon Hlat)). reflexivity.
Qed.

Lemma geocode_address_contract_witness :
  fst (Route.geocode_address "Nowhere" "key"
         (answering [] [Answer (ok_json (features_at (VList [VInt 200; VInt 45])))]))
  = Return VNone
  /\ Route.geocode_address "Paris" "key"
       (answering [] [Answer (ok_json (features_at (VList [VFloat 2.35; VFloat 48.85])))])
     = (Return (VList [VFloat 2.35; VFloat 48.85]),
        called (answering [] [Answer (ok_json (features_at (VList [VFloat 2.35; VFloat 48.85])))])
               [geocode_request "Paris" "key"]).
Proof.
  split.
  - refine (proj1 (proj2 (proj2 (proj2
              (geocode_address_contract "Nowhere" "key"
                 (answering [] [Answer (ok_json (features_at (VList [VInt 200; VInt 45])))])
                 (ok_json (features_at (VList [VInt 200; VInt 45]))) eq_refl))))
              (features_at (VList [VInt 200; VInt 45])) (VInt 200) (VInt 45)
              eq_refl eq_refl eq_refl eq_refl eq_refl _).
    simpl. lia.
  - refine (proj2 (proj2 (proj2 (proj2 (proj2
              (geocode_address_contract "Paris" "key"
                 (answering [] [Answer (ok_json (features_at (VList [VFloat 2.35; VFloat 48.85])))])
                 (ok_json (features_at (VList [VFloat 2.35; VFloat 48.85]))) eq_refl)))))
              (features_at (VList [VFloat 2.35; VFloat 48.85])) (VFloat 2.35) (VFloat 48.85)
              eq_refl eq_refl eq_refl _ _); vm_compute; split; discriminate.
Defined.

Example geocode_address_ok :
  Route.geocode_address "Paris" "key"
    (answering [] [Answer (ok_json (features_at (VList [VFloat 2.35; VFloat 48.85])))])
  = (Return (VList [VFloat 2.35; VFloat 48.85]),
     called (answering [] [Answer (ok_json (features_at (VList [VFloat 2.35; VFloat 48.85])))])
            [geocode_request "Paris" "key"]).
Proof. vm_compute. reflexivity. Qed.

(** C3. [geocode_address] and [print_route] do raise.  The geocoder calls
    [r.json()] outside any handler, so a status 200 answer whose body is
    not JSON raises the decoding error; coordinates that are not numbers
    raise a [TypeError] in the range test; a body that is not a mapping
    raises an [AttributeError].  [print_route] raises an [AttributeError]
    on a payload that is not a mapping, and on a step that is not one. *)
Theorem geocoder_and_presenter_raise :
  (forall address key w r,
     net w (calls w) = Answer r -> status_code r = 200 -> json_body r = None ->
     fst (Route.geocode_address address key w) = Throw JSONDecodeError)
  /\ fst (Route.geocode_address "Paris" "key"
            (answering [] [Answer {| status_code := 200; text := "<html>Bad gateway</html>";
                                     json_body := None; headers := [] |}]))
     = Throw JSONDecodeError
  /\ fst (Route.geocode_address "Paris" "key"
            (answering [] [Answer (ok_json (features_at (VList [VStr "2.35"; VStr "48.85"])))]))
     = Throw TypeError
  /\ fst (Route.geocode_address "Paris" "key"
            (answering [] [Answer (ok_json (VList [VInt 1; VInt 2]))]))
     = Throw AttributeError
  /\ fst (Route.print_route "Paris" "Lyon" (VList [VInt 1; VInt 2]) "metric" None
            (answering [] []))
     = Throw AttributeError
  /\ fst (Route.print_route "Paris" "Lyon"
            (VDict [("routes", VList [VDict [("segments",
               VList [VDict [("distance", VInt 10000); ("duration", VInt 1800);
                             ("steps", VList [VStr "Head north"])]])]])])
            "metric" None (answering [] []))
     = Throw AttributeError.
Proof.
  split; [|repeat split; vm_compute; reflexivity].
  intros address key w r Hnet Hs Hj.
  unfold Route.geocode_address, Effects.bind.
  rewrite request_run, Hnet, Hs, Hj. reflexivity.
Qed.

Lemma geocoder_and_presenter_raise_witness :
  fst (Route.geocode_address "Lyon" "key"
         (answering [] [Answer {| status_code := 200; text := "upstream timeout";
                                  json_body := None; headers := [] |}]))
  = Throw JSONDecodeError.
Proof.
  destruct geocoder_and_presenter_raise as [H _].
  eapply H; reflexivity.
Defined.

(** ** Presenter *)

Section MonadLaws.

Context {A B : Type}.

Lemma bind_print (line : string) (k : unit -> Effects.M B) (w : world) :
  Effects.bind (Effects.print line) k w = k tt (printed w [Print line]).
Proof. reflexivity. Qed.

Lemma bind_lift_ok (a : A) (k : A -> Effects.M B) (w : world) :
  Effects.bind (Effects.lift (Ok a)) k w = k a w.
Proof. reflexivity. Qed.

Lemma bind_lift_raise (e : exn) (k : A -> Effects.M B) (w : world) :
  Effects.bind (Effects.lift (Raise e)) k w = (Throw e, w).
Proof. reflexivity. Qed.

Lemma bind_ret (a : A) (k : A -> Effects.M B) (w : world) :
  Effects.bind (Effects.ret a) k w = k a w.
Proof. reflexivity. Qed.

Lemma bind_bind {C : Type} (m : Effects.M A) (k : A -> Effects.M B)
      (h : B -> Effects.M C) (w : world) :
  Effects.bind (Effects.bind m k) h w
  = Effects.bind m (fun a => Effects.bind (k a) h) w.
Proof.
  unfold Effects.bind. destruct (m w) as [[a | e |] w']; reflexivity.
Qed.

End MonadLaws.

(** *** Steps *)

Lemma append_empty_r (s : string) : s ++ "" = s.
Proof. induction s as [|c s IH]; simpl; [|rewrite IH]; reflexivity. Qed.

Lemma print_step_line (unit_system : string) (idx : Z) (step : list (string * pyval))
      (w : world) :
  Route.print_step unit_system idx (VDict step) w
  = (Return tt, printed w [Print (step_line unit_system idx step)]).
Proof.
  unfold Route.print_step, step_line, step_instruction, step_distance.
  cbn [PyVal.get]. rewrite !bind_lift_ok.
  unfold Route.meters_to_miles, Route.meters_to_km.
  destruct (unit_system =? "imperial")%string;
    destruct (PyVal.lookup "instruction" step);
    destruct (PyVal.lookup "distance" step) as [v|];
    try (destruct (PyVal.to_float v));
    try rewrite print_run; try reflexivity;
    try (rewrite append_empty_r; reflexivity).
Qed.

Lemma print_steps_lines (unit_system : string) (steps : list (list (string * pyval))) :
  forall idx w,
    Route.print_steps unit_system idx (map VDict steps) w
    = (Return tt, printed w (step_lines unit_system idx steps)).
Proof.
  induction steps as [|step rest IH]; intros idx w; simpl.
  - unfold Effects.ret. rewrite printed_nil. reflexivity.
  - unfold Effects.bind. rewrite print_step_line, IH, printed_printed. reflexivity.
Qed.

(** *** Summary *)

Lemma metric_not_imperial (unit_system : string) :
  (unit_system =? "metric")%string = true ->
  (unit_system =? "imperial")%string = false.
Proof.
  intros H. apply String.eqb_eq in H. subst. reflexivity.
Qed.

Lemma print_route_summary (orig dest : string) (data : pyval) (unit_system : string)
      (l_per_100km : option float) (segment : list (string * pyval)) (w : world) :
  first_segment data = Ok (VDict segment) ->
  Route.print_route orig dest data unit_system l_per_100km w
  = steps_and_footer unit_system segment
      (printed w (summary orig dest unit_system l_per_100km segment)).
Proof.
  unfold first_segment. intros H.
  destruct (PyVal.get data "routes" (VList [])) as [routes|] eqn:Hroutes; [|discriminate].
  cbn [obind] in H.
  destruct (PyVal.first routes) as [route|] eqn:Hroute; [|discriminate].
  cbn [obind] in H.
  destruct (PyVal.get route "segments" (VList [])) as [segments|] eqn:Hsegs; [|discriminate].
  cbn [obind] in H.
  unfold Route.print_route.
  rewrite Hroutes, bind_lift_ok, (first_truthy _ _ Hroute). cbn [negb].
  rewrite Hroute, bind_lift_ok, Hsegs, bind_lift_ok, (first_truthy _ _ H). cbn [negb].
  rewrite H, bind_lift_ok. cbn [PyVal.get]. rewrite !bind_lift_ok.
  fold (field segment "duration" VNone) (field segment "distance" VNone)
       (field segment "steps" (VList [])).
  rewrite !bind_print, !printed_printed.
  unfold steps_and_footer, summary, fuel_lines, distance_text, summary_distance,
    duration_text.
  destruct (unit_system =? "imperial")%string eqn:Himp.
  - assert (Hmet : (unit_system =? "metric")%string = false).
    { destruct (unit_system =? "metric")%string eqn:Hm; [|reflexivity].
      rewrite (metric_not_imperial _ Hm) in Himp. discriminate. }
    rewrite Hmet.
    destruct (field segment "duration" VNone); cbn [PyVal.is_none negb];
      destruct l_per_100km;
      destruct (Route.meters_to_miles (field segment "distance" VNone));
      destruct (Route.meters_to_km (field segment "distance" VNone));
      repeat (rewrite bind_print || rewrite bind_ret || rewrite bind_lift_ok
              || rewrite printed_printed); reflexivity.
  - destruct (field segment "duration" VNone); cbn [PyVal.is_none negb];
      destruct l_per_100km;
      destruct (Route.meters_to_km (field segment "distance" VNone));
      destruct (unit_system =? "metric")%string;
      repeat (rewrite bind_print || rewrite bind_ret || rewrite bind_lift_ok
              || rewrite printed_printed); reflexivity.
Qed.

(** *** Lines that are not the fuel line *)

Lemma quiet_ret {A : Type} (a : A) : quiet (Effects.ret a).
Proof. intros w. exists []. simpl. rewrite app_nil_r. split; reflexivity. Qed.

Lemma quiet_lift {A : Type} (o : outcome A) : quiet (Effects.lift o).
Proof.
  intros w. exists []. destruct o; simpl; rewrite app_nil_r; split; reflexivity.
Qed.

Lemma quiet_print (line : string) :
  startswith "Estimated Fuel Used: " line = false -> quiet (Effects.print line).
Proof.
  intros H w. exists [Print line]. split; [reflexivity|].
  unfold existsb, is_fuel_line. rewrite H. reflexivity.
Qed.

Lemma quiet_bind {A B : Type} (m : Effects.M A) (k : A -> Effects.M B) :
  quiet m -> (forall a, quiet (k a)) -> quiet (Effects.bind m k).
Proof.
  intros Hm Hk w. unfold Effects.bind.
  destruct (Hm w) as [out1 [H1 Hq1]].
  destruct (m w) as [[a | e |] w1]; simpl in H1.
  - destruct (Hk a w1) as [out2 [H2 Hq2]].
    exists (out1 ++ out2)%list. rewrite H2, H1, <- app_assoc. split; [reflexivity|].
    rewrite existsb_app, Hq1, Hq2. reflexivity.
  - exists out1. simpl. split; assumption.
  - exists out1. simpl. split; assumption.
Qed.

Lemma digit_char_not_E (n : Z) : PyStr.digit_char (n mod 10) <> "E"%char.
Proof.
  unfold PyStr.digit_char.
  pose proof (Z.mod_pos_bound n 10 ltac:(lia)) as Hb.
  assert (Hk : (Z.to_nat (n mod 10) < 10)%nat) by lia.
  destruct (Z.to_nat (n mod 10)) as [|k]; [discriminate|].
  do 9 (destruct k as [|k]; [discriminate|]).
  lia.
Qed.

Lemma digits_aux_head (fuel : nat) :
  forall n c s,
    c <> "E"%char ->
    exists c' s', PyStr.digits_aux fuel n (String c s) = String c' s' /\ c' <> "E"%char.
Proof.
  induction fuel as [|fuel IH]; intros n c s Hc; simpl.
  - exists c, s. split; [reflexivity | exact Hc].
  - destruct (n <? 10).
    + eexists _, _. split; [reflexivity | apply digit_char_not_E].
    + apply IH. apply digit_char_not_E.
Qed.

Lemma of_int_head (n : Z) :
  exists c s, PyStr.of_int n = String c s /\ c <> "E"%char.
Proof.
  assert (Hd : forall k, exists c s, PyStr.digits k = String c s /\ c <> "E"%char).
  { intros k. unfold PyStr.digits. simpl. destruct (k <? 10).
    - eexists _, _. split; [reflexivity | apply digit_char_not_E].
    - apply digits_aux_head. apply digit_char_not_E. }
  unfold PyStr.of_int. destruct (n <? 0).
  - eexists _, _. split; [reflexivity | discriminate].
  - apply Hd.
Qed.

Lemma numbered_line_not_fuel (idx : Z) (rest : string) :
  startswith "Estimated Fuel Used: " (PyStr.of_int idx ++ rest) = false.
Proof.
  destruct (of_int_head idx) as (c & s & -> & Hc).
  cbn [append startswith].
  assert (E : Ascii.eqb "E" c = false).
  { apply Ascii.eqb_neq. intros E. apply Hc. symmetry. exact E. }
  rewrite E. reflexivity.
Qed.

Lemma quiet_print_step (unit_system : string) (idx : Z) (step : pyval) :
  quiet (Route.print_step unit_system idx step).
Proof.
  unfold Route.print_step.
  apply quiet_bind; [apply quiet_lift | intros instruction].
  apply quiet_bind; [apply quiet_lift | intros step_m].
  destruct (unit_system =? "imperial")%string.
  - destruct (Route.meters_to_miles step_m);
      apply quiet_print, numbered_line_not_fuel.
  - destruct (Route.meters_to_km step_m);
      apply quiet_print, numbered_line_not_fuel.
Qed.

Lemma quiet_print_steps (unit_system : string) (items : list pyval) :
  forall idx, quiet (Route.print_steps unit_system idx items).
Proof.
  induction items as [|step rest IH]; intros idx; simpl.
  - apply quiet_ret.
  - apply quiet_bind; [apply quiet_print_step | intros _; apply IH].
Qed.

Lemma quiet_steps_and_footer (unit_system : string) (segment : list (string * pyval)) :
  quiet (steps_and_footer unit_system segment).
Proof.
  unfold steps_and_footer.
  apply quiet_bind.
  - destruct (PyVal.truthy (field segment "steps" (VList []))).
    + apply quiet_bind; [apply quiet_lift | intros items; apply quiet_print_steps].
    + apply quiet_print. reflexivity.
  - intros _. apply quiet_print. reflexivity.
Qed.

Lemma summary_fuel (orig dest unit_system : string) (l_per_100km : option float)
      (segment : list (string * pyval)) :
  existsb is_fuel_line (summary orig dest unit_system l_per_100km segment)
  = match l_per_100km, Route.meters_to_km (field segment "distance" VNone) with
    | Some _, Some _ => (unit_system =? "metric")%string
    | _, _ => false
    end.
Proof.
  unfold summary, fuel_lines.
  destruct l_per_100km as [rate|];
    destruct (Route.meters_to_km (field segment "distance" VNone)) as [km|];
    try reflexivity.
  destruct (unit_system =? "metric")%string; reflexivity.
Qed.

(** C4. When the payload has a first route with a first segment,
    [print_route] prints the summary and then the steps.  A fuel line is
    among the printed lines exactly when a rate was supplied, the distance
    of the segment converts to a number and the unit system is "metric";
    the estimate it shows is the distance in kilometres times the rate over
    100.  With imperial units there is no fuel line.  For 10000 m, 1800 s,
    metric units and a rate of 8.0 the lines are "10.00 km", "00:30:00"
    and "0.80 L (at 8.0 L/100km)". *)
Theorem fuel_estimate :
  (forall orig dest data unit_system l_per_100km segment w,
     first_segment data = Ok (VDict segment) ->
     exists tail,
       stdout (snd (Route.print_route orig dest data unit_system l_per_100km w))
       = (stdout w ++ summary orig dest unit_system l_per_100km segment ++ tail)%list
       /\ (existsb is_fuel_line
             (summary orig dest unit_system l_per_100km segment ++ tail) = true
           <-> exists rate km,
                 l_per_100km = Some rate
                 /\ Route.meters_to_km (field segment "distance" VNone) = Some km
                 /\ unit_system = "metric")
       /\ (forall rate km,
             l_per_100km = Some rate ->
             Route.meters_to_km (field segment "distance" VNone) = Some km ->
             unit_system = "metric" ->
             In (Print ("Estimated Fuel Used: "
                          ++ PyNum.fmt_fixed 2 (km * (rate / 100))%float
                          ++ " L (at " ++ PyNum.fmt_fixed 1 rate ++ " L/100km)"))
                (summary orig dest unit_system l_per_100km segment))
       /\ (unit_system = "imperial" ->
           existsb is_fuel_line
             (summary orig dest unit_system l_per_100km segment ++ tail) = false))
  /\ stdout (snd (Route.print_route "A" "B"
                    (one_segment [("distance", VInt 10000); ("duration", VInt 1800)])
                    "metric" (Some 8%float) (answering [] [])))
     = [Print (Route.nl ++ "API Status: Successful route call." ++ Route.nl);
        Print Route.separator;
        Print "Directions from A to B";
        Print "Trip Duration: 00:30:00";
        Print "Distance: 10.00 km";
        Print "Estimated Fuel Used: 0.80 L (at 8.0 L/100km)";
        Print Route.separator;
        Print "No step-by-step directions available.";
        Print (Route.separator ++ Route.nl)]
  /\ stdout (snd (Route.print_route "A" "B"
                    (one_segment [("distance", VInt 10000); ("duration", VInt 1800)])
                    "imperial" (Some 8%float) (answering [] [])))
     = [Print (Route.nl ++ "API Status: Successful route call." ++ Route.nl);
        Print Route.separator;
        Print "Directions from A to B";
        Print "Trip Duration: 00:30:00";
        Print "Distance: 6.21 miles";
        Print Route.separator;
        Print "No step-by-step directions available.";
        Print (Route.separator ++ Route.nl)].
Proof.
  split; [|split; vm_compute; reflexivity].
  intros orig dest data unit_system l_per_100km segment w Hseg.
  rewrite (print_route_summary _ _ _ _ _ _ _ Hseg).
  destruct (quiet_steps_and_footer unit_system segment
              (printed w (summary orig dest unit_system l_per_100km segment)))
    as [tail [Hout Hquiet]].
  exists tail. split; [|split; [|split]].
  - rewrite Hout. simpl. rewrite <- app_assoc. reflexivity.
  - rewrite existsb_app, Hquiet, orb_false_r, summary_fuel. split.
    + destruct l_per_100km as [rate|]; [|discriminate].
      destruct (Route.meters_to_km (field segment "distance" VNone)) as [km|];
        [|discriminate].
      intros H. apply String.eqb_eq in H. exists rate, km. repeat split. exact H.
    + intros (rate & km & -> & -> & ->). reflexivity.
  - intros rate km -> Hkm ->. unfold summary, fuel_lines. rewrite Hkm.
    cbn [String.eqb Ascii.eqb Bool.eqb]. simpl. tauto.
  - intros ->. rewrite existsb_app, Hquiet, orb_false_r, summary_fuel.
    destruct l_per_100km; [|reflexivity].
    destruct (Route.meters_to_km _); reflexivity.
Qed.

Lemma fuel_estimate_witness :
  exists tail,
    stdout (snd (Route.print_route "A" "B" (one_segment sample_segment) "metric"
                   (Some 8%float) (answering [] [])))
    = (stdout (answering [] [])
         ++ summary "A" "B" "metric" (Some 8%float) sample_segment ++ tail)%list
    /\ (existsb is_fuel_line
          (summary "A" "B" "metric" (Some 8%float) sample_segment ++ tail) = true
        <-> exists rate km,
              Some 8%float = Some rate
              /\ Route.meters_to_km (field sample_segment "distance" VNone) = Some km
              /\ "metric" = "metric")
    /\ (forall rate km,
          Some 8%float = Some rate ->
          Route.meters_to_km (field sample_segment "distance" VNone) = Some km ->
          "metric" = "metric" ->
          In (Print ("Estimated Fuel Used: "
                       ++ PyNum.fmt_fixed 2 (km * (rate / 100))%float
                       ++ " L (at " ++ PyNum.fmt_fixed 1 rate ++ " L/100km)"))
             (summary "A" "B" "metric" (Some 8%float) sample_segment))
    /\ ("metric" = "imperial" ->
        existsb is_fuel_line
          (summary "A" "B" "metric" (Some 8%float) sample_segment ++ tail) = false).
Proof.
  apply (proj1 fuel_estimate "A" "B" (one_segment sample_segment) "metric"
           (Some 8%float) sample_segment (answering [] [])).
  reflexivity.
Defined.

(** C10, as amended.  A step that is a mapping is printed as its number,
    its instruction and its distance.  A step without a "distance" is
    printed with "(0.00 km)", or "(0.00 mi)" in imperial units; a distance
    that [float()] accepts is printed converted, with two decimals; the
    parentheses are left out exactly when the step has a distance that
    [float()] does not accept, which is a value that is not a number or an
    int beyond the range of a double; a step without an "instruction"
    shows "N/A". *)
Theorem steps_rendering :
  (forall unit_system idx steps w,
     Route.print_steps unit_system idx (map VDict steps) w
     = (Return tt, printed w (step_lines unit_system idx steps)))
  /\ (forall unit_system idx step w,
        PyVal.lookup "distance" step = None ->
        Route.print_step unit_system idx (VDict step) w
        = (Return tt,
           printed w [Print (PyStr.of_int idx ++ ". " ++ step_instruction step
                               ++ (if (unit_system =? "imperial")%string
                                   then " (0.00 mi)" else " (0.00 km)"))]))
  /\ (forall unit_system idx step w v f,
        PyVal.lookup "distance" step = Some v -> PyVal.to_float v = Ok f ->
        Route.print_step unit_system idx (VDict step) w
        = (Return tt,
           printed w [Print (PyStr.of_int idx ++ ". " ++ step_instruction step
                               ++ (if (unit_system =? "imperial")%string
                                   then " (" ++ PyNum.fmt_fixed 2 (f / 1609.344)%float ++ " mi)"
                                   else " (" ++ PyNum.fmt_fixed 2 (f / 1000)%float ++ " km)"))]))
  /\ (forall unit_system idx step w v e,
        PyVal.lookup "distance" step = Some v -> PyVal.to_float v = Raise e ->
        Route.print_step unit_system idx (VDict step) w
        = (Return tt,
           printed w [Print (PyStr.of_int idx ++ ". " ++ step_instruction step)]))
  /\ (forall unit_system idx step w,
        PyVal.lookup "instruction" step = None ->
        Route.print_step unit_system idx (VDict step) w
        = (Return tt,
           printed w [Print (PyStr.of_int idx ++ ". " ++ "N/A"
                               ++ step_distance unit_system step)]))
  /\ (forall unit_system step,
        step_distance unit_system step = ""
        <-> exists v e, PyVal.lookup "distance" step = Some v
                        /\ PyVal.to_float v = Raise e)
  /\ stdout (snd (Route.print_route "A" "B"
                    (one_segment
                       [("steps",
                         VList [VDict [("instruction", VStr "Head north");
                                       ("distance", VFloat 120.5)];
                                VDict [("instruction", VStr "Turn left")];
                                VDict [("distance", VStr "soon")];
                                VDict [("distance", VNone)] ])])
                    "metric" None (answering [] [])))
     = [Print (Route.nl ++ "API Status: Successful route call." ++ Route.nl);
        Print Route.separator;
        Print "Directions from A to B";
        Print "Trip Duration: N/A";
        Print "Distance: N/A";
        Print Route.separator;
        Print "1. Head north (0.12 km)";
        Print "2. Turn left (0.00 km)";
        Print "3. N/A";
        Print "4. N/A";
        Print (Route.separator ++ Route.nl)]
  /\ Route.print_step "imperial" 7 (VDict [("instruction", VStr "Arrive")]) (answering [] [])
     = (Return tt, printed (answering [] []) [Print "7. Arrive (0.00 mi)"]).
Proof.
  split; [|split; [|split; [|split; [|split; [|split]]]]].
  - intros. apply print_steps_lines.
  - intros unit_system idx step w H. rewrite print_step_line.
    unfold step_line, step_distance. rewrite H.
    destruct (unit_system =? "imperial")%string; reflexivity.
  - intros unit_system idx step w v f Hv Hf. rewrite print_step_line.
    unfold step_line, step_distance. rewrite Hv, Hf.
    destruct (unit_system =? "imperial")%string; reflexivity.
  - intros unit_system idx step w v e Hv Hf. rewrite print_step_line.
    unfold step_line, step_distance. rewrite Hv, Hf, append_empty_r. reflexivity.
  - intros unit_system idx step w H. rewrite print_step_line.
    unfold step_line, step_instruction. rewrite H. reflexivity.
  - intros unit_system step. unfold step_distance. split.
    + destruct (PyVal.lookup "distance" step) as [v|].
      * destruct (PyVal.to_float v) as [f|e] eqn:Hv; [discriminate|].
        intros _. exists v, e. split; [reflexivity | exact Hv].
      * destruct (unit_system =? "imperial")%string; discriminate.
    + intros (v & e & -> & ->). reflexivity.
  - split; vm_compute; reflexivity.
Qed.

Lemma steps_rendering_witness :
  Route.print_step "metric" 2 (VDict [("instruction", VStr "Turn left")]) (answering [] [])
  = (Return tt, printed (answering [] []) [Print "2. Turn left (0.00 km)"])
  /\ Route.print_step "metric" 3 (VDict [("distance", VStr "soon")]) (answering [] [])
     = (Return tt, printed (answering [] []) [Print "3. N/A"])
  /\ Route.print_step "metric" 4 (VDict [("instruction", VStr "Go"); ("distance", VStr "1500")])
       (answering [] [])
     = (Return tt, printed (answering [] []) [Print "4. Go (1.50 km)"]).
Proof.
  destruct steps_rendering as (_ & Hmissing & Hnumber & Hother & _).
  split; [|split].
  - apply (Hmissing "metric" 2 [("instruction", VStr "Turn left")] (answering [] [])).
    reflexivity.
  - apply (Hother "metric" 3 [("distance", VStr "soon")] (answering [] [])
             (VStr "soon") ValueError); reflexivity.
  - apply (Hnumber "metric" 4 [("instruction", VStr "Go"); ("distance", VStr "1500")]
             (answering [] []) (VStr "1500") 1500%float); reflexivity.
Defined.

(** C10 as stated fails on a number: a step whose distance is the int
    10^400, beyond the range of a double, is printed without the
    parentheses although its distance is present and numeric. *)
Lemma steps_rendering_counterexample :
  is_number (VInt (10 ^ 400)) = true
  /\ Route.print_step "metric" 1
       (VDict [("instruction", VStr "Go"); ("distance", VInt (10 ^ 400))]) (answering [] [])
     = (Return tt, printed (answering [] []) [Print "1. Go"]).
Proof. vm_compute. split; reflexivity. Qed.

(** ** Errors of the directions call in the loop *)

Example unauthorized_session_run :
  let '(r, w) := Route.main_loop 4 "key" "metric" None unauthorized_session in
  r = Return tt
  /\ stdin w = []
  /\ calls w = 3%nat
  /\ stdout w
     = [Prompt (Route.nl ++ "Starting Location: "); Prompt "Destination: ";
        geocode_request "Paris" "key"; geocode_request "Lyon" "key";
        directions_request (VList [VInt 2; VInt 48]) (VList [VInt 4; VInt 45]) "key";
        Print "Error 401: Unauthorized. Check your API key (ORS_API_KEY).";
        Prompt (Route.nl ++ "Starting Location: ")].
Proof. vm_compute. repeat split; reflexivity. Qed.

(** ** The loops have fuel enough

    The fuel of a loop is the number of input lines left, plus one.  Every
    turn reads a line, so the fuel never runs out: [OutOfFuel] is not a
    result of the program. *)

Create HintDb steady.

Lemma total_bind {A B : Type} (m : Effects.M A) (k : A -> Effects.M B) :
  total m -> (forall a, total (k a)) -> total (Effects.bind m k).
Proof.
  intros Hm Hk w. unfold Effects.bind. specialize (Hm w).
  destruct (m w) as [[a | e |] w']; simpl in *.
  - apply Hk.
  - discriminate.
  - contradiction.
Qed.

Lemma steady_total {A : Type} (m : Effects.M A) : steady m -> total m.
Proof. intros H w. apply H. Qed.

Lemma steady_ret {A : Type} (a : A) : steady (Effects.ret a).
Proof. intros w. split; [reflexivity | discriminate]. Qed.

Lemma steady_lift {A : Type} (o : outcome A) : steady (Effects.lift o).
Proof. intros w. destruct o; split; try reflexivity; discriminate. Qed.

Lemma steady_print (line : string) : steady (Effects.print line).
Proof. intros w. split; [reflexivity | discriminate]. Qed.

Lemma steady_request (e : event) : steady (Effects.request e).
Proof. intros w. split; [reflexivity | discriminate]. Qed.

Lemma steady_bind {A B : Type} (m : Effects.M A) (k : A -> Effects.M B) :
  steady m -> (forall a, steady (k a)) -> steady (Effects.bind m k).
Proof.
  intros Hm Hk w. unfold Effects.bind. destruct (Hm w) as [Hs Hf].
  destruct (m w) as [[a | e |] w']; simpl in *.
  - destruct (Hk a w') as [Hs' Hf']. split; [congruence | exact Hf'].
  - split; [exact Hs | discriminate].
  - contradiction.
Qed.

#[local] Hint Resolve steady_ret steady_lift steady_print steady_request : steady.

(** Splits a computation along its binds and branches. *)
Ltac steady_step :=
  match goal with
  | |- steady (Effects.bind _ _) => apply steady_bind; [|intros ?]
  | |- steady (match ?x with _ => _ end) => destruct x
  | |- steady (let '(_, _) := ?x in _) => destruct x
  | |- steady _ => solve [auto with steady]
  end.

Lemma steady_geocode_address (address key : string) :
  steady (Route.geocode_address address key).
Proof. unfold Route.geocode_address. repeat steady_step. Qed.

Lemma steady_fetch_route (orig_coords dest_coords : pyval) (key : string) :
  steady (Route.fetch_route orig_coords dest_coords key).
Proof. unfold Route.fetch_route. repeat steady_step. Qed.

Lemma steady_print_step (unit_system : string) (idx : Z) (step : pyval) :
  steady (Route.print_step unit_system idx step).
Proof. unfold Route.print_step. repeat steady_step. Qed.

Lemma steady_print_steps (unit_system : string) (items : list pyval) :
  forall idx, steady (Route.print_steps unit_system idx items).
Proof.
  induction items as [|step rest IH]; intros idx; simpl.
  - apply steady_ret.
  - apply steady_bind; [apply steady_print_step | intros _; apply IH].
Qed.

#[local] Hint Resolve steady_geocode_address steady_fetch_route steady_print_steps
  : steady.

Lemma steady_print_route (orig dest : string) (data : pyval) (unit_system : string)
      (l_per_100km : option float) :
  steady (Route.print_route orig dest data unit_system l_per_100km).
Proof. unfold Route.print_route. repeat steady_step. Qed.

Lemma bind_steady_total {A B : Type} (m : Effects.M A) (k : A -> Effects.M B)
      (w : world) :
  steady m ->
  (forall a w', stdin w' = stdin w -> fst (k a w') <> OutOfFuel) ->
  fst (Effects.bind m k w) <> OutOfFuel.
Proof.
  intros Hm Hk. unfold Effects.bind. destruct (Hm w) as [Hs Hf].
  destruct (m w) as [[a | e |] w']; simpl in *.
  - apply Hk. exact Hs.
  - discriminate.
  - contradiction.
Qed.

Lemma ask_float_loop_total (prompt : string) (default : option float)
      (allow_blank : bool) (fuel : nat) :
  forall w,
    (List.length (stdin w) < fuel)%nat ->
    fst (Route.ask_float_loop fuel prompt default allow_blank w) <> OutOfFuel.
Proof.
  induction fuel as [|fuel IH]; intros w Hlen; [lia|].
  cbn [Route.ask_float_loop]. unfold Effects.bind at 1, Effects.input.
  destruct (stdin w) as [|line rest] eqn:Hin; [discriminate|].
  simpl in Hlen.
  destruct (allow_blank && (PyStr.strip line =? "")%string); [discriminate|].
  destruct (PyNum.float_of_string (PyStr.strip line)) as [f|e]; [discriminate|].
  destruct e; try discriminate.
  rewrite bind_print. apply IH. simpl. lia.
Qed.

Lemma main_loop_total (key unit_system : string) (l_per_100km : option float)
      (fuel : nat) :
  forall w,
    (List.length (stdin w) < fuel)%nat ->
    fst (Route.main_loop fuel key unit_system l_per_100km w) <> OutOfFuel.
Proof.
  induction fuel as [|fuel IH]; intros w Hlen; [lia|].
  cbn [Route.main_loop]. unfold Effects.bind at 1, Effects.input.
  destruct (stdin w) as [|orig rest] eqn:Hin; [discriminate|].
  simpl in Hlen.
  destruct (Route.is_quit (PyStr.strip orig)); [discriminate|].
  unfold Effects.bind at 1, Effects.input. cbn [stdin tl].
  destruct rest as [|dest rest]; [discriminate|].
  simpl in Hlen.
  destruct (Route.is_quit (PyStr.strip dest)); [discriminate|].
  apply bind_steady_total; [apply steady_geocode_address|].
  intros orig_coords w1 H1. cbn [stdin tl] in H1.
  apply bind_steady_total; [apply steady_geocode_address|].
  intros dest_coords w2 H2.
  assert (Hnext : forall w', stdin w' = stdin w2 ->
            fst (Route.main_loop fuel key unit_system l_per_100km w') <> OutOfFuel).
  { intros w' Hw'. apply IH. rewrite Hw', H2, H1. lia. }
  destruct (negb (PyVal.truthy orig_coords) || negb (PyVal.truthy dest_coords)).
  - rewrite bind_print. apply Hnext. reflexivity.
  - apply bind_steady_total; [apply steady_fetch_route|].
    intros [data error] w3 H3.
    destruct (PyVal.truthy error).
    + apply bind_steady_total; [apply steady_lift|]. intros status w4 H4.
      apply bind_steady_total; [apply steady_lift|]. intros message w5 H5.
      apply bind_steady_total.
      * repeat match goal with
               | |- steady (if ?c then _ else _) => destruct c
               end; apply steady_print.
      * intros _ w6 H6. apply Hnext. congruence.
    + apply bind_steady_total; [apply steady_print_route|].
      intros _ w4 H4. apply Hnext. congruence.
Qed.

(** X19. The whole program never runs out of fuel: every turn of its two
    loops reads a line, so on any input it ends with a result or an
    exception, whatever the network answers. *)
Theorem main_total : total Route.main.
Proof.
  unfold Route.main.
  apply total_bind; [apply steady_total, steady_print | intros _].
  apply total_bind; [apply steady_total, steady_print | intros _].
  apply total_bind.
  { intros w. pose proof (read_api_key_contract w) as H.
    destruct (fst (Route.read_api_key w)); [discriminate | discriminate | contradiction]. }
  intros key.
  apply total_bind.
  { intros w. unfold Effects.input. destruct (stdin w); discriminate. }
  intros unit_choice.
  apply total_bind.
  { destruct ((if (PyStr.strip unit_choice =? "2")%string then "imperial" else "metric")
                =? "metric")%string.
    - intros w. unfold Route.ask_float, Effects.with_fuel.
      apply ask_float_loop_total. lia.
    - apply steady_total, steady_ret. }
  intros l_per_100km.
  apply total_bind; [|intros _; apply steady_total, steady_print].
  intros w. unfold Effects.with_fuel. apply main_loop_total. lia.
Qed.

(** * Further properties of the program *)

(** ** Geocoder client: one call, at most one diagnostic *)

Lemma concise_ret {A : Type} (a : A) : concise (Effects.ret a).
Proof. intros w. exists []. rewrite printed_nil. split; [reflexivity | left; reflexivity]. Qed.

Lemma concise_lift {A : Type} (o : outcome A) : concise (Effects.lift o).
Proof.
  intros w. exists []. rewrite printed_nil.
  destruct o; (split; [reflexivity | left; reflexivity]).
Qed.

Lemma concise_print_ret {A : Type} (line : string) (a : A) :
  concise (Effects.bind (Effects.print line) (fun _ => Effects.ret a)).
Proof.
  intros w. exists [Print line]. split; [reflexivity | right; eexists; reflexivity].
Qed.

Lemma concise_lift_bind {A B : Type} (o : outcome A) (k : A -> Effects.M B) :
  (forall a, concise (k a)) -> concise (Effects.bind (Effects.lift o) k).
Proof.
  intros Hk w. destruct o as [a | e].
  - rewrite bind_lift_ok. apply Hk.
  - rewrite bind_lift_raise. exists []. rewrite printed_nil.
    split; [reflexivity | left; reflexivity].
Qed.

(** Splits the part of the geocoder that follows the call. *)
Ltac concise_step :=
  match goal with
  | |- concise (Effects.bind (Effects.lift _) _) => apply concise_lift_bind; intros ?
  | |- concise (Effects.bind (Effects.print _) _) => apply concise_print_ret
  | |- concise (Effects.ret _) => apply concise_ret
  | |- concise (if ?c then _ else _) => destruct c
  | |- concise (let '(_, _) := ?x in _) => destruct x
  end.

Lemma concise_after_call {A : Type} (m : Effects.M A) (w : world) (req : event) :
  concise m ->
  exists out,
    snd (m (called w [req])) = called w (req :: out)
    /\ (out = [] \/ exists line, out = [Print line]).
Proof.
  intros H. destruct (H (called w [req])) as [out [Hs Ho]].
  exists out. rewrite Hs, called_printed. split; [reflexivity | exact Ho].
Qed.

(** The events of a call to the geocoder. *)
Lemma geocode_address_trace (address key : string) (w : world) :
  exists out,
    snd (Route.geocode_address address key w)
    = called w (geocode_request address key :: out)
    /\ (out = [] \/ exists line, out = [Print line]).
Proof.
  unfold Route.geocode_address. unfold Effects.bind at 1.
  fold (geocode_request address key). rewrite request_run. cbv beta iota.
  destruct (net w (calls w)) as [e | r];
    apply concise_after_call; repeat concise_step.
Qed.

(** X3. Whatever the network answers, [geocode_address] makes exactly one
    call, the GET request for the address with one result asked for and a
    timeout of 20; it reads no input, and after the request it calls
    [print] at most once (the text of that one call may span several
    lines, since it can quote the answer) and calls nothing else. *)
Theorem geocode_address_one_call (address key : string) (w : world) :
  exists out,
    stdout (snd (Route.geocode_address address key w))
    = (stdout w ++ geocode_request address key :: out)%list
    /\ (out = [] \/ exists line, out = [Print line])
    /\ existsb is_network_event out = false
    /\ calls (snd (Route.geocode_address address key w)) = S (calls w)
    /\ stdin (snd (Route.geocode_address address key w)) = stdin w.
Proof.
  destruct (geocode_address_trace address key w) as [out [Hs Ho]].
  exists out. rewrite Hs. repeat split; try assumption.
  destruct Ho as [-> | [line ->]]; reflexivity.
Qed.

Lemma take_length (n : nat) : forall s, (String.length (PyStr.take n s) <= n)%nat.
Proof.
  induction n as [|n IH]; intros s; simpl; [lia|].
  destruct s as [|c s]; simpl; [lia|]. specialize (IH s). lia.
Qed.

Lemma take_all (n : nat) : forall s, (String.length s <= n)%nat -> PyStr.take n s = s.
Proof.
  induction n as [|n IH]; intros s H; destruct s as [|c s]; simpl in *;
    try reflexivity; try lia.
  rewrite IH by lia. reflexivity.
Qed.

(** X4. The failures of the geocoder that come before any parsing: when
    the transport fails the result is [None] after a line with the text of
    the failure; when the status is not 200 the result is [None] after a
    line with the status and the first 200 characters of the body, the
    whole body when it is no longer than that; when the answer is a mapping
    whose "features" are missing or empty the result is [None] after a line
    naming the address. *)
Theorem geocode_address_failures (address key : string) (w : world) :
  (forall e,
     net w (calls w) = ConnectionFailed e ->
     Route.geocode_address address key w
     = (Return VNone,
        called w [geocode_request address key;
                  Print ("Network error while geocoding '" ++ address ++ "': " ++ e)]))
  /\ (forall r,
        net w (calls w) = Answer r -> status_code r <> 200 ->
        Route.geocode_address address key w
        = (Return VNone,
           called w [geocode_request address key;
                     Print ("Error " ++ PyStr.of_int (status_code r) ++ " geocoding '"
                              ++ address ++ "': " ++ PyStr.take 200 (text r))])
        /\ (String.length (PyStr.take 200 (text r)) <= 200)%nat
        /\ ((String.length (text r) <= 200)%nat -> PyStr.take 200 (text r) = text r))
  /\ (forall r d,
        net w (calls w) = Answer r -> status_code r = 200 ->
        json_body r = Some (VDict d) ->
        PyVal.truthy (field d "features" (VList [])) = false ->
        Route.geocode_address address key w
        = (Return VNone,
           called w [geocode_request address key;
                     Print ("Error: No results found for address '" ++ address ++ "'.")])).
Proof.
  assert (Hcall : forall k : reply -> Effects.M pyval,
            Effects.bind (Effects.request (geocode_request address key)) k w
            = k (net w (calls w)) (called w [geocode_request address key])).
  { intros k. unfold Effects.bind. rewrite request_run. reflexivity. }
  unfold Route.geocode_address. fold (geocode_request address key).
  rewrite Hcall. clear Hcall.
  split; [|split].
  - intros e ->. rewrite bind_print, called_printed. reflexivity.
  - intros r -> Hs. apply Z.eqb_neq in Hs. rewrite Hs. cbn [negb].
    rewrite bind_print, called_printed.
    split; [reflexivity|]. split; [apply take_length | apply take_all].
  - intros r d -> Hs Hj Hf. rewrite Hs, Hj. cbn [Z.eqb Pos.eqb negb].
    rewrite bind_lift_ok. cbn [PyVal.get]. rewrite bind_lift_ok.
    fold (field d "features" (VList [])). rewrite Hf. cbn [negb].
    rewrite bind_print, called_printed. reflexivity.
Qed.

Lemma geocode_address_failures_witness :
  Route.geocode_address "Paris" "key"
    (answering [] [Answer {| status_code := 404; text := "not found";
                             json_body := None; headers := [] |}])
  = (Return VNone,
     called (answering [] [Answer {| status_code := 404; text := "not found";
                                     json_body := None; headers := [] |}])
            [geocode_request "Paris" "key";
             Print "Error 404 geocoding 'Paris': not found"]).
Proof.
  destruct (geocode_address_failures "Paris" "key"
              (answering [] [Answer {| status_code := 404; text := "not found";
                                       json_body := None; headers := [] |}]))
    as (_ & H & _).
  destruct (H {| status_code := 404; text := "not found";
                 json_body := None; headers := [] |} eq_refl) as [Hrun _].
  - discriminate.
  - exact Hrun.
Defined.

(** ** Presenter: the early returns and the whole output *)

(** X5. A payload that is a mapping without routes (no "routes" key, or an
    empty list) makes [print_route] print one diagnostic and return; so
    does a first route without segments.  Nothing else is printed. *)
Theorem print_route_nothing_to_show (orig dest unit_system : string)
        (l_per_100km : option float) (w : world) :
  (forall d,
     PyVal.truthy (field d "routes" (VList [])) = false ->
     Route.print_route orig dest (VDict d) unit_system l_per_100km w
     = (Return tt, printed w [Print "Error: No routes found in the response."]))
  /\ (forall d rd,
        PyVal.first (field d "routes" (VList [])) = Ok (VDict rd) ->
        PyVal.truthy (field rd "segments" (VList [])) = false ->
        Route.print_route orig dest (VDict d) unit_system l_per_100km w
        = (Return tt, printed w [Print "Error: No segments found in the route."])).
Proof.
  split.
  - intros d H. unfold Route.print_route. cbn [PyVal.get]. rewrite bind_lift_ok.
    fold (field d "routes" (VList [])). rewrite H. reflexivity.
  - intros d rd Hr Hs. unfold Route.print_route. cbn [PyVal.get].
    rewrite bind_lift_ok. fold (field d "routes" (VList [])).
    rewrite (first_truthy _ _ Hr), Hr. cbn [negb].
    rewrite bind_lift_ok. cbn [PyVal.get]. rewrite bind_lift_ok.
    fold (field rd "segments" (VList [])). rewrite Hs. reflexivity.
Qed.

Lemma print_route_nothing_to_show_witness :
  Route.print_route "A" "B" (VDict [("routes", VList [])]) "metric" None (answering [] [])
  = (Return tt,
     printed (answering [] []) [Print "Error: No routes found in the response."])
  /\ Route.print_route "A" "B" (VDict [("routes", VList [VDict [("summary", VNone)]])])
       "metric" None (answering [] [])
     = (Return tt,
        printed (answering [] []) [Print "Error: No segments found in the route."]).
Proof.
  destruct (print_route_nothing_to_show "A" "B" "metric" None (answering [] []))
    as [H1 H2].
  split.
  - apply H1. reflexivity.
  - apply (H2 _ [("summary", VNone)]); reflexivity.
Defined.

Lemma step_lines_length (unit_system : string) (steps : list (list (string * pyval))) :
  forall idx, List.length (step_lines unit_system idx steps) = List.length steps.
Proof.
  induction steps as [|step rest IH]; intros idx; simpl; [|rewrite IH]; reflexivity.
Qed.

Lemma step_lines_nth (unit_system : string) (steps : list (list (string * pyval))) :
  forall idx k step,
    nth_error steps k = Some step ->
    nth_error (step_lines unit_system idx steps) k
    = Some (Print (step_line unit_system (idx + Z.of_nat k) step)).
Proof.
  induction steps as [|s rest IH]; intros idx k step H.
  - destruct k; discriminate.
  - destruct k as [|k]; simpl in H |- *.
    + inversion H. subst. rewrite Z.add_0_r. reflexivity.
    + rewrite (IH (idx + 1) k step H). do 3 f_equal. lia.
Qed.

(** X6. On a payload whose first segment is a mapping with a list of steps
    that are mappings, [print_route] returns normally and prints the
    summary, then one line per step, in order and numbered from 1, then the
    closing separator. *)
Theorem print_route_well_formed (orig dest : string) (data : pyval)
        (unit_system : string) (l_per_100km : option float)
        (segment : list (string * pyval)) (steps : list (list (string * pyval)))
        (w : world) :
  first_segment data = Ok (VDict segment) ->
  field segment "steps" (VList []) = VList (map VDict steps) ->
  steps <> [] ->
  Route.print_route orig dest data unit_system l_per_100km w
  = (Return tt,
     printed w (summary orig dest unit_system l_per_100km segment
                  ++ step_lines unit_system 1 steps
                  ++ [Print (Route.separator ++ Route.nl)]))
  /\ List.length (step_lines unit_system 1 steps) = List.length steps
  /\ forall k step,
       nth_error steps k = Some step ->
       nth_error (step_lines unit_system 1 steps) k
       = Some (Print (step_line unit_system (1 + Z.of_nat k) step)).
Proof.
  intros Hseg Hsteps Hne. split; [|split].
  - rewrite (print_route_summary _ _ _ _ _ _ _ Hseg).
    unfold steps_and_footer. rewrite Hsteps.
    destruct steps as [|s rest]; [contradiction|].
    cbn [PyVal.truthy map PyVal.iter]. rewrite bind_bind, bind_lift_ok.
    unfold Effects.bind at 1.
    change (VDict s :: map VDict rest) with (map VDict (s :: rest)).
    rewrite print_steps_lines, print_run, !printed_printed. reflexivity.
  - apply step_lines_length.
  - intros k step H. apply step_lines_nth. exact H.
Qed.

(** X7. When the first segment has no steps (no "steps" key, or an empty
    list), [print_route] prints the summary, the line saying so and the
    closing separator. *)
Theorem print_route_without_steps (orig dest : string) (data : pyval)
        (unit_system : string) (l_per_100km : option float)
        (segment : list (string * pyval)) (w : world) :
  first_segment data = Ok (VDict segment) ->
  PyVal.truthy (field segment "steps" (VList [])) = false ->
  Route.print_route orig dest data unit_system l_per_100km w
  = (Return tt,
     printed w (summary orig dest unit_system l_per_100km segment
                  ++ [Print "No step-by-step directions available.";
                      Print (Route.separator ++ Route.nl)])).
Proof.
  intros Hseg Hsteps.
  rewrite (print_route_summary _ _ _ _ _ _ _ Hseg).
  unfold steps_and_footer. rewrite Hsteps.
  rewrite bind_print, print_run, !printed_printed. reflexivity.
Qed.

Lemma print_route_well_formed_witness :
  Route.print_route "A" "B" (one_segment stepped_segment) "metric" None (answering [] [])
  = (Return tt,
     printed (answering [] [])
       (summary "A" "B" "metric" None stepped_segment
          ++ step_lines "metric" 1 two_steps
          ++ [Print (Route.separator ++ Route.nl)])).
Proof.
  apply (print_route_well_formed "A" "B" (one_segment stepped_segment) "metric" None
           stepped_segment two_steps (answering [] [])).
  - reflexivity.
  - reflexivity.
  - discriminate.
Defined.

Lemma print_route_without_steps_witness :
  Route.print_route "A" "B" (one_segment sample_segment) "imperial" None (answering [] [])
  = (Return tt,
     printed (answering [] [])
       (summary "A" "B" "imperial" None sample_segment
          ++ [Print "No step-by-step directions available.";
              Print (Route.separator ++ Route.nl)])).
Proof.
  apply (print_route_without_steps "A" "B" (one_segment sample_segment) "imperial" None
           sample_segment (answering [] [])); reflexivity.
Defined.

(** ** Interactive loop: the turns *)

(** A turn whose two inputs are not quit words geocodes both addresses, the
    origin first, and goes on with the rest of the turn. *)
Lemma loop_turn (fuel : nat) (key unit_system : string) (l_per_100km : option float)
      (w : world) (orig dest : string) (rest : list string)
      (orig_coords dest_coords : pyval) (w1 w2 : world) :
  stdin w = orig :: dest :: rest ->
  Route.is_quit (PyStr.strip orig) = false ->
  Route.is_quit (PyStr.strip dest) = false ->
  Route.geocode_address (PyStr.strip orig) key (consumed 2 w turn_prompts)
  = (Return orig_coords, w1) ->
  Route.geocode_address (PyStr.strip dest) key w1 = (Return dest_coords, w2) ->
  Route.main_loop (S fuel) key unit_system l_per_100km w
  = after_geocoding fuel key unit_system l_per_100km
      (PyStr.strip orig) (PyStr.strip dest) orig_coords dest_coords w2.
Proof.
  intros Hin Ho Hd Hg1 Hg2.
  cbn [Route.main_loop]. unfold Effects.bind at 1.
  rewrite (input_run _ orig (dest :: rest) w Hin), Ho.
  unfold Effects.bind at 1.
  rewrite (input_run _ dest rest); [|rewrite consumed_stdin, Hin; reflexivity].
  rewrite Hd, consumed_consumed.
  change ([Prompt (Route.nl ++ "Starting Location: ")] ++ [Prompt "Destination: "])%list
    with turn_prompts.
  change (1 + 1)%nat with 2%nat.
  unfold Effects.bind at 1. rewrite Hg1.
  unfold Effects.bind at 1. rewrite Hg2.
  reflexivity.
Qed.

Lemma fetch_route_run (orig_coords dest_coords : pyval) (key : string) (w : world) :
  Route.fetch_route orig_coords dest_coords key w
  = match net w (calls w) with
    | ConnectionFailed e =>
        (Return (VNone, VNone),
         called w [directions_request orig_coords dest_coords key;
                   Print ("Network error calling directions API: " ++ e)])
    | Answer r =>
        (Return (if status_code r =? 200 then (parsed_or_wrapped r, VNone)
                 else (VNone, VDict [("status", VInt (status_code r));
                                     ("message", error_message r)])),
         called w [directions_request orig_coords dest_coords key])
    end.
Proof.
  unfold Route.fetch_route, Effects.bind.
  fold (directions_request orig_coords dest_coords key).
  rewrite request_run.
  destruct (net w (calls w)) as [e | r].
  - rewrite print_run, called_printed. reflexivity.
  - fold (parsed_or_wrapped r). unfold error_message.
    destruct (status_code r =? 200); reflexivity.
Qed.

(** X10. In a turn where both addresses are geocoded and the directions
    call fails in the transport, [fetch_route] returns [(None, None)]; the
    loop takes this for a success and calls [print_route] on [None], which
    raises an [AttributeError] that nothing catches: the loop ends there,
    after the network diagnostic. *)
Theorem loop_transport_failure (fuel : nat) (key unit_system : string)
        (l_per_100km : option float) (w : world) (orig dest : string)
        (rest : list string) (orig_coords dest_coords : pyval) (w1 w2 : world)
        (e : string) :
  stdin w = orig :: dest :: rest ->
  Route.is_quit (PyStr.strip orig) = false ->
  Route.is_quit (PyStr.strip dest) = false ->
  Route.geocode_address (PyStr.strip orig) key (consumed 2 w turn_prompts)
  = (Return orig_coords, w1) ->
  Route.geocode_address (PyStr.strip dest) key w1 = (Return dest_coords, w2) ->
  PyVal.truthy orig_coords = true ->
  PyVal.truthy dest_coords = true ->
  net w2 (calls w2) = ConnectionFailed e ->
  Route.main_loop (S fuel) key unit_system l_per_100km w
  = (Throw AttributeError,
     called w2 [directions_request orig_coords dest_coords key;
                Print ("Network error calling directions API: " ++ e)]).
Proof.
  intros Hin Ho Hd Hg1 Hg2 Ht1 Ht2 Hnet.
  rewrite (loop_turn _ _ _ _ _ _ _ _ _ _ _ _ Hin Ho Hd Hg1 Hg2).
  unfold after_geocoding. rewrite Ht1, Ht2. cbn [negb orb].
  unfold Effects.bind at 1. rewrite fetch_route_run, Hnet.
  reflexivity.
Qed.

Lemma loop_transport_failure_witness :
  Route.main_loop 4 "key" "metric" None (turn_session (ConnectionFailed "timed out"))
  = (Throw AttributeError,
     called (turn_geocoded (ConnectionFailed "timed out"))
            [directions_request (VList [VInt 2; VInt 48]) (VList [VInt 4; VInt 45]) "key";
             Print "Network error calling directions API: timed out"]).
Proof.
  apply (loop_transport_failure 3 "key" "metric" None
           (turn_session (ConnectionFailed "timed out"))
           "Paris" "Lyon" ["quit"]
           (VList [VInt 2; VInt 48]) (VList [VInt 4; VInt 45])
           (called (consumed 2 (turn_session (ConnectionFailed "timed out")) turn_prompts)
                   [geocode_request "Paris" "key"])
           (turn_geocoded (ConnectionFailed "timed out")) "timed out");
    reflexivity.
Defined.

(** X11. In a turn where both addresses are geocoded and the directions
    service answers with status 200, the loop hands the parsed-or-wrapped
    body to [print_route] and then goes on with the next turn.  A body that
    is not JSON is wrapped in a mapping without routes, so the turn ends
    with the line "No routes found" and the loop goes on. *)
Theorem loop_success (fuel : nat) (key unit_system : string)
        (l_per_100km : option float) (w : world) (orig dest : string)
        (rest : list string) (orig_coords dest_coords : pyval) (w1 w2 : world)
        (r : response) :
  stdin w = orig :: dest :: rest ->
  Route.is_quit (PyStr.strip orig) = false ->
  Route.is_quit (PyStr.strip dest) = false ->
  Route.geocode_address (PyStr.strip orig) key (consumed 2 w turn_prompts)
  = (Return orig_coords, w1) ->
  Route.geocode_address (PyStr.strip dest) key w1 = (Return dest_coords, w2) ->
  PyVal.truthy orig_coords = true ->
  PyVal.truthy dest_coords = true ->
  net w2 (calls w2) = Answer r ->
  status_code r = 200 ->
  Route.main_loop (S fuel) key unit_system l_per_100km w
  = Effects.bind
      (Route.print_route (PyStr.strip orig) (PyStr.strip dest) (parsed_or_wrapped r)
                         unit_system l_per_100km)
      (fun _ => Route.main_loop fuel key unit_system l_per_100km)
      (called w2 [directions_request orig_coords dest_coords key])
  /\ (json_body r = None ->
      Route.main_loop (S fuel) key unit_system l_per_100km w
      = Route.main_loop fuel key unit_system l_per_100km
          (printed (called w2 [directions_request orig_coords dest_coords key])
                   [Print "Error: No routes found in the response."])).
Proof.
  intros Hin Ho Hd Hg1 Hg2 Ht1 Ht2 Hnet Hs.
  assert (Hrun : Route.main_loop (S fuel) key unit_system l_per_100km w
                 = Effects.bind
                     (Route.print_route (PyStr.strip orig) (PyStr.strip dest)
                        (parsed_or_wrapped r) unit_system l_per_100km)
                     (fun _ => Route.main_loop fuel key unit_system l_per_100km)
                     (called w2 [directions_request orig_coords dest_coords key])).
  { rewrite (loop_turn _ _ _ _ _ _ _ _ _ _ _ _ Hin Ho Hd Hg1 Hg2).
    unfold after_geocoding. rewrite Ht1, Ht2. cbn [negb orb].
    unfold Effects.bind at 1. rewrite fetch_route_run, Hnet, Hs. reflexivity. }
  split; [exact Hrun|].
  intros Hj. rewrite Hrun. unfold parsed_or_wrapped. rewrite Hj.
  reflexivity.
Qed.

Lemma loop_success_witness :
  Route.main_loop 2 "key" "metric" None
    (turn_session (Answer {| status_code := 200; text := "<html>"; json_body := None;
                             headers := [] |}))
  = Route.main_loop 1 "key" "metric" None
      (printed
         (called (turn_geocoded (Answer {| status_code := 200; text := "<html>";
                                           json_body := None; headers := [] |}))
                 [directions_request (VList [VInt 2; VInt 48]) (VList [VInt 4; VInt 45])
                                     "key"])
         [Print "Error: No routes found in the response."]).
Proof.
  refine (proj2 (loop_success 1 "key" "metric" None
           (turn_session (Answer {| status_code := 200; text := "<html>";
                                    json_body := None; headers := [] |}))
           "Paris" "Lyon" ["quit"]
           (VList [VInt 2; VInt 48]) (VList [VInt 4; VInt 45])
           _ (turn_geocoded (Answer {| status_code := 200; text := "<html>";
                                       json_body := None; headers := [] |}))
           {| status_code := 200; text := "<html>"; json_body := None; headers := [] |}
           eq_refl eq_refl eq_refl _ _ eq_refl eq_refl eq_refl eq_refl) eq_refl);
    reflexivity.
Defined.

(** X12. The end of the input at a prompt of the loop raises [EOFError],
    which the loop does not catch: at the origin prompt, and at the
    destination prompt after an origin that is not a quit word.  The prompt
    has been written and no call has been made. *)
Theorem loop_end_of_input (fuel : nat) (key unit_system : string)
        (l_per_100km : option float) (w : world) :
  (stdin w = [] ->
   Route.main_loop (S fuel) key unit_system l_per_100km w
   = (Throw EOFError, consumed 1 w [Prompt (Route.nl ++ "Starting Location: ")]))
  /\ (forall orig,
        stdin w = [orig] -> Route.is_quit (PyStr.strip orig) = false ->
        Route.main_loop (S fuel) key unit_system l_per_100km w
        = (Throw EOFError, consumed 2 w turn_prompts)).
Proof.
  split.
  - intros Hin. cbn [Route.main_loop]. unfold Effects.bind at 1, Effects.input.
    unfold consumed. rewrite Hin. reflexivity.
  - intros orig Hin Ho. cbn [Route.main_loop]. unfold Effects.bind at 1.
    rewrite (input_run _ orig [] w Hin), Ho.
    unfold Effects.bind at 1, Effects.input, consumed. cbn [stdin].
    rewrite Hin. cbn [skipn tl stdout environ net calls].
    rewrite <- app_assoc. reflexivity.
Qed.

Lemma loop_end_of_input_witness :
  Route.main_loop 1 "key" "metric" None (offline [])
  = (Throw EOFError, consumed 1 (offline []) [Prompt (Route.nl ++ "Starting Location: ")])
  /\ Route.main_loop 1 "key" "metric" None (offline ["Paris"])
     = (Throw EOFError, consumed 2 (offline ["Paris"]) turn_prompts).
Proof.
  split.
  - apply (proj1 (loop_end_of_input 0 "key" "metric" None (offline []))). reflexivity.
  - apply (proj2 (loop_end_of_input 0 "key" "metric" None (offline ["Paris"])) "Paris");
      reflexivity.
Defined.

(** ** Numeric prompt *)

Lemma consumed_printed (n : nat) (w : world) (a b : list event) :
  printed (consumed n w a) b = consumed n w (a ++ b).
Proof. unfold printed, consumed; simpl. rewrite <- app_assoc. reflexivity. Qed.

Lemma retries_app (prompt : string) (n : nat) (tail : list event) :
  (Prompt prompt :: Print "Please enter a number (e.g., 8.5)." :: retries prompt n ++ tail)%list
  = (retries prompt (S n) ++ tail)%list.
Proof. reflexivity. Qed.

Lemma ask_float_loop_retries (prompt : string) (default : option float)
      (allow_blank : bool) (good : string) (rest : list string)
      (answer : option float) (bads : list string) :
  Forall (rejected allow_blank) bads ->
  accepted allow_blank default good = Some answer ->
  forall fuel w,
    stdin w = (bads ++ good :: rest)%list ->
    (List.length bads < fuel)%nat ->
    Route.ask_float_loop fuel prompt default allow_blank w
    = (Return answer,
       consumed (S (List.length bads)) w
                (retries prompt (List.length bads) ++ [Prompt prompt])).
Proof.
  intros Hbads Hgood.
  induction Hbads as [|bad bads [Hblank Hbad] Hrest IH]; intros fuel w Hin Hfuel.
  - destruct fuel as [|fuel]; [simpl in Hfuel; lia|].
    cbn [Route.ask_float_loop]. unfold Effects.bind at 1.
    rewrite (input_run _ good rest w Hin).
    unfold accepted in Hgood.
    destruct (allow_blank && (PyStr.strip good =? "")%string).
    + inversion Hgood. reflexivity.
    + destruct (PyNum.float_of_string (PyStr.strip good)) as [f|e]; [|discriminate].
      inversion Hgood. reflexivity.
  - destruct fuel as [|fuel]; [simpl in Hfuel; lia|].
    cbn [Route.ask_float_loop]. unfold Effects.bind at 1.
    rewrite (input_run _ bad (bads ++ good :: rest)%list w Hin).
    rewrite Hblank, Hbad, bind_print, consumed_printed.
    rewrite IH.
    + rewrite consumed_consumed. cbn [List.length Nat.add].
      rewrite <- app_assoc. reflexivity.
    + rewrite consumed_stdin, Hin. reflexivity.
    + simpl in Hfuel. lia.
Qed.

(** X1. [ask_float] asks again after every entry it rejects, printing the
    request for a number each time, and returns at the first entry it
    accepts: the default for a blank entry when blanks are allowed,
    otherwise the float the entry denotes.  It reads exactly the rejected
    entries and the accepted one. *)
Theorem ask_float_retries (prompt : string) (default : option float)
        (allow_blank : bool) (bads : list string) (good : string)
        (rest : list string) (answer : option float) (w : world) :
  stdin w = (bads ++ good :: rest)%list ->
  Forall (rejected allow_blank) bads ->
  accepted allow_blank default good = Some answer ->
  Route.ask_float prompt default allow_blank w
  = (Return answer,
     consumed (S (List.length bads)) w
              (retries prompt (List.length bads) ++ [Prompt prompt])).
Proof.
  intros Hin Hbads Hgood. unfold Route.ask_float, Effects.with_fuel.
  apply (ask_float_loop_retries prompt default allow_blank good rest answer bads
           Hbads Hgood _ w Hin).
  rewrite Hin, length_app. simpl. lia.
Qed.

Lemma ask_float_retries_witness :
  Route.ask_float "Rate: " None true (offline ["abc"; "1,5"; " 8.5 "; "Paris"])
  = (Return (Some 8.5%float),
     consumed 3 (offline ["abc"; "1,5"; " 8.5 "; "Paris"])
              (retries "Rate: " 2 ++ [Prompt "Rate: "])).
Proof.
  apply (ask_float_retries "Rate: " None true ["abc"; "1,5"] " 8.5 " ["Paris"]).
  - reflexivity.
  - repeat constructor.
  - vm_compute. reflexivity.
Defined.

(** [float(s)] on a string raises nothing but [ValueError]. *)
Lemma float_of_string_raises (s : string) (e : exn) :
  PyNum.float_of_string s = Raise e -> e = ValueError.
Proof.
  unfold PyNum.float_of_string.
  destruct (PyNum.parse_sign (PyNum.rskip (PyNum.lskip s))) as [neg body].
  destruct (_ || _); [discriminate|].
  destruct (_ =? _)%string; [discriminate|].
  destruct (PyNum.digitpart body 0 0) as [[ip ni] r1].
  destruct (match r1 with
            | String "." r => PyNum.digitpart r ip 0
            | _ => (ip, 0%nat, r1)
            end) as [[m nf] r2].
  destruct (ni + nf =? 0)%nat; [intros H; inversion H; reflexivity|].
  destruct r2 as [|c r3]; [discriminate|].
  destruct (_ || _); [|intros H; inversion H; reflexivity].
  destruct (PyNum.parse_sign r3) as [eneg r4].
  destruct (PyNum.digitpart r4 0 0) as [[ev ne] r5].
  destruct (_ || _); [intros H; inversion H; reflexivity | discriminate].
Qed.

(** X2. [ask_float] ends in one of two ways only: it returns, or the input
    ends at its prompt and [EOFError] is raised.  No entry makes it raise
    anything else, and it does not go on without reading. *)
Theorem ask_float_ends (prompt : string) (default : option float)
        (allow_blank : bool) (w : world) :
  match fst (Route.ask_float prompt default allow_blank w) with
  | Return answer => exists line, In line (stdin w)
                                  /\ accepted allow_blank default line = Some answer
  | Throw e => e = EOFError
  | OutOfFuel => False
  end.
Proof.
  unfold Route.ask_float, Effects.with_fuel.
  assert (H : forall fuel w,
            (List.length (stdin w) < fuel)%nat ->
            match fst (Route.ask_float_loop fuel prompt default allow_blank w) with
            | Return answer => exists line, In line (stdin w)
                                 /\ accepted allow_blank default line = Some answer
            | Throw e => e = EOFError
            | OutOfFuel => False
            end); [|apply H; lia].
  clear w. induction fuel as [|fuel IH]; intros w Hlen; [lia|].
  cbn [Route.ask_float_loop]. unfold Effects.bind at 1, Effects.input.
  destruct (stdin w) as [|line rest] eqn:Hin; [reflexivity|].
  simpl in Hlen.
  destruct (allow_blank && (PyStr.strip line =? "")%string) eqn:Hblank.
  - exists line. split; [left; reflexivity|]. unfold accepted. rewrite Hblank. reflexivity.
  - destruct (PyNum.float_of_string (PyStr.strip line)) as [f|e] eqn:Hf.
    + exists line. split; [left; reflexivity|].
      unfold accepted. rewrite Hblank, Hf. reflexivity.
    + rewrite (float_of_string_raises _ _ Hf). rewrite bind_print.
      match goal with
      | |- context [Route.ask_float_loop fuel _ _ _ ?w'] =>
          specialize (IH w'); cbn [stdin printed tl] in IH
      end.
      destruct (fst (Route.ask_float_loop fuel prompt default allow_blank _)).
      * destruct IH as [l [Hl Ha]]; [lia|]. exists l. split; [right; exact Hl | exact Ha].
      * apply IH. lia.
      * apply IH. lia.
Qed.

(** ** Credential acquisition: the three paths *)

Lemma printed_consumed (n : nat) (w : world) (a b : list event) :
  consumed n (printed w a) b = consumed n w (a ++ b).
Proof. unfold printed, consumed; simpl. rewrite <- app_assoc. reflexivity. Qed.

(** X13. [read_api_key] with a variable that is not empty returns it
    stripped, without a prompt and without reading.  With the variable
    unset or empty it prints the notice, prompts once and reads one line:
    an entry that is not blank is returned stripped; a blank entry prints
    the error and raises [SystemExit(1)]. *)
Theorem read_api_key_paths (w : world) :
  (forall c k,
     environ w "ORS_API_KEY" = Some (String c k) ->
     Route.read_api_key w = (Return (PyStr.strip (String c k)), w))
  /\ (forall line rest,
        environ w "ORS_API_KEY" = None \/ environ w "ORS_API_KEY" = Some "" ->
        stdin w = line :: rest ->
        Route.read_api_key w
        = if (PyStr.strip line =? "")%string
          then (Throw (SystemExit 1),
                consumed 1 w (key_prompt ++ [Print "Error: API key is required."]))
          else (Return (PyStr.strip line), consumed 1 w key_prompt)).
Proof.
  split.
  - intros c k Henv. unfold Route.read_api_key, Effects.bind, Effects.getenv.
    rewrite Henv. reflexivity.
  - intros line rest Henv Hin.
    assert (Hrun : Route.read_api_key w
                   = Effects.bind (Effects.print "No ORS_API_KEY in environment.")
                       (fun _ =>
                          Effects.bind
                            (Effects.getpass
                               "Paste your OpenRouteService API key (input hidden): ")
                            (fun key =>
                               if (PyStr.strip key =? "")%string
                               then Effects.bind
                                      (Effects.print "Error: API key is required.")
                                      (fun _ => Effects.throw (SystemExit 1))
                               else Effects.ret (PyStr.strip key))) w).
    { unfold Route.read_api_key. unfold Effects.bind at 1. unfold Effects.getenv.
      destruct Henv as [-> | ->]; reflexivity. }
    rewrite Hrun, bind_print. unfold Effects.bind at 1, Effects.getpass.
    rewrite (input_run _ line rest); [|exact Hin].
    rewrite printed_consumed.
    change ([Print "No ORS_API_KEY in environment."]
              ++ [Prompt "Paste your OpenRouteService API key (input hidden): "])%list
      with key_prompt.
    destruct (PyStr.strip line =? "")%string.
    + rewrite bind_print, consumed_printed. reflexivity.
    + reflexivity.
Qed.

Lemma read_api_key_paths_witness :
  Route.read_api_key (with_key None ["  my-key "; "1"])
  = (Return "my-key", consumed 1 (with_key None ["  my-key "; "1"]) key_prompt).
Proof.
  apply (proj2 (read_api_key_paths (with_key None ["  my-key "; "1"]))
           "  my-key " ["1"] (or_introl eq_refl) eq_refl).
Defined.

(** ** Unit helpers *)

(** The two conversions fail together: a distance that has no value
    in kilometres has none in miles, and conversely, so "N/A" is shown in
    both unit systems or in neither. *)
Lemma meters_none_together (m : pyval) :
  Route.meters_to_km m = None <-> Route.meters_to_miles m = None.
Proof.
  unfold Route.meters_to_km, Route.meters_to_miles.
  destruct (PyVal.to_float m); split; intros H; try discriminate; reflexivity.
Qed.

(** ** The preferences of a session *)

(** X14. With the credential in the environment, [main] writes the banner
    and asks for the unit system.  Only the entry "2", once stripped,
    selects imperial units, and then the fuel rate is not asked for and is
    absent for the whole session; any other entry selects metric units and
    the rate is asked for with [ask_float], blank allowed. *)
Theorem main_unit_choice (w : world) (c : ascii) (k choice : string)
        (rest : list string) :
  environ w "ORS_API_KEY" = Some (String c k) ->
  stdin w = choice :: rest ->
  Route.main w
  = (if (PyStr.strip choice =? "2")%string
     then session (PyStr.strip (String c k)) "imperial" None
     else Effects.bind (Route.ask_float fuel_prompt None true)
            (fun l_per_100km => session (PyStr.strip (String c k)) "metric" l_per_100km))
      (consumed 1 w (banner ++ [units_prompt])).
Proof.
  intros Henv Hin. unfold Route.main.
  rewrite !bind_print, printed_printed.
  unfold Effects.bind at 1.
  assert (Hkey : Route.read_api_key
                   (printed w
                      ([Print "=== OpenRouteService Directions (JSON Parsing) ==="]
                         ++ [Print ("Type 'quit' or 'q' at any prompt to exit." ++ Route.nl)]))
                 = (Return (PyStr.strip (String c k)), printed w banner)).
  { unfold Route.read_api_key, Effects.bind, Effects.getenv.
    cbn [environ printed]. rewrite Henv. reflexivity. }
  rewrite Hkey. unfold Effects.bind at 1.
  rewrite (input_run _ choice rest); [|exact Hin].
  rewrite printed_consumed. fold units_prompt.
  destruct (PyStr.strip choice =? "2")%string.
  - cbn [String.eqb Ascii.eqb Bool.eqb]. rewrite bind_ret. reflexivity.
  - cbn [String.eqb Ascii.eqb Bool.eqb]. reflexivity.
Qed.

Lemma main_unit_choice_witness :
  Route.main (with_key (Some "secret") [" 2 "; "quit"])
  = session "secret" "imperial" None
      (consumed 1 (with_key (Some "secret") [" 2 "; "quit"]) (banner ++ [units_prompt])).
Proof.
  apply (main_unit_choice (with_key (Some "secret") [" 2 "; "quit"])
           "s" "ecret" " 2 " ["quit"]); reflexivity.
Defined.

(** ** Sessions without a fuel estimate *)

Lemma quiet_input (prompt : string) : quiet (Effects.input prompt).
Proof.
  intros w. exists [Prompt prompt]. unfold Effects.input.
  destruct (stdin w); split; reflexivity.
Qed.

Lemma quiet_request (e : event) :
  is_network_event e = true -> quiet (Effects.request e).
Proof.
  intros H w. exists [e]. split; [reflexivity|].
  destruct e; try discriminate; reflexivity.
Qed.

(** Splits a computation along its binds and branches; a fuel line is
    ruled out by the hypotheses. *)
Ltac quiet_step :=
  match goal with
  | |- quiet (Effects.print ("Estimated Fuel Used: " ++ _)) => exfalso; congruence
  | |- quiet (Effects.bind _ _) => apply quiet_bind; [|intros ?]
  | |- quiet (Effects.lift _) => apply quiet_lift
  | |- quiet (Effects.ret _) => apply quiet_ret
  | |- quiet (Effects.print _) => apply quiet_print; reflexivity
  | |- quiet (Effects.request _) => apply quiet_request; reflexivity
  | |- quiet (Route.print_steps _ _ _) => apply quiet_print_steps
  | |- quiet (match ?x with _ => _ end) => destruct x eqn:?
  end.

Lemma quiet_geocode_address (address key : string) :
  quiet (Route.geocode_address address key).
Proof. unfold Route.geocode_address. repeat quiet_step. Qed.

Lemma quiet_fetch_route (orig_coords dest_coords : pyval) (key : string) :
  quiet (Route.fetch_route orig_coords dest_coords key).
Proof. unfold Route.fetch_route. repeat quiet_step. Qed.

Lemma quiet_print_route (orig dest : string) (data : pyval) (unit_system : string)
      (l_per_100km : option float) :
  l_per_100km = None \/ (unit_system =? "metric")%string = false ->
  quiet (Route.print_route orig dest data unit_system l_per_100km).
Proof.
  intros [H | H]; unfold Route.print_route; repeat quiet_step.
Qed.

(** X15. In a session in imperial units, or one without a fuel rate, no
    call to [print] writes a text that begins with "Estimated Fuel Used: ",
    whatever the input and the answers of the network: the fuel estimate of
    [print_route] is never printed.  (Only the beginning of each printed
    text is looked at: a diagnostic that quotes an answer of the network
    may hold those words further on.) *)
Theorem no_fuel_line_without_rate (key unit_system : string)
        (l_per_100km : option float) (fuel : nat) :
  l_per_100km = None \/ (unit_system =? "metric")%string = false ->
  quiet (Route.main_loop fuel key unit_system l_per_100km).
Proof.
  intros H. induction fuel as [|fuel IH].
  - intros w. exists []. simpl. rewrite app_nil_r. split; reflexivity.
  - cbn [Route.main_loop].
    apply quiet_bind; [apply quiet_input | intros orig].
    destruct (Route.is_quit (PyStr.strip orig)); [apply quiet_ret|].
    apply quiet_bind; [apply quiet_input | intros dest].
    destruct (Route.is_quit (PyStr.strip dest)); [apply quiet_ret|].
    apply quiet_bind; [apply quiet_geocode_address | intros orig_coords].
    apply quiet_bind; [apply quiet_geocode_address | intros dest_coords].
    destruct (negb (PyVal.truthy orig_coords) || negb (PyVal.truthy dest_coords)).
    + apply quiet_bind; [apply quiet_print; reflexivity | intros _; exact IH].
    + apply quiet_bind; [apply quiet_fetch_route | intros [data error]].
      destruct (PyVal.truthy error).
      * apply quiet_bind; [apply quiet_lift | intros status].
        apply quiet_bind; [apply quiet_lift | intros message].
        apply quiet_bind; [|intros _; exact IH].
        repeat match goal with
               | |- quiet (if ?c then _ else _) => destruct c
               end; apply quiet_print; reflexivity.
      * apply quiet_bind; [|intros _; exact IH].
        apply quiet_print_route. exact H.
Qed.

(** ** The requests of a session *)

Section Delivers.

Context {A B : Type} (P : event -> Prop).

Lemma delivers_ret (Q : A -> Prop) (a : A) : Q a -> delivers P Q (Effects.ret a).
Proof.
  intros H w. exists []. simpl. rewrite app_nil_r.
  repeat split; [constructor|]. intros a' E. inversion E. subst. exact H.
Qed.

Lemma delivers_lift (o : outcome A) : delivers P (fun _ => True) (Effects.lift o).
Proof.
  intros w. exists []. destruct o; simpl; rewrite app_nil_r;
    repeat split; constructor.
Qed.

Lemma delivers_bind (Q : A -> Prop) (R : B -> Prop) (m : Effects.M A)
      (k : A -> Effects.M B) :
  delivers P Q m -> (forall a, Q a -> delivers P R (k a)) ->
  delivers P R (Effects.bind m k).
Proof.
  intros Hm Hk w. unfold Effects.bind.
  destruct (Hm w) as (out1 & H1 & F1 & Q1).
  destruct (m w) as [[a | e |] w1]; simpl in *.
  - destruct (Hk a (Q1 a eq_refl) w1) as (out2 & H2 & F2 & Q2).
    exists (out1 ++ out2)%list. rewrite H2, H1, <- app_assoc.
    repeat split; [apply Forall_app; split; assumption | exact Q2].
  - exists out1. repeat split; try assumption. discriminate.
  - exists out1. repeat split; try assumption. discriminate.
Qed.

Lemma delivers_weaken (Q Q' : A -> Prop) (m : Effects.M A) :
  delivers P Q m -> (forall a, Q a -> Q' a) -> delivers P Q' m.
Proof.
  intros Hm HQ w. destruct (Hm w) as (out & H1 & F1 & Q1).
  exists out. repeat split; try assumption. intros a E. apply HQ, Q1, E.
Qed.

End Delivers.

Lemma delivers_print (P : event -> Prop) (line : string) :
  P (Print line) -> delivers P (fun _ => True) (Effects.print line).
Proof.
  intros H w. exists [Print line]. repeat split. constructor; [exact H | constructor].
Qed.

Lemma delivers_input (P : event -> Prop) (prompt : string) :
  P (Prompt prompt) -> delivers P (fun _ => True) (Effects.input prompt).
Proof.
  intros H w. exists [Prompt prompt]. unfold Effects.input.
  destruct (stdin w); repeat split; constructor; (exact H || constructor).
Qed.

(** Splits a computation that only prints. *)
Ltac prints_step :=
  match goal with
  | |- delivers _ _ (Effects.bind _ _) =>
      apply delivers_bind with (Q := fun _ => True); [|intros ? _]
  | |- delivers _ _ (Effects.lift _) => apply delivers_lift
  | |- delivers _ _ (Effects.ret _) => apply delivers_ret; exact I
  | |- delivers _ _ (Effects.print _) => apply delivers_print; exact I
  | |- delivers _ _ (match ?x with _ => _ end) => destruct x
  end.

Lemma delivers_print_steps (key unit_system : string) (items : list pyval) :
  forall idx,
    delivers (well_addressed key) (fun _ => True)
             (Route.print_steps unit_system idx items).
Proof.
  induction items as [|step rest IH]; intros idx; simpl.
  - apply delivers_ret. exact I.
  - apply delivers_bind with (Q := fun _ => True); [|intros _ _; apply IH].
    unfold Route.print_step. repeat prints_step.
Qed.

Lemma delivers_print_route (key orig dest : string) (data : pyval)
      (unit_system : string) (l_per_100km : option float) :
  delivers (well_addressed key) (fun _ => True)
           (Route.print_route orig dest data unit_system l_per_100km).
Proof.
  unfold Route.print_route.
  repeat (prints_step || apply delivers_print_steps).
Qed.

(** What the geocoder returns is [None] or a valid pair. *)
Lemma geocode_address_result (address key : string) (w : world) (v : pyval) :
  fst (Route.geocode_address address key w) = Return v ->
  v = VNone \/ valid_pair v.
Proof.
  unfold Route.geocode_address, Effects.bind. rewrite request_run.
  destruct (net w (calls w)) as [e | r]; [intros Hv; left; inversion Hv; reflexivity|].
  intros Hv.
  destruct (status_code r =? 200); cbn in Hv; [|left; inversion Hv; reflexivity].
  destruct (json_body r) as [data|]; cbn in Hv; [|discriminate].
  destruct (PyVal.get data "features" (VList [])) as [feats|]; cbn in Hv; [|discriminate].
  destruct (PyVal.truthy feats); cbn in Hv; [|left; inversion Hv; reflexivity].
  destruct (PyVal.first feats) as [feat|]; cbn in Hv; [|discriminate].
  destruct (PyVal.get feat "geometry" (VDict [])) as [g|]; cbn in Hv; [|discriminate].
  destruct (PyVal.get g "coordinates" VNone) as [coords|]; cbn in Hv; [|discriminate].
  destruct (PyVal.truthy coords); cbn in Hv; [|left; inversion Hv; reflexivity].
  destruct (PyVal.len coords) as [n|]; cbn in Hv; [|discriminate].
  destruct (n =? 2); cbn in Hv; [|left; inversion Hv; reflexivity].
  destruct (PyVal.unpack2 coords) as [[lon lat]|]; cbn in Hv; [|discriminate].
  match type of Hv with
  | context [Effects.lift ?o] => destruct o as [[|]|] eqn:Hr; cbn in Hv
  end; [|left; inversion Hv; reflexivity|discriminate].
  right. inversion Hv. apply range_test in Hr. destruct Hr as [Hlon Hlat].
  exists lon, lat. repeat split; assumption.
Qed.

Lemma delivers_geocode_address (address key : string) :
  delivers (well_addressed key) (fun v => v = VNone \/ valid_pair v)
           (Route.geocode_address address key).
Proof.
  intros w. destruct (geocode_address_trace address key w) as [out [Hs Ho]].
  exists (geocode_request address key :: out). rewrite Hs.
  repeat split.
  - constructor.
    + simpl. repeat split. exists address. reflexivity.
    + destruct Ho as [-> | [line ->]]; repeat constructor.
  - intros v Hv. eapply geocode_address_result. exact Hv.
Qed.

Lemma delivers_fetch_route (orig_coords dest_coords : pyval) (key : string) :
  valid_pair orig_coords -> valid_pair dest_coords ->
  delivers (well_addressed key) (fun _ => True)
           (Route.fetch_route orig_coords dest_coords key).
Proof.
  intros Ho Hd w. rewrite fetch_route_run.
  assert (Hpost : well_addressed key (directions_request orig_coords dest_coords key)).
  { simpl. repeat split. exists orig_coords, dest_coords. repeat split; assumption. }
  destruct (net w (calls w)) as [e | r].
  - exists [directions_request orig_coords dest_coords key;
            Print ("Network error calling directions API: " ++ e)].
    split; [reflexivity|]. split; [|intros; exact I].
    constructor; [exact Hpost|]. repeat constructor.
  - exists [directions_request orig_coords dest_coords key].
    split; [reflexivity|]. split; [|intros; exact I].
    constructor; [exact Hpost | constructor].
Qed.

Lemma truthy_valid (v : pyval) :
  v = VNone \/ valid_pair v -> PyVal.truthy v = true -> valid_pair v.
Proof.
  intros [-> | H] Ht; [discriminate | exact H].
Qed.

(** X16. Every request of the loop goes to one of the two endpoints with
    the credential of the session: a GET to the geocoding endpoint for one
    result with a timeout of 20, or a POST to the directions endpoint with
    a timeout of 30 whose body holds exactly two coordinate pairs, each a
    longitude within [-180, 180] and a latitude within [-90, 90].  No
    directions request is sent with coordinates that failed the geocoder's
    checks. *)
Theorem loop_requests_well_addressed (key unit_system : string)
        (l_per_100km : option float) (fuel : nat) :
  delivers (well_addressed key) (fun _ => True)
           (Route.main_loop fuel key unit_system l_per_100km).
Proof.
  induction fuel as [|fuel IH].
  - intros w. exists []. simpl. rewrite app_nil_r. repeat split. constructor.
  - cbn [Route.main_loop].
    apply delivers_bind with (Q := fun _ => True);
      [apply delivers_input; exact I | intros orig _].
    destruct (Route.is_quit (PyStr.strip orig)); [apply delivers_ret; exact I|].
    apply delivers_bind with (Q := fun _ => True);
      [apply delivers_input; exact I | intros dest _].
    destruct (Route.is_quit (PyStr.strip dest)); [apply delivers_ret; exact I|].
    eapply delivers_bind; [apply delivers_geocode_address | intros orig_coords Ho].
    eapply delivers_bind; [apply delivers_geocode_address | intros dest_coords Hd].
    destruct (PyVal.truthy orig_coords) eqn:Hto;
      destruct (PyVal.truthy dest_coords) eqn:Htd; cbn [negb orb];
      try (apply delivers_bind with (Q := fun _ => True);
           [apply delivers_print; exact I | intros _ _; exact IH]).
    apply delivers_bind with (Q := fun _ => True).
    + apply delivers_fetch_route; apply truthy_valid; assumption.
    + intros [data error] _.
      destruct (PyVal.truthy error).
      * apply delivers_bind with (Q := fun _ => True); [apply delivers_lift | intros status _].
        apply delivers_bind with (Q := fun _ => True); [apply delivers_lift | intros message _].
        apply delivers_bind with (Q := fun _ => True); [|intros _ _; exact IH].
        repeat match goal with
               | |- delivers _ _ (if ?c then _ else _) => destruct c
               end; apply delivers_print; exact I.
      * apply delivers_bind with (Q := fun _ => True); [|intros _ _; exact IH].
        apply delivers_print_route.
Qed.

Lemma no_fuel_line_without_rate_witness :
  quiet (Route.main_loop 3 "key" "imperial" (Some 8%float)).
Proof.
  apply no_fuel_line_without_rate. right. reflexivity.
Defined.

(** ** Missing fields of the segment *)

(** X17. A segment without "duration" and "distance" is shown with "N/A"
    for both, in either unit system, and without a fuel line even when a
    rate was supplied; the steps follow as usual. *)
Theorem print_route_missing_fields (orig dest : string) (data : pyval)
        (unit_system : string) (l_per_100km : option float)
        (segment : list (string * pyval)) (w : world) :
  first_segment data = Ok (VDict segment) ->
  PyVal.lookup "duration" segment = None ->
  PyVal.lookup "distance" segment = None ->
  Route.print_route orig dest data unit_system l_per_100km w
  = steps_and_footer unit_system segment
      (printed w [Print (Route.nl ++ "API Status: Successful route call." ++ Route.nl);
                  Print Route.separator;
                  Print ("Directions from " ++ orig ++ " to " ++ dest);
                  Print "Trip Duration: N/A";
                  Print "Distance: N/A";
                  Print Route.separator]).
Proof.
  intros Hseg Hdur Hdist.
  rewrite (print_route_summary _ _ _ _ _ _ _ Hseg).
  unfold summary, fuel_lines, distance_text, summary_distance, duration_text, field.
  rewrite Hdur, Hdist.
  destruct (unit_system =? "imperial")%string; destruct l_per_100km; reflexivity.
Qed.

Lemma print_route_missing_fields_witness :
  Route.print_route "A" "B" (one_segment [("steps", VList [])]) "metric" (Some 8%float)
    (answering [] [])
  = steps_and_footer "metric" [("steps", VList [])]
      (printed (answering [] [])
         [Print (Route.nl ++ "API Status: Successful route call." ++ Route.nl);
          Print Route.separator;
          Print "Directions from A to B";
          Print "Trip Duration: N/A";
          Print "Distance: N/A";
          Print Route.separator]).
Proof.
  apply (print_route_missing_fields "A" "B" (one_segment [("steps", VList [])]) "metric"
           (Some 8%float) [("steps", VList [])] (answering [] [])); reflexivity.
Defined.

(** ** A session that is quit at once *)

(** X18. With the credential in the environment and imperial units
    chosen, a quit word at the first origin prompt ends the session: [main]
    returns after the farewell, having read two lines and made no network
    call. *)
Theorem main_quit_at_once (w : world) (c : ascii) (k choice quit : string)
        (rest : list string) :
  environ w "ORS_API_KEY" = Some (String c k) ->
  stdin w = choice :: quit :: rest ->
  PyStr.strip choice = "2" ->
  Route.is_quit (PyStr.strip quit) = true ->
  Route.main w
  = (Return tt,
     consumed 2 w (banner ++ [units_prompt; Prompt (Route.nl ++ "Starting Location: ");
                              Print (Route.nl ++ "Bye! 👋")])).
Proof.
  intros Henv Hin Hchoice Hquit. unfold Route.main.
  rewrite !bind_print, printed_printed.
  unfold Effects.bind at 1.
  assert (Hkey : Route.read_api_key
                   (printed w
                      ([Print "=== OpenRouteService Directions (JSON Parsing) ==="]
                         ++ [Print ("Type 'quit' or 'q' at any prompt to exit." ++ Route.nl)]))
                 = (Return (PyStr.strip (String c k)), printed w banner)).
  { unfold Route.read_api_key, Effects.bind, Effects.getenv.
    cbn [environ printed]. rewrite Henv. reflexivity. }
  rewrite Hkey. unfold Effects.bind at 1.
  rewrite (input_run _ choice (quit :: rest)); [|exact Hin].
  rewrite printed_consumed, Hchoice. fold units_prompt.
  cbn [String.eqb Ascii.eqb Bool.eqb]. rewrite bind_ret.
  unfold Effects.bind at 1, Effects.with_fuel.
  cbn [Route.main_loop]. unfold Effects.bind at 1.
  rewrite (input_run _ quit rest); [|rewrite consumed_stdin, Hin; reflexivity].
  rewrite Hquit. cbn [Effects.ret].
  rewrite print_run, consumed_consumed, consumed_printed.
  cbn [Nat.add]. rewrite <- !app_assoc. reflexivity.
Qed.

Lemma main_quit_at_once_witness :
  Route.main (with_key (Some "secret") ["2"; "Q"; "Paris"])
  = (Return tt,
     consumed 2 (with_key (Some "secret") ["2"; "Q"; "Paris"])
       (banner ++ [units_prompt; Prompt (Route.nl ++ "Starting Location: ");
                   Print (Route.nl ++ "Bye! 👋")])).
Proof.
  apply (main_quit_at_once (with_key (Some "secret") ["2"; "Q"; "Paris"])
           "s" "ecret" "2" "Q" ["Paris"]); reflexivity.
Defined.

(** ** Interactive loop: what a turn leaves behind *)

Lemma delivers_impl {A : Type} (P P' : event -> Prop) (Q : A -> Prop)
      (m : Effects.M A) :
  (forall e, P e -> P' e) -> delivers P Q m -> delivers P' Q m.
Proof.
  intros HP Hm w. destruct (Hm w) as (out & H1 & F1 & Q1).
  exists out. repeat split; try assumption.
  eapply Forall_impl; [exact HP | exact F1].
Qed.

Lemma grows_geocode_address (address key : string) :
  delivers (fun _ => True) (fun _ => True) (Route.geocode_address address key).
Proof.
  apply delivers_weaken with (Q := fun v => v = VNone \/ valid_pair v); [|intros; exact I].
  apply delivers_impl with (P := well_addressed key); [intros; exact I|].
  apply delivers_geocode_address.
Qed.

Lemma grows_fetch_route (orig_coords dest_coords : pyval) (key : string) :
  delivers (fun _ => True) (fun _ => True)
           (Route.fetch_route orig_coords dest_coords key).
Proof.
  intros w. rewrite fetch_route_run.
  destruct (net w (calls w)) as [e | r]; eexists; split; try reflexivity;
    split; [repeat constructor | intros; exact I | repeat constructor | intros; exact I].
Qed.

Lemma grows_print_route (orig dest : string) (data : pyval) (unit_system : string)
      (l_per_100km : option float) :
  delivers (fun _ => True) (fun _ => True)
           (Route.print_route orig dest data unit_system l_per_100km).
Proof.
  apply delivers_impl with (P := well_addressed ""); [intros; exact I|].
  apply delivers_print_route.
Qed.

(** Splits a turn of the loop. *)
Ltac grows_step :=
  match goal with
  | |- delivers _ _ (Effects.bind _ _) =>
      apply delivers_bind with (Q := fun _ => True); [|intros ? _]
  | |- delivers _ _ (Effects.lift _) => apply delivers_lift
  | |- delivers _ _ (Effects.ret _) => apply delivers_ret; exact I
  | |- delivers _ _ (Effects.print _) => apply delivers_print; exact I
  | |- delivers _ _ (Effects.input _) => apply delivers_input; exact I
  | |- delivers _ _ (Route.geocode_address _ _) => apply grows_geocode_address
  | |- delivers _ _ (Route.fetch_route _ _ _) => apply grows_fetch_route
  | |- delivers _ _ (Route.print_route _ _ _ _ _) => apply grows_print_route
  | |- delivers _ _ (Route.main_loop _ _ _ _) => assumption
  | |- delivers _ _ (if ?c then _ else _) => destruct c
  | |- delivers _ _ (let '(_, _) := ?x in _) => destruct x
  end.

(** The loop only adds to the output. *)
Lemma main_loop_grows (key unit_system : string) (l_per_100km : option float)
      (fuel : nat) :
  delivers (fun _ => True) (fun _ => True)
           (Route.main_loop fuel key unit_system l_per_100km).
Proof.
  induction fuel as [|fuel IH].
  - intros w. exists []. simpl. rewrite app_nil_r. repeat split. constructor.
  - cbn [Route.main_loop]. repeat grows_step.
Qed.

Lemma bind_input_first {B : Type} (prompt : string) (k : string -> Effects.M B)
      (w : world) :
  (forall a, delivers (fun _ => True) (fun _ => True) (k a)) ->
  exists out,
    stdout (snd (Effects.bind (Effects.input prompt) k w))
    = (stdout w ++ Prompt prompt :: out)%list.
Proof.
  intros Hk. unfold Effects.bind, Effects.input.
  destruct (stdin w) as [|line rest].
  - exists []. reflexivity.
  - match goal with
    | |- context [snd (k line ?w')] => destruct (Hk line w') as (out & Hout & _)
    end.
    exists out. rewrite Hout. cbn [stdout]. rewrite <- app_assoc. reflexivity.
Qed.

(** A turn opens with the prompt for the origin, whatever follows. *)
Lemma loop_prompts_first (fuel : nat) (key unit_system : string)
      (l_per_100km : option float) (w : world) :
  exists out,
    stdout (snd (Route.main_loop (S fuel) key unit_system l_per_100km w))
    = (stdout w ++ origin_prompt :: out)%list.
Proof.
  pose proof (main_loop_grows key unit_system l_per_100km fuel) as IH.
  cbn [Route.main_loop]. apply bind_input_first.
  intros orig. repeat grows_step.
Qed.

(** A quit word at the origin prompt ends the loop. *)
Lemma loop_quit_origin (fuel : nat) (key unit_system : string)
      (l_per_100km : option float) (w : world) (line : string) (rest : list string) :
  stdin w = line :: rest ->
  Route.is_quit (PyStr.strip line) = true ->
  Route.main_loop (S fuel) key unit_system l_per_100km w
  = (Return tt, consumed 1 w [origin_prompt]).
Proof.
  intros Hin Hq. cbn [Route.main_loop]. unfold Effects.bind at 1.
  rewrite (input_run _ line rest w Hin), Hq. reflexivity.
Qed.

(** What follows a turn that ends by printing [line] in the world [w'] and
    going back to the top of the loop. *)
Lemma loop_goes_on (fuel : nat) (key unit_system : string)
      (l_per_100km : option float) (w' : world) (line : string) :
  (exists out,
     stdout (snd (Route.main_loop (S fuel) key unit_system l_per_100km
                    (printed w' [Print line])))
     = (stdout w' ++ Print line :: origin_prompt :: out)%list)
  /\ (forall q rest,
        stdin w' = q :: rest -> Route.is_quit (PyStr.strip q) = true ->
        Route.main_loop (S fuel) key unit_system l_per_100km (printed w' [Print line])
        = (Return tt, consumed 1 (printed w' [Print line]) [origin_prompt])).
Proof.
  split.
  - destruct (loop_prompts_first fuel key unit_system l_per_100km
                (printed w' [Print line])) as [out H].
    exists out. rewrite H. cbn [stdout printed]. rewrite <- app_assoc. reflexivity.
  - intros q rest Hin Hq. apply (loop_quit_origin _ _ _ _ _ q rest); assumption.
Qed.

(** ** Errors of the directions call in the loop *)

(** C8. In a turn where both addresses are geocoded and [fetch_route]
    returns a structured error, the loop prints the line of that status
    (the special one for 400, 401, 403 and 429, "Error status: message"
    otherwise) right after the events of the call, and goes on with the
    next turn: the next event is the prompt for the origin, and a quit word
    there ends the loop with nothing else printed. *)
Theorem error_dispatch :
  (forall fuel key unit_system l_per_100km w orig dest rest
          orig_coords dest_coords w1 w2 payload code message w3,
     stdin w = orig :: dest :: rest ->
     Route.is_quit (PyStr.strip orig) = false ->
     Route.is_quit (PyStr.strip dest) = false ->
     Route.geocode_address (PyStr.strip orig) key (consumed 2 w turn_prompts)
     = (Return orig_coords, w1) ->
     Route.geocode_address (PyStr.strip dest) key w1 = (Return dest_coords, w2) ->
     PyVal.truthy orig_coords = true ->
     PyVal.truthy dest_coords = true ->
     Route.fetch_route orig_coords dest_coords key w2
     = (Return (payload, VDict [("status", VInt code); ("message", message)]), w3) ->
     Route.main_loop (S fuel) key unit_system l_per_100km w
     = Route.main_loop fuel key unit_system l_per_100km
         (printed w3 [Print (error_line code message)])
     /\ (exists out,
           stdout (snd (Route.main_loop (S (S fuel)) key unit_system l_per_100km w))
           = (stdout w3 ++ Print (error_line code message) :: origin_prompt :: out)%list)
     /\ (forall q rest',
           stdin w3 = q :: rest' -> Route.is_quit (PyStr.strip q) = true ->
           Route.main_loop (S (S fuel)) key unit_system l_per_100km w
           = (Return tt,
              consumed 1 (printed w3 [Print (error_line code message)]) [origin_prompt])))
  /\ (forall m, error_line 401 m
                = "Error 401: Unauthorized. Check your API key (ORS_API_KEY).")
  /\ (forall m, error_line 403 m
                = "Error 403: Forbidden. Your API key may not have access to this endpoint.")
  /\ (forall m, error_line 429 m
                = "Error 429: Rate limit exceeded. Please wait and try again later.")
  /\ (forall m, error_line 400 m
                = "Error 400: Bad request. Check coordinates or request body.")
  /\ (forall code m,
        code <> 400 -> code <> 401 -> code <> 403 -> code <> 429 ->
        error_line code m = "Error " ++ PyStr.of_int code ++ ": " ++ PyVal.str m).
Proof.
  split; [|repeat split; try reflexivity].
  - intros fuel key unit_system l_per_100km w orig dest rest
           orig_coords dest_coords w1 w2 payload code message w3
           Hin Ho Hd Hg1 Hg2 Ht1 Ht2 Hf.
    assert (Hturn : forall fuel',
              Route.main_loop (S fuel') key unit_system l_per_100km w
              = Route.main_loop fuel' key unit_system l_per_100km
                  (printed w3 [Print (error_line code message)])).
    { intros fuel'.
      rewrite (loop_turn _ _ _ _ _ _ _ _ _ _ _ _ Hin Ho Hd Hg1 Hg2).
      unfold after_geocoding. rewrite Ht1, Ht2. cbn [negb orb].
      unfold Effects.bind at 1. rewrite Hf.
      cbn [PyVal.truthy PyVal.get PyVal.lookup String.eqb Ascii.eqb Bool.eqb].
      rewrite !bind_lift_ok.
      unfold error_line, Route.eq_int.
      destruct (code =? 401); [reflexivity|].
      destruct (code =? 403); [reflexivity|].
      destruct (code =? 429); [reflexivity|].
      destruct (code =? 400); reflexivity. }
    split; [apply Hturn|].
    rewrite (Hturn (S fuel)).
    apply loop_goes_on.
  - intros code m H400 H401 H403 H429. unfold error_line.
    apply Z.eqb_neq in H400, H401, H403, H429.
    rewrite H400, H401, H403, H429. reflexivity.
Qed.

Lemma error_dispatch_witness :
  Route.main_loop 2 "key" "metric" None unauthorized_session
  = (Return tt,
     consumed 1
       (printed
          (called (called (called (consumed 2 unauthorized_session turn_prompts)
                             [geocode_request "Paris" "key"])
                     [geocode_request "Lyon" "key"])
             [directions_request (VList [VInt 2; VInt 48]) (VList [VInt 4; VInt 45]) "key"])
          [Print (error_line 401 (VDict [("raw", VStr "unauthorized")]))])
       [origin_prompt]).
Proof.
  refine (proj2 (proj2 (proj1 error_dispatch 0%nat "key" "metric" None unauthorized_session
           "Paris" "Lyon" ["quit"]
           (VList [VInt 2; VInt 48]) (VList [VInt 4; VInt 45])
           (called (consumed 2 unauthorized_session turn_prompts)
                   [geocode_request "Paris" "key"])
           (called (called (consumed 2 unauthorized_session turn_prompts)
                           [geocode_request "Paris" "key"])
                   [geocode_request "Lyon" "key"])
           VNone 401 (VDict [("raw", VStr "unauthorized")]) _
           eq_refl eq_refl eq_refl eq_refl eq_refl eq_refl eq_refl eq_refl))
           "quit" [] eq_refl eq_refl).
Defined.

(** ** Interactive loop: the turns that fail *)

(** X8. When one of the two addresses does not geocode, the turn has
    geocoded both, the origin first, each with one call and at most one
    call to print; it makes no directions call, prints the combined
    diagnostic and goes on with the next turn: the next event is the prompt
    for the origin, and a quit word there ends the loop. *)
Theorem loop_geocoding_failure (fuel : nat) (key unit_system : string)
        (l_per_100km : option float) (w : world) (orig dest : string)
        (rest : list string) (orig_coords dest_coords : pyval) (w1 w2 : world) :
  stdin w = orig :: dest :: rest ->
  Route.is_quit (PyStr.strip orig) = false ->
  Route.is_quit (PyStr.strip dest) = false ->
  Route.geocode_address (PyStr.strip orig) key (consumed 2 w turn_prompts)
  = (Return orig_coords, w1) ->
  Route.geocode_address (PyStr.strip dest) key w1 = (Return dest_coords, w2) ->
  PyVal.truthy orig_coords = false \/ PyVal.truthy dest_coords = false ->
  let unable :=
    Print ("Unable to geocode one or both addresses. Please try again." ++ Route.nl) in
  Route.main_loop (S fuel) key unit_system l_per_100km w
  = Route.main_loop fuel key unit_system l_per_100km (printed w2 [unable])
  /\ (exists out1 out2,
        w2 = called (called (consumed 2 w turn_prompts)
                            (geocode_request (PyStr.strip orig) key :: out1))
                    (geocode_request (PyStr.strip dest) key :: out2)
        /\ (out1 = [] \/ exists line, out1 = [Print line])
        /\ (out2 = [] \/ exists line, out2 = [Print line]))
  /\ calls w2 = S (S (calls w))
  /\ (exists out,
        stdout (snd (Route.main_loop (S (S fuel)) key unit_system l_per_100km w))
        = (stdout w2 ++ unable :: origin_prompt :: out)%list)
  /\ (forall q rest',
        stdin w2 = q :: rest' -> Route.is_quit (PyStr.strip q) = true ->
        Route.main_loop (S (S fuel)) key unit_system l_per_100km w
        = (Return tt, consumed 1 (printed w2 [unable]) [origin_prompt])).
Proof.
  intros Hin Ho Hd Hg1 Hg2 Hbad unable.
  assert (Hturn : forall fuel',
            Route.main_loop (S fuel') key unit_system l_per_100km w
            = Route.main_loop fuel' key unit_system l_per_100km (printed w2 [unable])).
  { intros fuel'.
    rewrite (loop_turn _ _ _ _ _ _ _ _ _ _ _ _ Hin Ho Hd Hg1 Hg2).
    unfold after_geocoding.
    assert (Hc : negb (PyVal.truthy orig_coords) || negb (PyVal.truthy dest_coords) = true).
    { destruct Hbad as [-> | ->]; [reflexivity | apply orb_true_r]. }
    rewrite Hc, bind_print. reflexivity. }
  destruct (geocode_address_trace (PyStr.strip orig) key (consumed 2 w turn_prompts))
    as [out1 [H1 Ho1]].
  destruct (geocode_address_trace (PyStr.strip dest) key w1) as [out2 [H2 Ho2]].
  rewrite Hg1 in H1. rewrite Hg2 in H2. cbn [snd] in H1, H2.
  split; [apply Hturn|]. split; [|split].
  - exists out1, out2. rewrite H2, H1. repeat split; assumption.
  - rewrite H2, H1. reflexivity.
  - rewrite (Hturn (S fuel)). apply loop_goes_on.
Qed.

Lemma loop_geocoding_failure_witness :
  Route.main_loop 2 "key" "metric" None
    (answering ["Atlantis"; "Lyon"; "quit"]
       [Answer (ok_json (VDict [("features", VList [])]));
        Answer (ok_json (features_at (VList [VInt 4; VInt 45])))])
  = (Return tt,
     consumed 1
       (printed
          (called
             (printed
                (called
                   (consumed 2
                      (answering ["Atlantis"; "Lyon"; "quit"]
                         [Answer (ok_json (VDict [("features", VList [])]));
                          Answer (ok_json (features_at (VList [VInt 4; VInt 45])))])
                      turn_prompts)
                   [geocode_request "Atlantis" "key"])
                [Print "Error: No results found for address 'Atlantis'."])
             [geocode_request "Lyon" "key"])
          [Print ("Unable to geocode one or both addresses. Please try again."
                    ++ Route.nl)])
       [origin_prompt]).
Proof.
  refine (proj2 (proj2 (proj2 (proj2 (loop_geocoding_failure 0 "key" "metric" None
           (answering ["Atlantis"; "Lyon"; "quit"]
              [Answer (ok_json (VDict [("features", VList [])]));
               Answer (ok_json (features_at (VList [VInt 4; VInt 45])))])
           "Atlantis" "Lyon" ["quit"] VNone (VList [VInt 4; VInt 45])
           _ _ eq_refl eq_refl eq_refl _ _ (or_introl eq_refl)))))
           "quit" [] _ eq_refl);
    reflexivity.
Defined.

(** X9. In a turn where both addresses are geocoded, every answer of the
    directions service with a status other than 200 makes the loop send the
    request, print the line of that status, built from the status and the
    parsed-or-wrapped body, and go on with the next turn: the next event is
    the prompt for the origin, so nothing of [print_route] is printed, and
    a quit word there ends the loop. *)
Theorem loop_http_error (fuel : nat) (key unit_system : string)
        (l_per_100km : option float) (w : world) (orig dest : string)
        (rest : list string) (orig_coords dest_coords : pyval) (w1 w2 : world)
        (r : response) :
  stdin w = orig :: dest :: rest ->
  Route.is_quit (PyStr.strip orig) = false ->
  Route.is_quit (PyStr.strip dest) = false ->
  Route.geocode_address (PyStr.strip orig) key (consumed 2 w turn_prompts)
  = (Return orig_coords, w1) ->
  Route.geocode_address (PyStr.strip dest) key w1 = (Return dest_coords, w2) ->
  PyVal.truthy orig_coords = true ->
  PyVal.truthy dest_coords = true ->
  net w2 (calls w2) = Answer r ->
  status_code r <> 200 ->
  let post := directions_request orig_coords dest_coords key in
  let line := Print (error_line (status_code r) (error_message r)) in
  Route.main_loop (S fuel) key unit_system l_per_100km w
  = Route.main_loop fuel key unit_system l_per_100km (printed (called w2 [post]) [line])
  /\ (exists out,
        stdout (snd (Route.main_loop (S (S fuel)) key unit_system l_per_100km w))
        = (stdout w2 ++ post :: line :: origin_prompt :: out)%list)
  /\ (forall q rest',
        stdin w2 = q :: rest' -> Route.is_quit (PyStr.strip q) = true ->
        Route.main_loop (S (S fuel)) key unit_system l_per_100km w
        = (Return tt, consumed 1 (printed (called w2 [post]) [line]) [origin_prompt])).
Proof.
  intros Hin Ho Hd Hg1 Hg2 Ht1 Ht2 Hnet Hs post line.
  assert (Hturn : forall fuel',
            Route.main_loop (S fuel') key unit_system l_per_100km w
            = Route.main_loop fuel' key unit_system l_per_100km
                (printed (called w2 [post]) [line])).
  { intros fuel'.
    rewrite (loop_turn _ _ _ _ _ _ _ _ _ _ _ _ Hin Ho Hd Hg1 Hg2).
    unfold after_geocoding. rewrite Ht1, Ht2. cbn [negb orb].
    unfold Effects.bind at 1. rewrite fetch_route_run, Hnet.
    apply Z.eqb_neq in Hs. rewrite Hs.
    cbn [PyVal.truthy PyVal.get PyVal.lookup String.eqb Ascii.eqb Bool.eqb].
    rewrite !bind_lift_ok.
    unfold line, error_line, Route.eq_int.
    destruct (status_code r =? 401); [reflexivity|].
    destruct (status_code r =? 403); [reflexivity|].
    destruct (status_code r =? 429); [reflexivity|].
    destruct (status_code r =? 400); reflexivity. }
  split; [apply Hturn|].
  rewrite (Hturn (S fuel)).
  destruct (loop_goes_on fuel key unit_system l_per_100km (called w2 [post])
              (error_line (status_code r) (error_message r))) as [[out Hout] Hquit].
  split.
  - exists out. fold line in Hout. rewrite Hout. cbn [stdout called].
    rewrite <- app_assoc. reflexivity.
  - intros q rest' Hq Hword. exact (Hquit q rest' Hq Hword).
Qed.

Lemma loop_http_error_witness :
  Route.main_loop 2 "key" "metric" None
    (turn_session (Answer {| status_code := 503; text := "busy";
                             json_body := None; headers := [] |}))
  = (Return tt,
     consumed 1
       (printed
          (called (turn_geocoded (Answer {| status_code := 503; text := "busy";
                                            json_body := None; headers := [] |}))
                  [directions_request (VList [VInt 2; VInt 48]) (VList [VInt 4; VInt 45])
                                      "key"])
          [Print "Error 503: {'raw': 'busy'}"])
       [origin_prompt]).
Proof.
  refine (proj2 (proj2 (loop_http_error 0 "key" "metric" None
           (turn_session (Answer {| status_code := 503; text := "busy";
                                    json_body := None; headers := [] |}))
           "Paris" "Lyon" ["quit"]
           (VList [VInt 2; VInt 48]) (VList [VInt 4; VInt 45])
           (called (consumed 2 (turn_session (Answer {| status_code := 503; text := "busy";
                                    json_body := None; headers := [] |})) turn_prompts)
                   [geocode_request "Paris" "key"])
           (turn_geocoded (Answer {| status_code := 503; text := "busy";
                                     json_body := None; headers := [] |}))
           {| status_code := 503; text := "busy"; json_body := None; headers := [] |}
           eq_refl eq_refl eq_refl eq_refl eq_refl eq_refl eq_refl eq_refl _))
           "quit" [] eq_refl eq_refl).
  discriminate.
Defined.
